(** * Hospital management server: the HTTP handlers of [server.js] over the
      schema of [hospital.mysql.sql]

    The development has these parts.

    - [Js]: the JavaScript values the handlers receive and the built-in
      operations [server.js] applies to them ([||], [!], [Number], [String],
      [Math.min], [Math.max], [Number.isFinite], [trim], [slice],
      [toUpperCase], [toLowerCase]).
    - [Sql]: the tables of [hospital.mysql.sql] that the handlers touch, with
      the column types' assignment rules and the statements the handlers
      issue.
    - [Server]: the handlers themselves, one definition per route, as
      functions from a request and a database to a response and a database.
    - [Seed]: the rows the schema file inserts, to run the handlers on.
    - The properties of the routes, and their proofs.

    Numbers.  A JavaScript number is NaN, an infinity, or a finite value,
    kept here as the exact rational it denotes.  The handlers never do
    arithmetic on them; they test them against 0, compare them and hand them
    to the database.  Reading a number from a string rounds it to binary64;
    a number of a JSON body is any finite value, which covers the binary64
    ones.  The two zeros are identified: no handler tells them apart.

    Strings.  A JavaScript string is a sequence of UTF-16 code units; the
    model has the code units 0..255, one [ascii] each.  [toLowerCase] maps
    the ASCII letters and carries other code units unchanged: the handlers
    compare its results with ASCII words only.  [toUpperCase] maps the ASCII
    letters; what it makes of a character outside ASCII is left to the
    runtime, a parameter of the model ([upper_case_of]).

    Conversions that throw.  A [Js.val] is a value whose conversions to a
    number and to a string complete.  A JSON body can also hold an object
    whose conversion throws ([Js.Throwing]); [try_post_billing] and
    [try_post_billing_items] are the two billing handlers on such bodies,
    with the [catch] that answers 500, and they are [post_billing] and
    [post_billing_items] on the bodies all of whose fields are values. *)

From Stdlib Require Import ZArith QArith Qround Qabs Lqa Lia.
From Stdlib Require Import Bool List String Ascii.
From Stdlib Require Import Sorting.Sorted Sorting.Permutation.
From Stdlib Require Import DecimalString.
Import ListNotations.

Local Open Scope string_scope.
Local Open Scope Z_scope.

(* ===================================================================== *)
(** ** JavaScript values and built-ins                                    *)
(* ===================================================================== *)

Module Js.

(** Code units. *)

Definition code (c : ascii) : N := N_of_ascii c.

Definition between (lo hi : N) (c : ascii) : bool :=
  ((lo <=? code c) && (code c <=? hi))%N.

(** WhiteSpace and LineTerminator of ECMAScript, as far as they lie below
    256: TAB, LF, VT, FF, CR, SP and NBSP. *)
Definition is_space (c : ascii) : bool :=
  between 9 13 c || (code c =? 32)%N || (code c =? 160)%N.

Definition is_digit (c : ascii) : bool := between 48 57 c.
Definition is_lower (c : ascii) : bool := between 97 122 c.
Definition is_upper (c : ascii) : bool := between 65 90 c.

Definition upper_char (c : ascii) : ascii :=
  if is_lower c then ascii_of_N (code c - 32) else c.

Definition lower_char (c : ascii) : ascii :=
  if is_upper c then ascii_of_N (code c + 32) else c.

Fixpoint map_string (f : ascii -> ascii) (s : string) : string :=
  match s with
  | EmptyString => EmptyString
  | String c s' => String (f c) (map_string f s')
  end.

(** [s.toLowerCase()]. *)
Definition toLowerCase : string -> string := map_string lower_char.

Definition is_ascii (c : ascii) : bool := (code c <? 128)%N.

(** [s.toUpperCase()]: each character is mapped by itself.  An ASCII
    character becomes [upper_char] of it.  What a character outside ASCII
    becomes is [beyond], Unicode's mapping as the runtime has it: that can
    be two characters (SS for U+00DF) or a character that is none of the
    model's 256 (for U+00B5 and U+00FF). *)
Fixpoint toUpperCase (beyond : ascii -> string) (s : string) : string :=
  match s with
  | EmptyString => EmptyString
  | String c s' =>
      (if is_ascii c then String (upper_char c) EmptyString else beyond c)
      ++ toUpperCase beyond s'
  end.

Fixpoint drop_space (l : list ascii) : list ascii :=
  match l with
  | c :: l' => if is_space c then drop_space l' else l
  | [] => []
  end.

Definition trim_list (l : list ascii) : list ascii :=
  rev (drop_space (rev (drop_space l))).

(** [s.trim()]. *)
Definition trim (s : string) : string :=
  string_of_list_ascii (trim_list (list_ascii_of_string s)).

(** [s.slice(start, end)]: a negative index counts from the end, both
    indices are clamped into [0, length], and an absent [end] is the
    length. *)
Definition slice_index (len i : Z) : Z :=
  if i <? 0 then Z.max (len + i) 0 else Z.min i len.

Definition slice (start : Z) (stop : option Z) (s : string) : string :=
  let len := Z.of_nat (String.length s) in
  let from := slice_index len start in
  let to := match stop with Some e => slice_index len e | None => len end in
  substring (Z.to_nat from) (Z.to_nat (to - from)) s.

(** Numbers. *)

Inductive num : Type :=
| NaN
| PInf
| NInf
| Fin (q : Q).

(** Rounding of an exact value to binary64, to nearest and ties to even:
    what reading a numeric literal does.  [floor_log2 q] is the [e] with
    [2^e <= q < 2^(e+1)] for a positive [q]; below [2^-1022] the spacing
    stays that of the subnormals, [2^-1074]; a result of [2^1024] or more
    is an infinity. *)
Definition pow2 (e : Z) : Q := Qpower (2 # 1) e.

Definition floor_log2 (q : Q) : Z :=
  let e := Z.log2 (Qnum q) - Z.log2 (Zpos (Qden q)) in
  if Qle_bool (pow2 e) q then e else e - 1.

Definition round_half_even (q : Q) : Z :=
  let f := Qfloor q in
  match ((q - inject_Z f) ?= (1 # 2))%Q with
  | Lt => f
  | Gt => f + 1
  | Eq => if Z.even f then f else f + 1
  end.

Definition round_binary64_pos (q : Q) : option Q :=
  let p := Z.max (floor_log2 q) (-1022) - 52 in
  let r := (inject_Z (round_half_even (q / pow2 p)) * pow2 p)%Q in
  if Qle_bool (pow2 1024) r then None else Some (Qred r).

(** The number a numeric literal of exact value [q] denotes. *)
Definition of_exact (q : Q) : num :=
  match (q ?= 0)%Q with
  | Eq => Fin 0
  | Gt => match round_binary64_pos q with
          | Some r => Fin r
          | None => PInf
          end
  | Lt => match round_binary64_pos (- q)%Q with
          | Some r => Fin (- r)
          | None => NInf
          end
  end.

(** Values.  [Obj s] is an object or an array whose conversion to a
    primitive is the string [s]: the elements joined by commas for an array,
    ["[object Object]"] for a plain object.  An object whose conversion
    throws is no [val]: see [field] below. *)
Inductive val : Type :=
| Undefined
| Null
| Bool (b : bool)
| Num (n : num)
| Str (s : string)
| Obj (s : string).

(** ToBoolean. *)
Definition truthy (v : val) : bool :=
  match v with
  | Undefined | Null => false
  | Bool b => b
  | Num NaN => false
  | Num (Fin q) => negb (Qeq_bool q 0)
  | Num _ => true
  | Str s => negb (String.eqb s "")
  | Obj _ => true
  end.

(** [v || d]. *)
Definition or_else (v d : val) : val := if truthy v then v else d.

(** StringToNumber: the StringNumericLiteral grammar. *)

Fixpoint span_digits (l : list ascii) : list ascii * list ascii :=
  match l with
  | c :: l' =>
      if is_digit c then let (d, r) := span_digits l' in (c :: d, r)
      else ([], l)
  | [] => ([], [])
  end.

Definition digit_value (c : ascii) : Z := Z.of_N (code c) - 48.

Definition decimal_value (l : list ascii) : Z :=
  fold_left (fun acc c => 10 * acc + digit_value c) l 0.

Definition hex_digit (c : ascii) : option Z :=
  if is_digit c then Some (digit_value c)
  else if between 97 102 c then Some (Z.of_N (code c) - 87)
  else if between 65 70 c then Some (Z.of_N (code c) - 55)
  else None.

(** Digits of a literal in base [b], most significant first; [None] on an
    empty literal or on a character that is no digit of that base. *)
Fixpoint radix_value (b : Z) (acc : Z) (l : list ascii) : option Z :=
  match l with
  | [] => Some acc
  | c :: l' =>
      match hex_digit c with
      | Some d => if d <? b then radix_value b (b * acc + d) l' else None
      | None => None
      end
  end.

Definition radix_literal (b : Z) (l : list ascii) : option Q :=
  match l with
  | [] => None
  | _ => option_map inject_Z (radix_value b 0 l)
  end.

Definition scaled (digits : list ascii) (e : Z) : Q :=
  inject_Z (decimal_value digits) * Qpower (10 # 1) e.

(** ExponentPart, optional, after the digits [ds] of which the last [k]
    follow the decimal point. *)
Definition exponent_part (ds : list ascii) (k : Z) (l : list ascii)
  : option Q :=
  match l with
  | [] => Some (scaled ds (- k))
  | c :: l' =>
      if ((code c =? 101) || (code c =? 69))%N then
        let '(neg, l'') :=
          match l' with
          | s :: r =>
              if (code s =? 45)%N then (true, r)
              else if (code s =? 43)%N then (false, r)
              else (false, l')
          | [] => (false, l')
          end in
        match span_digits l'' with
        | ((_ :: _) as ex, []) =>
            let e := decimal_value ex in
            Some (scaled ds ((if neg then - e else e) - k))
        | _ => None
        end
      else None
  end.

(** StrUnsignedDecimalLiteral, but for [Infinity]. *)
Definition unsigned_decimal (l : list ascii) : option Q :=
  let (ip, r1) := span_digits l in
  match r1 with
  | c :: r2 =>
      if (code c =? 46)%N then
        let (fp, r3) := span_digits r2 in
        match ip, fp with
        | [], [] => None
        | _, _ => exponent_part (ip ++ fp)%list (Z.of_nat (List.length fp)) r3
        end
      else
        match ip with
        | [] => None
        | _ => exponent_part ip 0 r1
        end
  | [] =>
      match ip with
      | [] => None
      | _ => exponent_part ip 0 []
      end
  end.

Definition infinity_word : list ascii := list_ascii_of_string "Infinity".

Definition list_ascii_eqb (a b : list ascii) : bool :=
  String.eqb (string_of_list_ascii a) (string_of_list_ascii b).

Definition unsigned_literal (l : list ascii) : num :=
  if list_ascii_eqb l infinity_word then PInf
  else match unsigned_decimal l with
       | Some q => of_exact q
       | None => NaN
       end.

Definition neg_num (n : num) : num :=
  match n with
  | NaN => NaN
  | PInf => NInf
  | NInf => PInf
  | Fin q => Fin (- q)
  end.

Definition StringToNumber (s : string) : num :=
  match trim_list (list_ascii_of_string s) with
  | [] => Fin 0
  | c :: l =>
      if (code c =? 45)%N then neg_num (unsigned_literal l)
      else if (code c =? 43)%N then unsigned_literal l
      else if (code c =? 48)%N then
        match l with
        | x :: r =>
            let lit (b : Z) :=
              match radix_literal b r with
              | Some q => of_exact q
              | None => NaN
              end in
            if ((code x =? 120) || (code x =? 88))%N then lit 16
            else if ((code x =? 111) || (code x =? 79))%N then lit 8
            else if ((code x =? 98) || (code x =? 66))%N then lit 2
            else unsigned_literal (c :: l)
        | [] => unsigned_literal (c :: l)
        end
      else unsigned_literal (c :: l)
  end.

(** [Number(v)]. *)
Definition Number (v : val) : num :=
  match v with
  | Undefined => NaN
  | Null => Fin 0
  | Bool b => if b then Fin 1 else Fin 0
  | Num n => n
  | Str s => StringToNumber s
  | Obj s => StringToNumber s
  end.

(** [!n] on a number: true on zero and on NaN. *)
Definition falsy_num (n : num) : bool := negb (truthy (Num n)).

(** [Number.isFinite(n)]. *)
Definition isFinite (n : num) : bool :=
  match n with
  | Fin _ => true
  | _ => false
  end.

(** [a < b] on numbers: false as soon as one side is NaN. *)
Definition lt (a b : num) : bool :=
  match a, b with
  | NaN, _ | _, NaN => false
  | _, NInf => false
  | NInf, _ => true
  | PInf, _ => false
  | Fin _, PInf => true
  | Fin x, Fin y => negb (Qle_bool y x)
  end.

(** [Math.min(a, b)] and [Math.max(a, b)]: NaN as soon as one argument is
    NaN. *)
Definition min (a b : num) : num :=
  match a, b with
  | NaN, _ | _, NaN => NaN
  | _, _ => if lt b a then b else a
  end.

Definition max (a b : num) : num :=
  match a, b with
  | NaN, _ | _, NaN => NaN
  | _, _ => if lt a b then b else a
  end.

(** [String(v)].  The text of a finite number is left out ([None]): the
    handlers only compare such a text with words. *)
Definition ToString (v : val) : option string :=
  match v with
  | Undefined => Some "undefined"
  | Null => Some "null"
  | Bool b => Some (if b then "true" else "false")
  | Num NaN => Some "NaN"
  | Num PInf => Some "Infinity"
  | Num NInf => Some "-Infinity"
  | Num (Fin _) => None
  | Str s | Obj s => Some s
  end.

(** The decimal digits of a non-negative integer, as [String(n)] prints
    them. *)
Definition digits_of (z : Z) : string :=
  NilZero.string_of_uint (N.to_uint (Z.to_N z)).

(** A field of a JSON body: a value, or an object whose conversion to a
    primitive throws a TypeError, which [Number] and [String] pass on.  Such
    is an object with an own [toString] that is no function, as
    [{"toString": null}]: [valueOf] gives the object back and [toString]
    cannot be called.  The object is truthy, and it is no string. *)
Inductive field : Type :=
| Plain (v : val)
| Throwing.

(** [Number(f || d)] for a number [d], or [None] when it throws. *)
Definition number_or (f : field) (d : num) : option num :=
  match f with
  | Plain v => Some (Number (or_else v (Num d)))
  | Throwing => None
  end.

End Js.

(* ===================================================================== *)
(** ** The database: [hospital.mysql.sql]                                 *)
(* ===================================================================== *)

Module Sql.

(** What the platform decides where neither the schema nor the handlers
    do.  Of the database server: the integer it makes of a NaN parameter
    ([None]: it refuses the statement), the hundredths it makes of a
    binary64 parameter assigned to a DECIMAL(10,2) column ([None]: refused),
    and the date it reads in a string ([None]: no date).  Of the JavaScript
    runtime: what [toUpperCase] makes of a character outside ASCII. *)
Record engine : Type := {
  int_of_nan : option Z;
  decimal_of_double : Q -> option Z;
  date_of_string : string -> option string;
  upper_case_of : ascii -> string
}.

(** Rows.  Amounts of DECIMAL(10,2) columns are kept in hundredths. *)

Record patient : Type := {
  p_id : Z;
  p_patient_code : string;
  p_full_name : string
}.

Record department : Type := {
  dpt_id : Z;
  dpt_name : string
}.

Record doctor : Type := {
  doc_id : Z;
  doc_department_id : Z;
  doc_full_name : string
}.

Record appointment : Type := {
  a_id : Z;
  a_patient_id : Z;
  a_doctor_id : Z;
  a_department_id : Z;
  a_appt_date : string;
  a_appt_time : Z;              (* seconds since midnight *)
  a_room : option string;
  a_status : string
}.

Record bill : Type := {
  b_id : Z;
  b_patient_id : Z;
  b_bill_no : string;
  b_bill_date : string;
  b_currency : string;
  b_total_amount : Z;           (* hundredths *)
  b_status : string
}.

Record item : Type := {
  i_id : Z;
  i_bill_id : Z;
  i_description : string;
  i_qty : Z;
  i_unit_price : Z              (* hundredths *)
}.

(** The tables, each in insertion order, and the next AUTO_INCREMENT value
    of [bills] and of [billing_items].  An INSERT takes its id from the
    counter once its values have passed their columns; the id is used up
    even when a key then refuses the row. *)
Record db : Type := {
  patients : list patient;
  departments : list department;
  doctors : list doctor;
  appointments : list appointment;
  bills : list bill;
  billing_items : list item;
  next_bill_id : Z;
  next_item_id : Z
}.

(** The readings of the clock a request takes: [Date.now()],
    [new Date().getFullYear()] and the server's [CURDATE()]. *)
Record clock : Type := {
  now_ms : Z;
  full_year : Z;
  curdate : string
}.

(** *** Column types *)

Definition int_min : Z := -2147483648.
Definition int_max : Z := 2147483647.

(** Largest magnitude of a DECIMAL(10,2), in hundredths: 99999999.99. *)
Definition decimal_10_2_max : Z := 9999999999.

Definition fits_decimal_10_2 (c : Z) : bool := Z.abs c <=? decimal_10_2_max.

(** An assignment to an exact column rounds half away from zero. *)
Definition round_half_away (q : Q) : Z :=
  if Qle_bool 0 q then Qfloor (q + (1 # 2)) else Qceiling (q - (1 # 2)).

(** A binary64 parameter assigned to an INT column (strict SQL mode, the
    server's default: a value out of range fails the statement). *)
Definition int_column (e : engine) (n : Js.num) : option Z :=
  match n with
  | Js.NaN => int_of_nan e
  | Js.PInf | Js.NInf => None
  | Js.Fin q =>
      let z := round_half_away q in
      if (int_min <=? z) && (z <=? int_max) then Some z else None
  end.

(** A binary64 parameter assigned to a DECIMAL(10,2) column. *)
Definition decimal_column (e : engine) (n : Js.num) : option Z :=
  match n with
  | Js.Fin q =>
      match decimal_of_double e q with
      | Some c => if fits_decimal_10_2 c then Some c else None
      | None => None
      end
  | _ => None
  end.

(** A string assigned to a VARCHAR(n) or CHAR(n) column. *)
Definition varchar (n : nat) (s : string) : option string :=
  if (String.length s <=? n)%nat then Some s else None.

(** An exact decimal of [from] decimals brought to [to] decimals, half away
    from zero: [ROUND(x, to)], and the assignment to a DECIMAL(_, to). *)
Definition round_scale (from to : nat) (m : Z) : Z :=
  if (from <=? to)%nat then m * 10 ^ Z.of_nat (to - from)
  else
    let d := 10 ^ Z.of_nat (from - to) in
    Z.sgn m * ((2 * Z.abs m + d) / (2 * d)).

(** An exact decimal of [scale] decimals assigned to a DECIMAL(10,2). *)
Definition assign_decimal_10_2 (scale : nat) (m : Z) : option Z :=
  let c := round_scale scale 2 m in
  if fits_decimal_10_2 c then Some c else None.

(** [col = ?] for an INT column and a binary64 parameter. *)
Definition int_eq_param (z : Z) (n : Js.num) : bool :=
  match n with
  | Js.Fin q => Qeq_bool (inject_Z z) q
  | _ => false
  end.

(** Equality under the tables' collation, which ignores case. *)
Definition collate_eqb (a b : string) : bool :=
  String.eqb (Js.toLowerCase a) (Js.toLowerCase b).

(** *** ORDER BY *)

Section OrderBy.
Context {A : Type} (key : A -> Z).

Fixpoint insert_by (x : A) (l : list A) : list A :=
  match l with
  | [] => [x]
  | y :: l' => if key x <? key y then x :: l else y :: insert_by x l'
  end.

Fixpoint order_by (l : list A) : list A :=
  match l with
  | [] => []
  | x :: l' => insert_by x (order_by l')
  end.
End OrderBy.

(** *** Statements of the billing routes *)

(** [SUM(i.qty * i.unit_price)]: NULL over no rows. *)
Definition line_amount (i : item) : Z := i_qty i * i_unit_price i.

Fixpoint total_of (l : list item) : Z :=
  match l with
  | [] => 0
  | i :: l' => line_amount i + total_of l'
  end.

Definition SUM (l : list item) : option Z :=
  match l with
  | [] => None
  | _ => Some (total_of l)
  end.

Definition COALESCE {A : Type} (x : option A) (d : A) : A :=
  match x with
  | Some a => a
  | None => d
  end.

Definition items_of (d : db) (bill_id : Z) : list item :=
  filter (fun i => i_bill_id i =? bill_id) (billing_items d).

Definition skip_bill_id (d : db) : db :=
  {| patients := patients d; departments := departments d;
     doctors := doctors d; appointments := appointments d;
     bills := bills d; billing_items := billing_items d;
     next_bill_id := next_bill_id d + 1; next_item_id := next_item_id d |}.

Definition skip_item_id (d : db) : db :=
  {| patients := patients d; departments := departments d;
     doctors := doctors d; appointments := appointments d;
     bills := bills d; billing_items := billing_items d;
     next_bill_id := next_bill_id d; next_item_id := next_item_id d + 1 |}.

(** [INSERT INTO bills (patient_id, bill_no, bill_date, currency,
    total_amount, status) VALUES (?, ?, COALESCE(?, CURDATE()), ?, 0.00, ?)].
    The statement fails on a value its column refuses, on a patient that
    does not exist (fk_bills_patient) and on a bill number already taken
    (uk_bills_bill_no).  On success it returns the new id. *)
Definition insert_bill (e : engine) (c : clock) (patientId : Js.num)
    (billNo : string) (billDate : option string) (currency status : string)
    (d : db) : option Z * db :=
  match int_column e patientId, varchar 60 billNo,
        date_of_string e (COALESCE billDate (curdate c)),
        varchar 3 currency with
  | Some pid, Some no, Some date, Some cur =>
      if existsb (fun p => p_id p =? pid) (patients d)
         && negb (existsb (fun b => collate_eqb (b_bill_no b) no) (bills d))
      then
        let id := next_bill_id d in
        let row := {| b_id := id; b_patient_id := pid; b_bill_no := no;
                      b_bill_date := date; b_currency := cur;
                      b_total_amount := 0; b_status := status |} in
        (Some id, {| patients := patients d;
                     departments := departments d;
                     doctors := doctors d;
                     appointments := appointments d;
                     bills := bills d ++ [row];
                     billing_items := billing_items d;
                     next_bill_id := id + 1;
                     next_item_id := next_item_id d |})
      else (None, skip_bill_id d)
  | _, _, _, _ => (None, d)
  end.

(** [INSERT INTO billing_items (bill_id, description, qty, unit_price)
    VALUES (?, ?, ?, ?)]: fails on a value its column refuses and on a bill
    that does not exist (fk_billing_items_bill). *)
Definition insert_item (e : engine) (billId : Js.num) (description : string)
    (qty unitPrice : Js.num) (d : db) : option Z * db :=
  match int_column e billId, varchar 200 description,
        int_column e qty, decimal_column e unitPrice with
  | Some bid, Some descr, Some q, Some price =>
      if existsb (fun b => b_id b =? bid) (bills d) then
        let id := next_item_id d in
        let row := {| i_id := id; i_bill_id := bid; i_description := descr;
                      i_qty := q; i_unit_price := price |} in
        (Some id, {| patients := patients d;
                     departments := departments d;
                     doctors := doctors d;
                     appointments := appointments d;
                     bills := bills d;
                     billing_items := billing_items d ++ [row];
                     next_bill_id := next_bill_id d;
                     next_item_id := id + 1 |})
      else (None, skip_item_id d)
  | _, _, _, _ => (None, d)
  end.

Definition set_total (b : bill) (t : Z) : bill :=
  {| b_id := b_id b; b_patient_id := b_patient_id b;
     b_bill_no := b_bill_no b; b_bill_date := b_bill_date b;
     b_currency := b_currency b; b_total_amount := t;
     b_status := b_status b |}.

(** [UPDATE bills b SET b.total_amount = (SELECT COALESCE(SUM(i.qty *
    i.unit_price), 0) FROM billing_items i WHERE i.bill_id = b.id)
    WHERE b.id = ?]: the statement fails, and changes nothing, when a new
    total does not fit the column. *)
Fixpoint update_totals (d : db) (billId : Js.num) (bs : list bill)
  : option (list bill) :=
  match bs with
  | [] => Some []
  | b :: bs' =>
      let b' :=
        if int_eq_param (b_id b) billId then
          option_map (set_total b)
            (assign_decimal_10_2 2 (COALESCE (SUM (items_of d (b_id b))) 0))
        else Some b in
      match b', update_totals d billId bs' with
      | Some x, Some xs => Some (x :: xs)
      | _, _ => None
      end
  end.

Definition update_bill_total (billId : Js.num) (d : db) : option db :=
  match update_totals d billId (bills d) with
  | Some bs => Some {| patients := patients d;
                       departments := departments d;
                       doctors := doctors d;
                       appointments := appointments d;
                       bills := bs;
                       billing_items := billing_items d;
                       next_bill_id := next_bill_id d;
                       next_item_id := next_item_id d |}
  | None => None
  end.

(** [SELECT id, description, qty, unit_price, ROUND(qty * unit_price, 2) AS
    line_total FROM billing_items WHERE bill_id = ? ORDER BY id ASC]. *)
Record item_row : Type := {
  r_id : Z;
  r_description : string;
  r_qty : Z;
  r_unit_price : Z;
  r_line_total : Z
}.

Definition item_row_of (i : item) : item_row :=
  {| r_id := i_id i; r_description := i_description i; r_qty := i_qty i;
     r_unit_price := i_unit_price i;
     r_line_total := round_scale 2 2 (i_qty i * i_unit_price i) |}.

Definition select_items (billId : Js.num) (d : db) : list item_row :=
  map item_row_of
    (order_by i_id
       (filter (fun i => int_eq_param (i_bill_id i) billId)
          (billing_items d))).

(** *** The appointments route *)

(** The FROM and JOIN part of the appointments query: an appointment with
    its doctor and its department, when both exist. *)
Definition joined (d : db) : list (appointment * doctor * department) :=
  flat_map
    (fun a =>
       flat_map
         (fun doc =>
            if doc_id doc =? a_doctor_id a then
              flat_map
                (fun dpt =>
                   if dpt_id dpt =? a_department_id a then [(a, doc, dpt)]
                   else [])
                (departments d)
            else [])
         (doctors d))
    (appointments d).

(** The query with its WHERE clause, which is either empty ([today] is
    [None]) or [WHERE a.appt_date = CURDATE()], then ORDER BY a.appt_time
    ASC LIMIT 20. *)
Definition select_appointments (today : option string) (d : db)
  : list (appointment * doctor * department) :=
  let keep (r : appointment * doctor * department) :=
    match today with
    | None => true
    | Some date => String.eqb (a_appt_date (fst (fst r))) date
    end in
  firstn 20
    (order_by (fun r => a_appt_time (fst (fst r))) (filter keep (joined d))).

(** *** LIMIT *)

(** [LIMIT ${lq}]: the clause is the text of the number, and the statement
    parses only when that text is an unsigned integer, which is the case
    for a whole number from 0 up to (not including) 10^21. *)
Definition limit_count (lq : Js.num) : option nat :=
  match lq with
  | Js.Fin q =>
      if Qeq_bool q (inject_Z (Qfloor q)) && Qle_bool 0 q
         && negb (Qle_bool (inject_Z (10 ^ 21)) q)
      then Some (Z.to_nat (Qfloor q)) else None
  | _ => None
  end.

End Sql.

(* ===================================================================== *)
(** ** The handlers of [server.js]                                        *)
(* ===================================================================== *)

Module Server.

Import Js Sql.

(** What a handler sends: a status with a JSON body, or, through
    [apiError], a status with [{error: ...}]. *)
Inductive reply (A : Type) : Type :=
| Sent (status : Z) (body : A)
| Failed (status : Z) (error : string).

Arguments Sent {A} status body.
Arguments Failed {A} status error.

Definition status_of {A : Type} (r : reply A) : Z :=
  match r with
  | Sent s _ => s
  | Failed s _ => s
  end.

Definition apiError {A : Type} (status : Z) (error : string) : reply A :=
  Failed status error.

(** The [error] of [dbErrorPayload()]. *)
Definition dbErrorPayload : string := "Database error".

(** [isNonEmptyString(v)]:
    [typeof v === "string" && v.trim().length > 0]. *)
Definition isNonEmptyString (v : val) : bool :=
  match v with
  | Str s => (0 <? String.length (trim s))%nat
  | _ => false
  end.

(** [v.trim()] for a [v] that passed [isNonEmptyString]. *)
Definition trimmed (v : val) : string :=
  match v with
  | Str s => trim s
  | _ => ""
  end.

(** [pickEnum(value, allowed, fallback)]:
    [String(value || "").toLowerCase()] when [allowed] includes it. *)
Definition pickEnum (value : val) (allowed : list string) (fallback : string)
  : string :=
  match ToString (or_else value (Str "")) with
  | Some t =>
      let v := toLowerCase t in
      if existsb (String.eqb v) allowed then v else fallback
  | None => fallback
  end.

(** [generateBillNo()]: [BILL-${yyyy}-${String(Date.now()).slice(-6)}]. *)
Definition generateBillNo (c : clock) : string :=
  let yyyy := full_year c in
  let suffix := slice (-6) None (digits_of (now_ms c)) in
  "BILL-" ++ digits_of yyyy ++ "-" ++ suffix.

(** *** GET /api/patients and GET /api/doctors

    [rows] is what the route's SELECT yields without its LIMIT clause. *)
Section Listing.
Context {A : Type}.

Definition limited (lq : num) (rows : list A) : reply (list A) :=
  match limit_count lq with
  | Some n => Sent 200 (firstn n rows)
  | None => apiError 500 dbErrorPayload
  end.

Definition patients_lq (limit : val) : num :=
  min (Number (or_else limit (Num (Fin 10)))) (Fin 100).

Definition doctors_lq (limit : val) : num :=
  min (Number (or_else limit (Num (Fin 20)))) (Fin 100).

Definition get_patients (limit : val) (rows : list A) : reply (list A) :=
  limited (patients_lq limit) rows.

Definition get_doctors (limit : val) (rows : list A) : reply (list A) :=
  limited (doctors_lq limit) rows.
End Listing.

(** *** GET /api/appointments *)

Definition dayQ (day : val) : option string :=
  option_map toLowerCase (ToString (or_else day (Str "today"))).

(** [dayQ === "all" ? "" : "WHERE a.appt_date = CURDATE()"], as the date the
    rows are held to, if any. *)
Definition where_date (c : clock) (day : val) : option string :=
  match dayQ day with
  | Some q => if String.eqb q "all" then None else Some (curdate c)
  | None => Some (curdate c)
  end.

Definition get_appointments (c : clock) (day : val) (d : db)
  : reply (list (appointment * doctor * department)) :=
  Sent 200 (select_appointments (where_date c day) d).

(** *** POST /api/billing

    [bill_body] is a body whose fields are values, so that every conversion
    of the handler completes; [try_post_billing] below is the handler on
    every JSON body. *)

Record bill_body : Type := {
  patient_id : val;
  currency : val;
  status : val;
  bill_no : val;
  bill_date : val
}.

Definition bill_currency (e : engine) (body : bill_body) : string :=
  if isNonEmptyString (currency body)
  then toUpperCase (upper_case_of e)
         (slice 0 (Some 3) (trimmed (currency body)))
  else "DZD".

Definition post_billing (e : engine) (c : clock) (body : bill_body) (d : db)
  : reply (Z * string) * db :=
  let patientId := Number (or_else (patient_id body) (Num (Fin 0))) in
  if falsy_num patientId then (apiError 400 "patient_id is required", d)
  else
    let currency := bill_currency e body in
    let status :=
      pickEnum (status body) ["unpaid"; "paid"; "partially_paid"; "void"]
        "unpaid" in
    let billNo :=
      if isNonEmptyString (bill_no body) then trimmed (bill_no body)
      else generateBillNo c in
    let billDate :=
      if isNonEmptyString (bill_date body) then Some (trimmed (bill_date body))
      else None in
    match insert_bill e c patientId billNo billDate currency status d with
    | (Some insertId, d') => (Sent 201 (insertId, billNo), d')
    | (None, d') => (apiError 500 dbErrorPayload, d')
    end.

(** *** GET /api/billing/items *)

Definition get_billing_items (billId : val) (d : db)
  : reply (list item_row) :=
  let billId := Number (or_else billId (Num (Fin 0))) in
  if falsy_num billId then apiError 400 "billId is required"
  else Sent 200 (select_items billId d).

(** *** POST /api/billing/items

    [item_body] is a body whose fields are values; [try_post_billing_items]
    below is the handler on every JSON body. *)

Record item_body : Type := {
  bill_id : val;
  description : val;
  qty : val;
  unit_price : val
}.

Definition item_qty (body : item_body) : num :=
  max (Fin 1) (min (Fin 100000) (Number (or_else (qty body) (Num (Fin 1))))).

Definition item_unit_price (body : item_body) : num :=
  Number (or_else (unit_price body) (Num (Fin 0))).

Definition post_billing_items (e : engine) (body : item_body) (d : db)
  : reply Z * db :=
  let billId := Number (or_else (bill_id body) (Num (Fin 0))) in
  if falsy_num billId then (apiError 400 "bill_id is required", d)
  else
    let description :=
      if isNonEmptyString (description body) then trimmed (description body)
      else "" in
    if String.eqb description "" then
      (apiError 400 "description is required", d)
    else
      let qty := item_qty body in
      let unitPrice := item_unit_price body in
      if negb (isFinite unitPrice) || lt unitPrice (Fin 0) then
        (apiError 400 "unit_price must be >= 0", d)
      else
        match insert_item e billId description qty unitPrice d with
        | (None, d1) => (apiError 500 dbErrorPayload, d1)
        | (Some insertId, d1) =>
            match update_bill_total billId d1 with
            | None => (apiError 500 dbErrorPayload, d1)
            | Some d2 => (Sent 201 insertId, d2)
            end
        end.

(** *** The two POST routes of billing on every JSON body

    The handlers again, on bodies that may hold an object whose conversion
    throws.  The whole of a handler stands in a [try]; its [catch] answers
    500 with [dbErrorPayload()].  Every conversion comes before the first
    statement, so a throw leaves the database as it was. *)

(** [isNonEmptyString(f) ? f.trim() : null]: [typeof] throws on nothing. *)
Definition text_of (f : field) : option string :=
  match f with
  | Plain v => if isNonEmptyString v then Some (trimmed v) else None
  | Throwing => None
  end.

(** [pickEnum(f, allowed, fallback)], whose [String(f || "")] may throw. *)
Definition try_pickEnum (f : field) (allowed : list string)
    (fallback : string) : option string :=
  match f with
  | Plain v => Some (pickEnum v allowed fallback)
  | Throwing => None
  end.

Record bill_fields : Type := {
  f_patient_id : field;
  f_currency : field;
  f_status : field;
  f_bill_no : field;
  f_bill_date : field
}.

Definition try_post_billing (e : engine) (c : clock) (body : bill_fields)
    (d : db) : reply (Z * string) * db :=
  match number_or (f_patient_id body) (Fin 0) with
  | None => (apiError 500 dbErrorPayload, d)
  | Some patientId =>
      if falsy_num patientId then (apiError 400 "patient_id is required", d)
      else
        let currency :=
          match text_of (f_currency body) with
          | Some t => toUpperCase (upper_case_of e) (slice 0 (Some 3) t)
          | None => "DZD"
          end in
        match try_pickEnum (f_status body)
                ["unpaid"; "paid"; "partially_paid"; "void"] "unpaid" with
        | None => (apiError 500 dbErrorPayload, d)
        | Some status =>
            let billNo :=
              match text_of (f_bill_no body) with
              | Some t => t
              | None => generateBillNo c
              end in
            let billDate := text_of (f_bill_date body) in
            match insert_bill e c patientId billNo billDate currency status d
            with
            | (Some insertId, d') => (Sent 201 (insertId, billNo), d')
            | (None, d') => (apiError 500 dbErrorPayload, d')
            end
        end
  end.

Record item_fields : Type := {
  f_bill_id : field;
  f_description : field;
  f_qty : field;
  f_unit_price : field
}.

(** The two statements of the items route, the INSERT and the recompute
    UPDATE, and the reply after them. *)
Definition insert_and_recompute (e : engine) (billId : num)
    (description : string) (qty unitPrice : num) (d : db) : reply Z * db :=
  match insert_item e billId description qty unitPrice d with
  | (None, d1) => (apiError 500 dbErrorPayload, d1)
  | (Some insertId, d1) =>
      match update_bill_total billId d1 with
      | None => (apiError 500 dbErrorPayload, d1)
      | Some d2 => (Sent 201 insertId, d2)
      end
  end.

Definition try_post_billing_items (e : engine) (body : item_fields) (d : db)
  : reply Z * db :=
  match number_or (f_bill_id body) (Fin 0) with
  | None => (apiError 500 dbErrorPayload, d)
  | Some billId =>
      if falsy_num billId then (apiError 400 "bill_id is required", d)
      else
        match text_of (f_description body) with
        | None => (apiError 400 "description is required", d)
        | Some description =>
            match number_or (f_qty body) (Fin 1) with
            | None => (apiError 500 dbErrorPayload, d)
            | Some q =>
                let qty := max (Fin 1) (min (Fin 100000) q) in
                match number_or (f_unit_price body) (Fin 0) with
                | None => (apiError 500 dbErrorPayload, d)
                | Some unitPrice =>
                    if negb (isFinite unitPrice) || lt unitPrice (Fin 0) then
                      (apiError 400 "unit_price must be >= 0", d)
                    else
                      insert_and_recompute e billId description qty unitPrice d
                end
            end
        end
  end.

(** The bodies of [try_post_billing] and [try_post_billing_items] whose
    fields are all values. *)
Definition bill_fields_of (body : bill_body) : bill_fields :=
  {| f_patient_id := Plain (patient_id body);
     f_currency := Plain (currency body);
     f_status := Plain (status body);
     f_bill_no := Plain (bill_no body);
     f_bill_date := Plain (bill_date body) |}.

Definition item_fields_of (body : item_body) : item_fields :=
  {| f_bill_id := Plain (bill_id body);
     f_description := Plain (description body);
     f_qty := Plain (qty body);
     f_unit_price := Plain (unit_price body) |}.

(** *** Runs of the two billing routes that write *)

Inductive request : Type :=
| CreateBill (c : clock) (body : bill_body)
| AddItem (body : item_body).

Definition step (e : engine) (d : db) (r : request) : db :=
  match r with
  | CreateBill c body => snd (post_billing e c body d)
  | AddItem body => snd (post_billing_items e body d)
  end.

Definition run (e : engine) (d : db) (rs : list request) : db :=
  fold_left (step e) rs d.

End Server.

(* ===================================================================== *)
(** ** A database and a server to run the handlers on                     *)
(* ===================================================================== *)

Module Seed.

Import Sql.

(** Unicode's capitals of the characters U+0080 to U+00FF, as far as they
    lie among these: the letters from U+00E0 to U+00FE stand 32 above their
    capitals (U+00F7, the division sign, is no letter), and U+00DF becomes
    SS.  The capitals of U+00B5 and U+00FF lie beyond U+00FF; the two are
    left as they are here. *)
Definition latin1_upper (c : ascii) : string :=
  if (Js.code c =? 223)%N then "SS"
  else if Js.between 224 254 c && negb (Js.code c =? 247)%N
       then String (ascii_of_N (Js.code c - 32)) EmptyString
       else String c EmptyString.

(** A server that refuses NaN ([nan = None]) or stores [z] for it
    ([nan = Some z]), reads a price to the nearest hundredth and takes every
    string for a date, under a runtime with the capitals of [latin1_upper]. *)
Definition engine_with (nan : option Z) : engine :=
  {| int_of_nan := nan;
     decimal_of_double := fun q => Some (round_half_away (q * 100));
     date_of_string := fun s => Some s;
     upper_case_of := latin1_upper |}.

Definition strict_engine : engine := engine_with None.

(** The rows [hospital.mysql.sql] inserts, after its closing UPDATE. *)
Definition today : string := "2026-11-03".

Definition seed : db :=
  {| patients :=
       [ {| p_id := 1; p_patient_code := "P-10942"; p_full_name := "Amina H." |};
         {| p_id := 2; p_patient_code := "P-10941"; p_full_name := "Karim S." |};
         {| p_id := 3; p_patient_code := "P-10940"; p_full_name := "Leila M." |};
         {| p_id := 4; p_patient_code := "P-10939"; p_full_name := "Youssef O." |};
         {| p_id := 5; p_patient_code := "P-10938"; p_full_name := "Nadia F." |} ];
     departments :=
       [ {| dpt_id := 1; dpt_name := "Cardiology" |};
         {| dpt_id := 2; dpt_name := "Orthopedics" |};
         {| dpt_id := 3; dpt_name := "Laboratory" |};
         {| dpt_id := 4; dpt_name := "Emergency" |};
         {| dpt_id := 5; dpt_name := "Pediatrics" |};
         {| dpt_id := 6; dpt_name := "Pharmacy" |} ];
     doctors :=
       [ {| doc_id := 1; doc_department_id := 1; doc_full_name := "Dr. Selim R." |};
         {| doc_id := 2; doc_department_id := 3; doc_full_name := "Dr. Imene K." |};
         {| doc_id := 3; doc_department_id := 5; doc_full_name := "Dr. Yacine B." |};
         {| doc_id := 4; doc_department_id := 2; doc_full_name := "Dr. Meriem A." |} ];
     appointments :=
       [ {| a_id := 1; a_patient_id := 1; a_doctor_id := 1; a_department_id := 1;
            a_appt_date := today; a_appt_time := 34200;
            a_room := Some "B-12"; a_status := "confirmed" |};
         {| a_id := 2; a_patient_id := 3; a_doctor_id := 2; a_department_id := 3;
            a_appt_date := today; a_appt_time := 36900;
            a_room := Some "Lab 2"; a_status := "in_progress" |};
         {| a_id := 3; a_patient_id := 5; a_doctor_id := 3; a_department_id := 5;
            a_appt_date := today; a_appt_time := 43200;
            a_room := Some "A-04"; a_status := "confirmed" |};
         {| a_id := 4; a_patient_id := 2; a_doctor_id := 4; a_department_id := 2;
            a_appt_date := today; a_appt_time := 51600;
            a_room := Some "Radiology"; a_status := "pending" |} ];
     bills :=
       [ {| b_id := 1; b_patient_id := 1; b_bill_no := "BILL-2026-0001";
            b_bill_date := today; b_currency := "DZD";
            b_total_amount := 430000; b_status := "unpaid" |} ];
     billing_items :=
       [ {| i_id := 1; i_bill_id := 1; i_description := "Consultation fee";
            i_qty := 1; i_unit_price := 250000 |};
         {| i_id := 2; i_bill_id := 1; i_description := "ECG";
            i_qty := 1; i_unit_price := 180000 |} ];
     next_bill_id := 2;
     next_item_id := 3 |}.

(** A reading of the clock on the seed's day. *)
Definition clock0 : clock :=
  {| now_ms := 1793750400123; full_year := 2026; curdate := today |}.

End Seed.

Import Sql Server Seed.

(* ===================================================================== *)
(** ** The properties, as the specification words them                    *)
(* ===================================================================== *)

(** A request field that names a row: its number is neither zero nor NaN. *)
Definition names_a_row (v : Js.val) : Prop :=
  Js.falsy_num (Js.Number (Js.or_else v (Js.Num (Js.Fin 0)))) = false.

(** A unit price that "is a finite number >= 0". *)
Definition finite_nonneg (n : Js.num) : Prop :=
  exists q, n = Js.Fin q /\ (0 <= q)%Q.

(** A unit price that is "negative or non-finite". *)
Definition negative_or_not_finite (n : Js.num) : Prop :=
  (exists q, n = Js.Fin q /\ (q < 0)%Q)
  \/ n = Js.NaN \/ n = Js.PInf \/ n = Js.NInf.

(** A query parameter that "is 0 or absent". *)
Definition zero_or_absent (v : Js.val) : Prop :=
  v = Js.Undefined \/ exists q, Js.Number v = Js.Fin q /\ (q == 0)%Q.

(** A number that is the id of no bill. *)
Definition references_no_bill (n : Js.num) (d : db) : Prop :=
  forall b, In b (bills d) -> int_eq_param (b_id b) n = false.

(** fk_billing_items_bill: every item belongs to a bill of the table. *)
Definition foreign_keys_hold (d : db) : Prop :=
  forall i, In i (billing_items d) ->
    exists b, In b (bills d) /\ b_id b = i_bill_id i.

(** Rows in ascending id order. *)
Definition ascending_ids (rows : list item_row) : Prop :=
  Sorted (fun a b => r_id a <= r_id b) rows.

(** A table whose rows were inserted under AUTO_INCREMENT: later rows have
    larger ids. *)
Definition inserted_in_id_order (d : db) : Prop :=
  StronglySorted (fun a b => i_id a < i_id b) (billing_items d).

(** The first [n] characters of a string. *)
Fixpoint first_chars (n : nat) (s : string) : string :=
  match n, s with
  | S n', String c s' => String c (first_chars n' s')
  | _, _ => EmptyString
  end.






(** A [day] parameter that is "all", compared without regard to case. *)
Definition is_all (day : Js.val) : Prop :=
  exists s, (day = Js.Str s \/ day = Js.Obj s) /\ Js.toLowerCase s = "all".

(** [total_amount] "equals the sum over all of its billing items of
    quantity * unit_price, rounded to 2 decimal places", for every bill. *)
Definition totals_agree (d : db) : Prop :=
  forall b, In b (bills d) ->
    b_total_amount b = round_scale 2 2 (total_of (items_of d (b_id b))).

(** What the keys of the schema give: items belong to bills, and the ids of
    the bills lie below the next AUTO_INCREMENT value. *)
Definition well_formed (d : db) : Prop :=
  foreign_keys_hold d /\ forall b, In b (bills d) -> b_id b < next_bill_id d.

(** The bill an item request names, and a number that is whole. *)
Definition item_bill (body : item_body) : Js.num :=
  Js.Number (Js.or_else (bill_id body) (Js.Num (Js.Fin 0))).

Definition whole (n : Js.num) : Prop := exists z, n = Js.Fin (inject_Z z).

(** Two databases with the same bills and the same items. *)
Definition same_rows (d d' : db) : Prop :=
  bills d' = bills d /\ billing_items d' = billing_items d.

(** A request after which the totals are up to date: a bill creation, an
    item addition that stores nothing, or an item addition that names its
    bill by a whole number and is answered 201. *)
Definition recomputed (e : engine) (d : db) (r : request) : Prop :=
  match r with
  | CreateBill _ _ => True
  | AddItem body =>
      same_rows d (snd (post_billing_items e body d))
      \/ (status_of (fst (post_billing_items e body d)) = 201
          /\ whole (item_bill body))
  end.

Fixpoint recomputed_all (e : engine) (d : db) (rs : list request) : Prop :=
  match rs with
  | [] => True
  | r :: rs' => recomputed e d r /\ recomputed_all e (step e d r) rs'
  end.

(** Each bill keeps its id; a bill the parameter names gets the rounded
    sum of its items for a total, and every other bill is left alone. *)
Definition retotalled (d : db) (n : Js.num) (b b' : bill) : Prop :=
  b_id b' = b_id b
  /\ if int_eq_param (b_id b) n
     then b_total_amount b' = round_scale 2 2 (total_of (items_of d (b_id b)))
     else b' = b.

(** The values of the ENUM column [bills.status]. *)
Definition bill_statuses : list string :=
  ["unpaid"; "paid"; "partially_paid"; "void"].

(** What identifies a bill: every column but the total. *)
Definition bill_identity (b : bill)
  : Z * Z * string * string * string * string :=
  (b_id b, b_patient_id b, b_bill_no b, b_bill_date b, b_currency b,
   b_status b).

(** The keys of the two billing tables: the foreign key of the items, ids
    below the next AUTO_INCREMENT value and ascending in insertion order
    (so no id occurs twice), and no bill number taken twice under the
    collation (uk_bills_bill_no). *)
Definition keys_hold (d : db) : Prop :=
  well_formed d
  /\ inserted_in_id_order d
  /\ (forall i, In i (billing_items d) -> i_id i < next_item_id d)
  /\ StronglySorted (fun a b => b_id a < b_id b) (bills d)
  /\ StronglySorted
       (fun a b => collate_eqb (b_bill_no a) (b_bill_no b) = false) (bills d).

(** The sum of the [line_total] column of a list of rows. *)
Fixpoint sum_line_totals (rows : list item_row) : Z :=
  match rows with
  | [] => 0
  | r :: rows' => r_line_total r + sum_line_totals rows'
  end.

(** A string without white space at either end. *)
Definition no_outer_space (s : string) : Prop :=
  match list_ascii_of_string s with
  | [] => True
  | c :: l => Js.is_space c = false /\ Js.is_space (last l c) = false
  end.

(** [keys_hold], read off the columns it speaks of: the ids and the numbers
    of the bills, the items, and the two counters. *)
Definition keys_of_columns (ids : list Z) (nos : list string)
    (items : list item) (next_bill next_item : Z) : Prop :=
  (forall i, In i items -> In (i_bill_id i) ids)
  /\ Forall (fun z => z < next_bill) ids
  /\ StronglySorted (fun a b => i_id a < i_id b) items
  /\ (forall i, In i items -> i_id i < next_item)
  /\ StronglySorted Z.lt ids
  /\ StronglySorted (fun a b => collate_eqb a b = false) nos.

(* ===================================================================== *)
(** ** The patients and doctors routes of [server.js]                     *)
(* ===================================================================== *)

Module Directory.

(** *** GET /api/doctors: [toInitials] *)

(** [s.replace(/^Dr\.?\s+/i, "")]: a leading [Dr], in either case, an
    optional full stop and the white space after them, of which there must
    be some, are removed. *)
Definition strip_title (l : list ascii) : list ascii :=
  match l with
  | d :: r :: rest =>
      if ((Js.code (Js.lower_char d) =? 100)
          && (Js.code (Js.lower_char r) =? 114))%N then
        let after :=
          match rest with
          | dot :: t => if (Js.code dot =? 46)%N then t else rest
          | [] => rest
          end in
        match after with
        | c :: _ => if Js.is_space c then Js.drop_space after else l
        | [] => l
        end
      else l
  | _ => l
  end.

(** [s.split(/\s+/)]: the pieces between the runs of white space, an empty
    piece standing before a leading run and after a trailing one. *)
Fixpoint split_space (in_run : bool) (piece : list ascii) (l : list ascii)
  : list (list ascii) :=
  match l with
  | [] => [rev piece]
  | c :: l' =>
      if Js.is_space c then
        if in_run then split_space true piece l'
        else rev piece :: split_space true [] l'
      else split_space false (c :: piece) l'
  end.

(** [Boolean(p)] for a string [p]. *)
Definition nonempty (p : list ascii) : bool :=
  match p with
  | [] => false
  | _ => true
  end.

(** [p[0].toUpperCase()] for a piece that is not empty, under the
    runtime's capitals [beyond] of the characters outside ASCII. *)
Definition first_upper (beyond : ascii -> string) (p : list ascii) : string :=
  match p with
  | c :: _ => Js.toUpperCase beyond (String c EmptyString)
  | [] => EmptyString
  end.

(** [toInitials(fullName)], for a name that is a string:
    [String(fullName || "").replace(/^Dr\.?\s+/i, "").split(/\s+/)
       .filter(Boolean).slice(0, 2).map((p) => p[0].toUpperCase())], then
    [(letters.join("") || "DR").slice(0, 2)]. *)
Definition toInitials (beyond : ascii -> string) (fullName : string)
  : string :=
  let letters :=
    map (first_upper beyond)
      (firstn 2
         (filter nonempty
            (split_space false []
               (strip_title (list_ascii_of_string fullName))))) in
  let joined := String.concat "" letters in
  Js.slice 0 (Some 2) (if String.eqb joined "" then "DR" else joined).

(** *** POST /api/patients and POST /api/doctors, up to their INSERT

    On bodies whose fields are values. *)

(** What a handler has done when it reaches its INSERT: sent an error, or
    bound these values to the statement. *)
Inductive checked (A : Type) : Type :=
| Refused (status : Z) (error : string)
| Bound (values : A).

Arguments Refused {A} status error.
Arguments Bound {A} values.

(** [pickEnum(value, allowed, null)]. *)
Definition pickEnumOrNull (value : Js.val) (allowed : list string)
  : option string :=
  match Js.ToString (Js.or_else value (Js.Str "")) with
  | Some t =>
      let v := Js.toLowerCase t in
      if existsb (String.eqb v) allowed then Some v else None
  | None => None
  end.

(** [isNonEmptyString(v) ? v.trim() : null]. *)
Definition trimmed_or_null (v : Js.val) : option string :=
  if isNonEmptyString v then Some (trimmed v) else None.

(** [generatePatientCode()]: [`P-${n}`], where [n] is what
    [Math.floor(10000 + Math.random() * 90000)] gave. *)
Definition generatePatientCode (n : Z) : string :=
  "P-" ++ Js.digits_of n.

Record patient_body : Type := {
  pb_full_name : Js.val;
  pb_patient_code : Js.val;
  pb_gender : Js.val;
  pb_status : Js.val;
  pb_phone : Js.val;
  pb_dob : Js.val
}.

(** The parameters of [INSERT INTO patients (patient_code, full_name, dob,
    gender, phone, status)]. *)
Record patient_values : Type := {
  pv_patient_code : string;
  pv_full_name : string;
  pv_dob : option string;
  pv_gender : option string;
  pv_phone : option string;
  pv_status : string
}.

Definition patient_statuses : list string :=
  ["stable"; "observation"; "testing"; "critical"; "discharged"].

Definition genders : list string := ["female"; "male"; "other"].

Definition post_patients (n : Z) (body : patient_body)
  : checked patient_values :=
  let fullName :=
    if isNonEmptyString (pb_full_name body) then trimmed (pb_full_name body)
    else "" in
  if String.eqb fullName "" then Refused 400 "full_name is required"
  else
    let patientCode :=
      if isNonEmptyString (pb_patient_code body)
      then trimmed (pb_patient_code body)
      else generatePatientCode n in
    let gender := pickEnumOrNull (pb_gender body) genders in
    let status := pickEnum (pb_status body) patient_statuses "stable" in
    let phone := trimmed_or_null (pb_phone body) in
    let dob := trimmed_or_null (pb_dob body) in
    Bound {| pv_patient_code := patientCode; pv_full_name := fullName;
             pv_dob := dob; pv_gender := gender; pv_phone := phone;
             pv_status := status |}.

Record doctor_body : Type := {
  db_full_name : Js.val;
  db_department_id : Js.val;
  db_specialty : Js.val;
  db_email : Js.val;
  db_phone : Js.val;
  db_status : Js.val
}.

(** The parameters of [INSERT INTO doctors (department_id, full_name,
    specialty, email, phone, status)]. *)
Record doctor_values : Type := {
  dv_department_id : Js.num;
  dv_full_name : string;
  dv_specialty : option string;
  dv_email : option string;
  dv_phone : option string;
  dv_status : string
}.

Definition doctor_statuses : list string :=
  ["available"; "on_duty"; "off_duty"; "on_rounds"].

Definition post_doctors (body : doctor_body) : checked doctor_values :=
  let fullName :=
    if isNonEmptyString (db_full_name body) then trimmed (db_full_name body)
    else "" in
  if String.eqb fullName "" then Refused 400 "full_name is required"
  else
    let departmentId :=
      Js.Number (Js.or_else (db_department_id body) (Js.Num (Js.Fin 0))) in
    if Js.falsy_num departmentId then Refused 400 "department_id is required"
    else
      let specialty := trimmed_or_null (db_specialty body) in
      let email := trimmed_or_null (db_email body) in
      let phone := trimmed_or_null (db_phone body) in
      let status := pickEnum (db_status body) doctor_statuses "available" in
      Bound {| dv_department_id := departmentId; dv_full_name := fullName;
               dv_specialty := specialty; dv_email := email;
               dv_phone := phone; dv_status := status |}.

End Directory.

(** An optional text column as a handler binds it: null, or a string that
    is not empty and has no white space at either end. *)
Definition null_or_trimmed (o : option string) : Prop :=
  match o with
  | None => True
  | Some s => s <> "" /\ no_outer_space s
  end.

(** A string without any of the letters [a] to [z]. *)
Definition no_lower_case (s : string) : Prop :=
  Forall (fun c => Js.is_lower c = false) (list_ascii_of_string s).

(** A number that is no whole number: an infinity, or a finite value with
    a fractional part. *)
Definition not_whole (n : Js.num) : Prop :=
  n = Js.PInf \/ n = Js.NInf
  \/ exists q, n = Js.Fin q /\ ~ (q == inject_Z (Qfloor q))%Q.

(** A listed row that shows a stored item: its id, description, quantity
    and unit price, with "a line_total field equal to qty * unit_price
    rounded to 2 decimal places". *)
Definition shows (r : item_row) (i : item) : Prop :=
  r_id r = i_id i
  /\ r_description r = i_description i
  /\ r_qty r = i_qty i
  /\ r_unit_price r = i_unit_price i
  /\ r_line_total r = round_scale 2 2 (i_qty i * i_unit_price i).

(** The items of a bill: the rows of the table whose [bill_id] is the
    bill's id, in the table's order. *)
Fixpoint items_of_bill (id : Z) (l : list item) : list item :=
  match l with
  | [] => []
  | i :: l' =>
      if Z.eq_dec (i_bill_id i) id then i :: items_of_bill id l'
      else items_of_bill id l'
  end.

(** The status a bill is to be stored with: the request's status in small
    letters when that is one of the four words (the status being a string,
    or an array or object that converts to one), and "unpaid" for every
    other value: another text, a number, a boolean, null, nothing. *)
Definition spec_status (v : Js.val) : string :=
  match v with
  | Js.Str s | Js.Obj s =>
      if in_dec string_dec (Js.toLowerCase s) bill_statuses
      then Js.toLowerCase s else "unpaid"
  | _ => "unpaid"
  end.

(** A field that names a row, and a field that holds a text: a value that
    does, not an object whose conversion throws. *)
Definition field_names_a_row (f : Js.field) : Prop :=
  exists v, f = Js.Plain v /\ names_a_row v.

Definition field_names_no_row (f : Js.field) : Prop :=
  exists v, f = Js.Plain v /\ ~ names_a_row v.

Definition field_is_text (f : Js.field) : Prop :=
  exists v, f = Js.Plain v /\ isNonEmptyString v = true.

(** The unit price of a request, read as a number: [n]. *)
Definition unit_price_reads (body : item_fields) (n : Js.num) : Prop :=
  exists v, f_unit_price body = Js.Plain v
            /\ n = Js.Number (Js.or_else v (Js.Num (Js.Fin 0))).

(* ===================================================================== *)
(** ** Reading numbers                                                    *)
(* ===================================================================== *)

Example number_of_strings :
  Js.Number (Js.Str " 42 ") = Js.Fin 42
  /\ Js.Number (Js.Str "abc") = Js.NaN
  /\ Js.Number (Js.Str "") = Js.Fin 0
  /\ Js.Number (Js.Str "0x1f") = Js.Fin 31
  /\ Js.Number (Js.Str "-Infinity") = Js.NInf
  /\ Js.Number (Js.Str "1e999") = Js.PInf
  /\ Js.Number (Js.Str "1e-999") = Js.Fin 0
  /\ Js.Number (Js.Str "2.5e0") = Js.Fin (5 # 2)
  /\ Js.Number (Js.Str "99.99999999999999999999") = Js.Fin 100
  /\ Js.Number (Js.Str "0.1") = Js.Fin (3602879701896397 # 36028797018963968)
  /\ Js.Number (Js.Str "2.5.1") = Js.NaN
  /\ Js.Number (Js.Str ".") = Js.NaN
  /\ Js.Number (Js.Str "12px") = Js.NaN.
Proof. vm_compute. repeat split; reflexivity. Qed.

(* ===================================================================== *)
(** ** Numbers: comparisons and clamps                                    *)
(* ===================================================================== *)

(** [Math.min(n, hi)] is NaN exactly on NaN and otherwise at most [hi]:
    [n] itself when [n <= hi], and [hi] beyond. *)
Lemma min_with_bound (n : Js.num) (hi : Q) :
  match Js.min n (Js.Fin hi) with
  | Js.NaN => n = Js.NaN
  | Js.PInf => False
  | Js.NInf => n = Js.NInf
  | Js.Fin q =>
      (q <= hi)%Q
      /\ (n = Js.PInf /\ q = hi
          \/ exists x, n = Js.Fin x
                       /\ ((x <= hi)%Q -> q = x) /\ ((hi < x)%Q -> q = hi))
  end.
Proof.
  destruct n as [| | |x]; simpl; try reflexivity.
  - split; [apply Qle_refl|]. now left.
  - destruct (Qle_bool x hi) eqn:E; simpl.
    + apply Qle_bool_iff in E. split; [exact E|]. right. exists x.
      repeat split; auto. intro L. exfalso. exact (Qlt_not_le _ _ L E).
    + split; [apply Qle_refl|]. right. exists x.
      repeat split; auto. intro L. apply Qle_bool_iff in L. congruence.
Qed.

Lemma limit_count_le (q : Q) (n : nat) :
  (q <= 100)%Q -> limit_count (Js.Fin q) = Some n -> (n <= 100)%nat.
Proof.
  intros Hq H. unfold limit_count in H.
  destruct (_ && _) in H; [|discriminate].
  injection H as <-.
  assert (L : Qfloor q <= 100).
  { change 100 with (Qfloor 100). apply Qfloor_resp_le. exact Hq. }
  lia.
Qed.

Lemma limit_of_min (n : Js.num) (k : nat) :
  limit_count (Js.min n (Js.Fin 100)) = Some k -> (k <= 100)%nat.
Proof.
  intro H. pose proof (min_with_bound n 100) as M.
  destruct (Js.min n (Js.Fin 100)) as [| | |q]; try discriminate.
  destruct M as [L _]. exact (limit_count_le q k L H).
Qed.

Lemma limited_rows {A : Type} (n : Js.num) (rows out : list A) (s : Z) :
  limited (Js.min n (Js.Fin 100)) rows = Sent s out ->
  exists k, (k <= 100)%nat /\ out = firstn k rows /\ (List.length out <= 100)%nat.
Proof.
  unfold limited. intro H.
  destruct (limit_count _) as [k|] eqn:E; [|discriminate].
  injection H as _ <-. pose proof (limit_of_min n k E) as L.
  exists k. repeat split; auto.
  rewrite length_firstn. lia.
Qed.

Lemma min_of_fin (x : Q) :
  Js.min (Js.Fin x) (Js.Fin 100) = Js.Fin (if Qle_bool x 100 then x else 100).
Proof.
  simpl. destruct (Qle_bool x 100); reflexivity.
Qed.

(** C7.  GET /api/patients?limit=N and GET /api/doctors?limit=N: whatever
    the limit parameter is, a list that is sent is the first [k] rows of the
    query's result for some [k <= 100], so it has at most 100 rows; a limit
    that reads as the number [x] gives the row limit [x] when [x <= 100] and
    100 beyond; and an absent limit gives 10 rows of patients and 20 of
    doctors. *)
Theorem list_limit_at_most_100 :
  forall (A : Type) (limit : Js.val) (rows : list A),
    (forall s out, get_patients limit rows = Sent s out ->
       exists k, (k <= 100)%nat /\ out = firstn k rows
                 /\ (List.length out <= 100)%nat)
    /\ (forall s out, get_doctors limit rows = Sent s out ->
       exists k, (k <= 100)%nat /\ out = firstn k rows
                 /\ (List.length out <= 100)%nat)
    /\ (forall x, Js.truthy limit = true -> Js.Number limit = Js.Fin x ->
          patients_lq limit = Js.Fin (if Qle_bool x 100 then x else 100)
          /\ doctors_lq limit = Js.Fin (if Qle_bool x 100 then x else 100))
    /\ get_patients Js.Undefined rows = Sent 200 (firstn 10 rows)
    /\ get_doctors Js.Undefined rows = Sent 200 (firstn 20 rows).
Proof.
  intros A limit rows. split; [|split; [|split; [|split]]].
  - intros s out H. exact (limited_rows _ rows out s H).
  - intros s out H. exact (limited_rows _ rows out s H).
  - intros x T N. unfold patients_lq, doctors_lq, Js.or_else.
    rewrite T, N. split; apply min_of_fin.
  - reflexivity.
  - reflexivity.
Qed.

(** Limits that are no unsigned integer (a word, a negative number, a
    fraction) make the statement fail: the reply is 500 and carries no
    rows. *)
Example list_limit_replies :
  get_patients (Js.Str "abc") [1; 2; 3] = Failed 500 dbErrorPayload
  /\ get_patients (Js.Str "-1") [1; 2; 3] = Failed 500 dbErrorPayload
  /\ get_patients (Js.Str "2.5") [1; 2; 3] = Failed 500 dbErrorPayload
  /\ get_patients (Js.Str "2") [1; 2; 3] = Sent 200 [1; 2]
  /\ get_doctors (Js.Str "1e9") (repeat 7 150) = Sent 200 (repeat 7 100)
  /\ get_doctors (Js.Str "") (repeat 7 150) = Sent 200 (repeat 7 20).
Proof. vm_compute. repeat split; reflexivity. Qed.

(* ===================================================================== *)
(** ** POST /api/billing/items: validation                                *)
(* ===================================================================== *)

Lemma nonempty_trimmed (v : Js.val) :
  isNonEmptyString v = true -> String.eqb (trimmed v) "" = false.
Proof.
  destruct v; simpl; try discriminate.
  destruct (Js.trim s); [discriminate | reflexivity].
Qed.

Lemma price_check (n : Js.num) :
  (negb (Js.isFinite n) || Js.lt n (Js.Fin 0) = true <-> negative_or_not_finite n)
  /\ (negb (Js.isFinite n) || Js.lt n (Js.Fin 0) = false <-> finite_nonneg n).
Proof.
  unfold negative_or_not_finite, finite_nonneg.
  destruct n as [| | |q]; simpl.
  - split; split; intro H; try discriminate; auto.
    destruct H as (q & H & _); discriminate.
  - split; split; intro H; try discriminate; auto.
    destruct H as (q & H & _); discriminate.
  - split; split; intro H; try discriminate; auto.
    destruct H as (q & H & _); discriminate.
  - destruct (Qle_bool 0 q) eqn:E; simpl.
    + apply Qle_bool_iff in E. split; split; intro H; try discriminate.
      * destruct H as [(x & X & L) | [H | [H | H]]]; try discriminate.
        injection X as <-. exfalso. exact (Qlt_not_le _ _ L E).
      * exists q. auto.
      * reflexivity.
    + assert (L : (q < 0)%Q).
      { apply Qnot_le_lt. intro L. apply Qle_bool_iff in L. congruence. }
      split; split; intro H; try discriminate.
      * left. exists q. auto.
      * reflexivity.
      * destruct H as (x & X & P). injection X as <-.
        exfalso. exact (Qlt_not_le _ _ L P).
Qed.

(** *** Bodies with an object whose conversion throws *)

(** On a body whose fields are all values the two handlers are those of
    the sections above. *)
Lemma try_post_billing_items_plain (e : engine) (body : item_body) (d : db) :
  try_post_billing_items e (item_fields_of body) d
  = post_billing_items e body d.
Proof.
  unfold try_post_billing_items, post_billing_items, item_fields_of,
    insert_and_recompute, item_qty, item_unit_price.
  cbn [f_bill_id f_description f_qty f_unit_price Js.number_or text_of].
  destruct (Js.falsy_num _); [reflexivity|].
  destruct (isNonEmptyString (description body)) eqn:T.
  - rewrite (nonempty_trimmed _ T). reflexivity.
  - reflexivity.
Qed.

Lemma try_post_billing_plain (e : engine) (c : clock) (body : bill_body)
    (d : db) :
  try_post_billing e c (bill_fields_of body) d = post_billing e c body d.
Proof.
  unfold try_post_billing, post_billing, bill_fields_of, bill_currency.
  cbn [f_patient_id f_currency f_status f_bill_no f_bill_date Js.number_or
       text_of try_pickEnum].
  destruct (Js.falsy_num _); [reflexivity|].
  destruct (isNonEmptyString (currency body)),
    (isNonEmptyString (bill_no body)),
    (isNonEmptyString (bill_date body)); reflexivity.
Qed.

Lemma unit_price_reads_iff (body : item_fields) (n : Js.num) :
  unit_price_reads body n
  <-> Js.number_or (f_unit_price body) (Js.Fin 0) = Some n.
Proof.
  unfold unit_price_reads. destruct (f_unit_price body) as [v|]; simpl.
  - split.
    + intros (w & W & ->). injection W as <-. reflexivity.
    + intro H. injection H as <-. exists v. auto.
  - split; [intros (w & W & _)|]; discriminate.
Qed.

(** The reply of the handler once its bill id and description have
    passed. *)
Lemma try_item_after_checks (e : engine) (body : item_fields) (d : db)
    (b t : Js.val) :
  f_bill_id body = Js.Plain b -> names_a_row b ->
  f_description body = Js.Plain t -> isNonEmptyString t = true ->
  try_post_billing_items e body d =
    match Js.number_or (f_qty body) (Js.Fin 1) with
    | None => (Failed 500 dbErrorPayload, d)
    | Some q =>
        match Js.number_or (f_unit_price body) (Js.Fin 0) with
        | None => (Failed 500 dbErrorPayload, d)
        | Some p =>
            if negb (Js.isFinite p) || Js.lt p (Js.Fin 0)
            then (Failed 400 "unit_price must be >= 0", d)
            else
              insert_and_recompute e
                (Js.Number (Js.or_else b (Js.Num (Js.Fin 0)))) (trimmed t)
                (Js.max (Js.Fin 1) (Js.min (Js.Fin 100000) q)) p d
        end
    end.
Proof.
  intros B Hb T Ht. unfold try_post_billing_items. rewrite B, T.
  cbn [Js.number_or text_of]. unfold names_a_row in Hb. rewrite Hb, Ht.
  reflexivity.
Qed.

(** The two statements answer 201 with the new id when the database
    carries both out, and 500 otherwise. *)
Lemma insert_and_recompute_replies (e : engine) (n : Js.num) (descr : string)
    (q p : Js.num) (d : db) :
  (forall id d2,
     insert_and_recompute e n descr q p d = (Sent 201 id, d2)
     <-> exists d1, insert_item e n descr q p d = (Some id, d1)
                    /\ update_bill_total n d1 = Some d2)
  /\ ((exists id, fst (insert_and_recompute e n descr q p d) = Sent 201 id)
      \/ fst (insert_and_recompute e n descr q p d)
         = Failed 500 dbErrorPayload).
Proof.
  unfold insert_and_recompute.
  destruct (insert_item e n descr q p d) as [[i|] d1].
  - destruct (update_bill_total n d1) as [d2|] eqn:U0.
    + split.
      * intros id d2'. split.
        -- intro H. injection H as <- <-. exists d1. auto.
        -- intros (x & X & U). injection X as -> <-. congruence.
      * left. exists i. reflexivity.
    + split.
      * intros id d2'. split; [discriminate|].
        intros (x & X & U). injection X as _ <-. congruence.
      * right. reflexivity.
  - split.
    + intros id d2'. split; [discriminate|].
      intros (x & X & _). discriminate.
    + right. reflexivity.
Qed.

(** C4.  POST /api/billing/items, for a request whose bill id and
    description pass their checks and whose quantity converts to a number
    without throwing.  The reply is 400 exactly when the unit price converts
    to a number that is negative or not finite, and then the reply is
    [unit_price must be >= 0] and nothing is written.  A unit price that
    converts to a finite number of 0 or more is accepted: the handler goes
    on to its INSERT and its recompute UPDATE with that price, and answers
    201 with the new id exactly when the database carries both out, and 500
    when it refuses one.  A unit price whose conversion throws is answered
    500 and nothing is written.  A missing unit price reads as 0, and is
    accepted. *)
Theorem unit_price_validation :
  forall (e : engine) (body : item_fields) (d : db) (b t q : Js.val),
    f_bill_id body = Js.Plain b -> names_a_row b ->
    f_description body = Js.Plain t -> isNonEmptyString t = true ->
    f_qty body = Js.Plain q ->
    (status_of (fst (try_post_billing_items e body d)) = 400
       <-> exists n, unit_price_reads body n /\ negative_or_not_finite n)
    /\ (forall n, unit_price_reads body n -> negative_or_not_finite n ->
          try_post_billing_items e body d
          = (Failed 400 "unit_price must be >= 0", d))
    /\ (forall n, unit_price_reads body n -> finite_nonneg n ->
          let billId := Js.Number (Js.or_else b (Js.Num (Js.Fin 0))) in
          let qty :=
            Js.max (Js.Fin 1)
              (Js.min (Js.Fin 100000)
                 (Js.Number (Js.or_else q (Js.Num (Js.Fin 1))))) in
          try_post_billing_items e body d
          = insert_and_recompute e billId (trimmed t) qty n d
          /\ (forall id d2,
                try_post_billing_items e body d = (Sent 201 id, d2)
                <-> exists d1,
                      insert_item e billId (trimmed t) qty n d
                      = (Some id, d1)
                      /\ update_bill_total billId d1 = Some d2)
          /\ ((exists id,
                 fst (try_post_billing_items e body d) = Sent 201 id)
              \/ fst (try_post_billing_items e body d)
                 = Failed 500 dbErrorPayload))
    /\ (f_unit_price body = Js.Throwing ->
          try_post_billing_items e body d = (Failed 500 dbErrorPayload, d))
    /\ (f_unit_price body = Js.Plain Js.Undefined ->
          unit_price_reads body (Js.Fin 0) /\ finite_nonneg (Js.Fin 0)).
Proof.
  intros e body d b t q B Hb T Ht Q.
  rewrite (try_item_after_checks e body d b t B Hb T Ht), Q.
  cbn [Js.number_or].
  set (billId := Js.Number (Js.or_else b (Js.Num (Js.Fin 0)))).
  set (qty := Js.max _ _).
  assert (Reads : forall n, unit_price_reads body n ->
            Js.number_or (f_unit_price body) (Js.Fin 0) = Some n)
    by (intro n; apply unit_price_reads_iff).
  split; [|split; [|split; [|split]]].
  - split.
    + intro S. destruct (Js.number_or (f_unit_price body) (Js.Fin 0))
        as [p|] eqn:P; [|discriminate].
      exists p. split; [apply unit_price_reads_iff; exact P|].
      destruct (price_check p) as [Bad _]. apply Bad.
      destruct (negb (Js.isFinite p) || Js.lt p (Js.Fin 0)); [reflexivity|].
      exfalso.
      destruct (insert_and_recompute_replies e billId (trimmed t) qty p d)
        as [_ [(id & R) | R]]; rewrite R in S; discriminate.
    + intros (n & R & N). rewrite (Reads n R).
      apply (proj1 (price_check n)) in N. rewrite N. reflexivity.
  - intros n R N. rewrite (Reads n R).
    apply (proj1 (price_check n)) in N. rewrite N. reflexivity.
  - intros n R G. rewrite (Reads n R).
    apply (proj2 (price_check n)) in G. rewrite G. cbv zeta.
    destruct (insert_and_recompute_replies e billId (trimmed t) qty n d)
      as [A1 A2].
    split; [reflexivity | split; [exact A1 | exact A2]].
  - intro P. rewrite P. reflexivity.
  - intro P. split.
    + exists Js.Undefined. split; [exact P | reflexivity].
    + exists 0%Q. split; [reflexivity | apply Qle_refl].
Qed.

(** A request of the seed's bill 1 with no unit price: accepted, the item
    stored at price 0 under the id 3. *)
Lemma unit_price_validation_witness :
  let body := {| f_bill_id := Js.Plain (Js.Num (Js.Fin 1));
                 f_description := Js.Plain (Js.Str "Scan");
                 f_qty := Js.Plain (Js.Num (Js.Fin 2));
                 f_unit_price := Js.Plain Js.Undefined |} in
  names_a_row (Js.Num (Js.Fin 1))
  /\ isNonEmptyString (Js.Str "Scan") = true
  /\ (status_of (fst (try_post_billing_items strict_engine body seed)) = 400
        <-> exists n, unit_price_reads body n /\ negative_or_not_finite n)
  /\ fst (try_post_billing_items strict_engine body seed) = Sent 201 3.
Proof.
  cbv zeta.
  split; [reflexivity|]. split; [reflexivity|].
  split; [|reflexivity].
  exact (proj1 (unit_price_validation strict_engine
    {| f_bill_id := Js.Plain (Js.Num (Js.Fin 1));
       f_description := Js.Plain (Js.Str "Scan");
       f_qty := Js.Plain (Js.Num (Js.Fin 2));
       f_unit_price := Js.Plain Js.Undefined |} seed
    (Js.Num (Js.Fin 1)) (Js.Str "Scan") (Js.Num (Js.Fin 2))
    eq_refl eq_refl eq_refl eq_refl eq_refl)).
Defined.

(** The unit price is not all that decides a 400.  A request without bill
    id is answered 400 whatever its unit price, here a price of 5; and a
    request whose quantity is an object whose conversion throws is answered
    500 before the unit price, here -5, is looked at. *)
Lemma unit_price_is_not_the_only_check :
  (let body := {| f_bill_id := Js.Plain Js.Undefined;
                  f_description := Js.Plain (Js.Str "Scan");
                  f_qty := Js.Plain (Js.Num (Js.Fin 1));
                  f_unit_price := Js.Plain (Js.Num (Js.Fin 5)) |} in
   try_post_billing_items strict_engine body seed
   = (Failed 400 "bill_id is required", seed)
   /\ unit_price_reads body (Js.Fin 5)
   /\ finite_nonneg (Js.Fin 5))
  /\ (let body := {| f_bill_id := Js.Plain (Js.Num (Js.Fin 1));
                     f_description := Js.Plain (Js.Str "Scan");
                     f_qty := Js.Throwing;
                     f_unit_price := Js.Plain (Js.Num (Js.Fin (-5))) |} in
      try_post_billing_items strict_engine body seed
      = (Failed 500 dbErrorPayload, seed)
      /\ unit_price_reads body (Js.Fin (-5))
      /\ negative_or_not_finite (Js.Fin (-5))).
Proof.
  cbv zeta. split; (split; [reflexivity|]); split.
  - eexists. split; reflexivity.
  - exists 5%Q. split; [reflexivity | discriminate].
  - eexists. split; reflexivity.
  - left. exists (-5)%Q. split; reflexivity.
Qed.

(* ===================================================================== *)
(** ** POST /api/billing/items: the quantity                              *)
(* ===================================================================== *)

(** [Math.max(1, Math.min(100000, n))]: NaN on NaN, and otherwise a number
    from 1 to 100000. *)
Lemma Qle_bool_false (x y : Q) : Qle_bool x y = false -> (y < x)%Q.
Proof.
  intro E. apply Qnot_le_lt. intro L. apply Qle_bool_iff in L. congruence.
Qed.

Ltac q_bools :=
  repeat match goal with
    | H : Qle_bool _ _ = true |- _ => apply Qle_bool_iff in H
    | H : Qle_bool _ _ = false |- _ => apply Qle_bool_false in H
    | H : Qeq_bool _ _ = true |- _ => apply Qeq_bool_iff in H
    end.

Lemma clamp_cases (n : Js.num) :
  match Js.max (Js.Fin 1) (Js.min (Js.Fin 100000) n) with
  | Js.NaN => n = Js.NaN
  | Js.Fin q => n <> Js.NaN /\ (1 <= q)%Q /\ (q <= 100000)%Q
  | _ => False
  end.
Proof.
  destruct n as [| | |x]; simpl; try reflexivity.
  - repeat split; (discriminate || lra).
  - repeat split; (discriminate || lra).
  - destruct (Qle_bool 100000 x) eqn:E1; simpl;
      [| destruct (Qle_bool x 1) eqn:E2; simpl]; q_bools;
      repeat split; (discriminate || lra).
Qed.

(** The quantity the handler binds, for a request quantity that reads as a
    number: between 1 and 100000, and 1 for a quantity of 0 or below. *)
Lemma item_qty_of_number (body : item_body) :
  Js.Number (Js.or_else (qty body) (Js.Num (Js.Fin 1))) <> Js.NaN ->
  exists q, item_qty body = Js.Fin q /\ (1 <= q)%Q /\ (q <= 100000)%Q.
Proof.
  intro H. unfold item_qty.
  pose proof (clamp_cases (Js.Number (Js.or_else (qty body) (Js.Num (Js.Fin 1))))) as C.
  destruct (Js.max _ _) as [| | |q]; try contradiction.
  exists q. destruct C as (_ & L & U). auto.
Qed.

Lemma item_qty_not_positive (body : item_body) (x : Q) :
  qty body = Js.Num (Js.Fin x) -> (x <= 0)%Q -> item_qty body = Js.Fin 1.
Proof.
  intros E L. unfold item_qty, Js.or_else. rewrite E. simpl.
  destruct (Qeq_bool x 0) eqn:Z; simpl; [reflexivity|].
  destruct (Qle_bool 100000 x) eqn:E1; simpl;
    [| destruct (Qle_bool x 1) eqn:E2; simpl]; q_bools;
    try reflexivity; exfalso; lra.
Qed.

(** The INT column keeps a quantity between 1 and 100000 in that range. *)
Lemma int_column_in_range (e : engine) (q : Q) (z : Z) :
  (1 <= q)%Q -> (q <= 100000)%Q -> int_column e (Js.Fin q) = Some z ->
  1 <= z <= 100000.
Proof.
  intros L U H. unfold int_column, round_half_away in H.
  assert (P : Qle_bool 0 q = true) by (apply Qle_bool_iff; lra).
  rewrite P in H.
  assert (F : 1 <= Qfloor (q + (1 # 2)) <= 100000).
  { assert (A : Qfloor (1 + (1 # 2)) <= Qfloor (q + (1 # 2)))
      by (apply Qfloor_resp_le; lra).
    assert (B : Qfloor (q + (1 # 2)) <= Qfloor (100000 + (1 # 2)))
      by (apply Qfloor_resp_le; lra).
    change (Qfloor (1 + (1 # 2))) with 1 in A.
    change (Qfloor (100000 + (1 # 2))) with 100000 in B.
    split; assumption. }
  remember (Qfloor (q + (1 # 2))) as f.
  destruct (_ && _) in H; [|discriminate]. injection H as <-. exact F.
Qed.

(** C2, at a quantity that is no number.  For the body
    [{bill_id: 1, description: "Scan", qty: "abc", unit_price: 1}] the
    handler computes [qty = NaN] and binds it to the INSERT: a server that
    refuses NaN answers 500 and stores nothing, and a server that makes the
    integer [z] of it stores the quantity [z], whatever [z] is. *)
Theorem qty_not_a_number_is_not_clamped :
  let body := {| bill_id := Js.Num (Js.Fin 1); description := Js.Str "Scan";
                 qty := Js.Str "abc"; unit_price := Js.Num (Js.Fin 1) |} in
  item_qty body = Js.NaN
  /\ post_billing_items strict_engine body seed
     = (Failed 500 dbErrorPayload, seed)
  /\ forall z : Z,
       map i_qty (billing_items
         (snd (post_billing_items (engine_with (Some z)) body seed)))
       = [1; 1; z].
Proof.
  cbv zeta. split; [reflexivity|]. split; [reflexivity|].
  intro z. unfold post_billing_items, insert_item, update_bill_total. simpl.
  destruct (assign_decimal_10_2 2 _); reflexivity.
Qed.

(* ===================================================================== *)
(** ** GET /api/billing/items                                             *)
(* ===================================================================== *)

Lemma falsy_num_iff (n : Js.num) :
  Js.falsy_num n = true <-> n = Js.NaN \/ exists q, n = Js.Fin q /\ (q == 0)%Q.
Proof.
  destruct n as [| | |q]; unfold Js.falsy_num; simpl.
  - split; auto.
  - split; [discriminate|]. intros [H | (q & H & _)]; discriminate.
  - split; [discriminate|]. intros [H | (q & H & _)]; discriminate.
  - rewrite negb_involutive. rewrite Qeq_bool_iff. split.
    + intro H. right. exists q. auto.
    + intros [H | (x & H & Z)]; [discriminate|]. injection H as <-. exact Z.
Qed.

(** [Number(v || 0)] is zero or NaN exactly when [Number(v)] is. *)
Lemma number_or_zero (v : Js.val) :
  Js.falsy_num (Js.Number (Js.or_else v (Js.Num (Js.Fin 0))))
  = Js.falsy_num (Js.Number v).
Proof.
  unfold Js.or_else.
  destruct v as [| |b|n|s|s]; simpl; try reflexivity.
  - destruct b; reflexivity.
  - destruct n as [| | |q]; simpl; try reflexivity.
    unfold Js.falsy_num. simpl.
    destruct (Qeq_bool q 0) eqn:E; simpl; [reflexivity|].
    rewrite E. reflexivity.
  - destruct s; reflexivity.
Qed.

Lemma not_a_row_iff (v : Js.val) :
  Js.falsy_num (Js.Number (Js.or_else v (Js.Num (Js.Fin 0)))) = true
  <-> zero_or_absent v \/ Js.Number v = Js.NaN.
Proof.
  rewrite number_or_zero, falsy_num_iff. unfold zero_or_absent. split.
  - intros [H | H]; auto.
  - intros [[H | H] | H]; auto. subst v. left. reflexivity.
Qed.

Lemma select_none (n : Js.num) (d : db) :
  foreign_keys_hold d -> references_no_bill n d -> select_items n d = [].
Proof.
  intros FK NB. unfold select_items.
  replace (filter _ (billing_items d)) with (@nil item); [reflexivity|].
  symmetry.
  assert (A : forall i, In i (billing_items d) ->
                int_eq_param (i_bill_id i) n = false).
  { intros i Hi. destruct (FK i Hi) as (b & Hb & E). rewrite <- E. exact (NB b Hb). }
  clear FK NB. induction (billing_items d) as [|i l IH]; [reflexivity|].
  simpl. rewrite (A i (or_introl eq_refl)). apply IH.
  intros j Hj. apply A. right. exact Hj.
Qed.

(** C5, as amended.  GET /api/billing/items answers 400 with
    [billId is required] exactly when the billId parameter is 0 or absent
    or reads as no number at all; every other billId that is the id of no
    bill is answered 200 with an empty list. *)
Theorem billing_items_requires_bill_id :
  forall (v : Js.val) (d : db),
    (get_billing_items v d = Failed 400 "billId is required"
       <-> zero_or_absent v \/ Js.Number v = Js.NaN)
    /\ (status_of (get_billing_items v d) = 400
       <-> zero_or_absent v \/ Js.Number v = Js.NaN)
    /\ (~ (zero_or_absent v \/ Js.Number v = Js.NaN) ->
        foreign_keys_hold d ->
        references_no_bill
          (Js.Number (Js.or_else v (Js.Num (Js.Fin 0)))) d ->
        get_billing_items v d = Sent 200 []).
Proof.
  intros v d. pose proof (not_a_row_iff v) as I.
  unfold get_billing_items.
  destruct (Js.falsy_num (Js.Number (Js.or_else v (Js.Num (Js.Fin 0))))) eqn:E.
  - assert (R : zero_or_absent v \/ Js.Number v = Js.NaN) by (apply I; reflexivity).
    split; [|split].
    + split; [intros _; exact R | reflexivity].
    + split; [intros _; exact R | reflexivity].
    + intro N. contradiction.
  - split; [|split].
    + split; [discriminate|]. intro R. apply I in R. discriminate.
    + split; [discriminate|]. intro R. apply I in R. discriminate.
    + intros _ FK NB. rewrite (select_none _ d FK NB). reflexivity.
Qed.

(** C5 as stated fails: [billId=abc] is neither 0 nor absent, and is
    answered 400 with [billId is required]. *)
Lemma billing_items_rejects_a_word :
  get_billing_items (Js.Str "abc") seed = Failed 400 "billId is required"
  /\ status_of (get_billing_items (Js.Str "abc") seed) = 400
  /\ ~ zero_or_absent (Js.Str "abc").
Proof.
  split; [reflexivity|]. split; [reflexivity|].
  intros [H | (q & H & _)]; discriminate.
Qed.

(** A bill that does not exist, and a bill that does. *)
Example billing_items_replies :
  get_billing_items (Js.Str "7") seed = Sent 200 []
  /\ get_billing_items (Js.Str "0") seed = Failed 400 "billId is required"
  /\ get_billing_items Js.Undefined seed = Failed 400 "billId is required"
  /\ get_billing_items (Js.Str "1") seed
     = Sent 200
         [ {| r_id := 1; r_description := "Consultation fee"; r_qty := 1;
              r_unit_price := 250000; r_line_total := 250000 |};
           {| r_id := 2; r_description := "ECG"; r_qty := 1;
              r_unit_price := 180000; r_line_total := 180000 |} ].
Proof. vm_compute. repeat split; reflexivity. Qed.

(** *** ORDER BY id ASC *)

Section OrderByFacts.
Context {A : Type} (key : A -> Z).

Lemma insert_by_perm (x : A) (l : list A) :
  Permutation (insert_by key x l) (x :: l).
Proof.
  induction l as [|y l IH]; simpl; [reflexivity|].
  destruct (key x <? key y); [reflexivity|].
  rewrite IH. apply perm_swap.
Qed.

Lemma order_by_perm (l : list A) : Permutation (order_by key l) l.
Proof.
  induction l as [|x l IH]; simpl; [reflexivity|].
  rewrite insert_by_perm. now constructor.
Qed.

Lemma insert_by_sorted (x : A) (l : list A) :
  Sorted (fun a b => key a <= key b) l ->
  Sorted (fun a b => key a <= key b) (insert_by key x l).
Proof.
  induction 1 as [|y l S IH H]; simpl.
  - repeat constructor.
  - destruct (key x <? key y) eqn:E.
    + apply Z.ltb_lt in E. repeat constructor; auto. lia.
    + apply Z.ltb_ge in E. constructor; [exact IH|].
      destruct l as [|z l]; simpl.
      * constructor. exact E.
      * inversion H; subst.
        destruct (key x <? key z); constructor; auto.
Qed.

Lemma order_by_sorted (l : list A) :
  Sorted (fun a b => key a <= key b) (order_by key l).
Proof.
  induction l as [|x l IH]; simpl; [constructor|].
  apply insert_by_sorted. exact IH.
Qed.

(** A list already in strictly ascending order is left as it is. *)
Lemma order_by_ascending (l : list A) :
  StronglySorted (fun a b => key a < key b) l -> order_by key l = l.
Proof.
  induction 1 as [|x l S IH H]; simpl; [reflexivity|].
  rewrite IH. destruct l as [|y l]; [reflexivity|]. simpl.
  inversion H; subst.
  destruct (key x <? key y) eqn:E; [reflexivity|].
  apply Z.ltb_ge in E. lia.
Qed.

Lemma filter_ascending (f : A -> bool) (l : list A) :
  StronglySorted (fun a b => key a < key b) l ->
  StronglySorted (fun a b => key a < key b) (filter f l).
Proof.
  induction 1 as [|x l S IH H]; simpl; [constructor|].
  destruct (f x); [|exact IH].
  constructor; [exact IH|].
  rewrite Forall_forall in *. intros y Hy.
  apply filter_In in Hy. apply H. tauto.
Qed.
End OrderByFacts.

Lemma map_sorted (l : list item) :
  Sorted (fun a b => i_id a <= i_id b) l ->
  ascending_ids (map item_row_of l).
Proof.
  unfold ascending_ids.
  induction 1 as [|x l S IH H]; simpl; constructor; auto.
  destruct H; simpl; constructor. assumption.
Qed.

Lemma round_scale_same (n : nat) (m : Z) : round_scale n n m = m.
Proof.
  unfold round_scale. rewrite Nat.leb_refl, Nat.sub_diag. simpl. lia.
Qed.

Lemma filter_param (id : Z) (d : db) :
  filter (fun i => int_eq_param (i_bill_id i) (Js.Fin (inject_Z id)))
    (billing_items d)
  = items_of d id.
Proof.
  unfold items_of. apply filter_ext. intro i. simpl.
  destruct (Z.eqb_spec (i_bill_id i) id) as [E | N].
  - apply Qeq_bool_iff. rewrite E. reflexivity.
  - destruct (Qeq_bool _ _) eqn:Q; [|reflexivity].
    apply Qeq_bool_iff in Q. exfalso. apply N.
    unfold Qeq in Q. simpl in Q. lia.
Qed.

(** The bill id the handler works with, for a parameter that reads as a
    number other than zero. *)
Lemma number_of_row (v : Js.val) (id : Z) :
  id <> 0 -> Js.Number v = Js.Fin (inject_Z id) ->
  Js.Number (Js.or_else v (Js.Num (Js.Fin 0))) = Js.Fin (inject_Z id)
  /\ names_a_row v.
Proof.
  intros N E.
  assert (F : Js.falsy_num (Js.Number v) = false).
  { rewrite E. unfold Js.falsy_num. simpl. rewrite negb_involutive.
    destruct (Qeq_bool (inject_Z id) 0) eqn:Q; [|reflexivity].
    apply Qeq_bool_iff in Q. unfold Qeq in Q. simpl in Q. lia. }
  unfold names_a_row. rewrite number_or_zero. split; [|exact F].
  pose proof (number_or_zero v) as R. rewrite F in R.
  unfold Js.or_else in *. destruct (Js.truthy v); [exact E|].
  discriminate.
Qed.

Lemma items_of_the_bill (d : db) (id : Z) :
  items_of d id = items_of_bill id (billing_items d).
Proof.
  unfold items_of. induction (billing_items d) as [|i l IH]; [reflexivity|].
  simpl. rewrite IH.
  destruct (Z.eqb_spec (i_bill_id i) id), (Z.eq_dec (i_bill_id i) id);
    try reflexivity; contradiction.
Qed.

Lemma rows_show_items (l : list item) : Forall2 shows (map item_row_of l) l.
Proof.
  induction l as [|i l IH]; simpl; constructor; [|exact IH].
  unfold shows. simpl. repeat split; reflexivity.
Qed.

(** C10.  GET /api/billing/items?billId=N for a bill id [N]: the reply is
    200 with one row for each item of that bill and no other row; a row
    shows the id, the description, the quantity and the unit price of its
    item, and [line_total], equal to [qty * unit_price] rounded to two
    decimals (a rounding that changes nothing, the product having two
    decimals already); the rows stand in ascending id order, which is the
    order of insertion in a table filled under AUTO_INCREMENT. *)
Theorem billing_items_sorted_with_line_totals :
  forall (v : Js.val) (id : Z) (d : db),
    id <> 0 ->
    Js.Number v = Js.Fin (inject_Z id) ->
    exists rows its,
      get_billing_items v d = Sent 200 rows
      /\ Permutation its (items_of_bill id (billing_items d))
      /\ Forall2 shows rows its
      /\ ascending_ids rows
      /\ Permutation rows (map item_row_of (items_of d id))
      /\ (forall r, In r rows ->
            r_line_total r = round_scale 2 2 (r_qty r * r_unit_price r)
            /\ r_line_total r = r_qty r * r_unit_price r)
      /\ (inserted_in_id_order d ->
            its = items_of_bill id (billing_items d)
            /\ rows = map item_row_of (items_of d id)).
Proof.
  intros v id d N E. destruct (number_of_row v id N E) as [Eq Row].
  exists (select_items (Js.Fin (inject_Z id)) d),
    (order_by i_id (items_of d id)).
  unfold get_billing_items. unfold names_a_row in Row. rewrite Row, Eq.
  unfold select_items. rewrite filter_param.
  split; [reflexivity|]. split; [|split; [|split; [|split; [|split]]]].
  - rewrite <- items_of_the_bill. apply order_by_perm.
  - apply rows_show_items.
  - apply map_sorted. apply order_by_sorted.
  - apply Permutation_map. apply order_by_perm.
  - intros r Hr. apply in_map_iff in Hr. destruct Hr as (i & <- & _).
    simpl. split; [reflexivity | apply round_scale_same].
  - intro Asc. rewrite order_by_ascending by (apply filter_ascending, Asc).
    split; [apply items_of_the_bill | reflexivity].
Qed.

(** The seed's bill 1: its two items, listed in the order of their ids. *)
Lemma billing_items_sorted_with_line_totals_witness :
  1 <> 0
  /\ Js.Number (Js.Str "1") = Js.Fin (inject_Z 1)
  /\ (exists rows its,
        get_billing_items (Js.Str "1") seed = Sent 200 rows
        /\ Permutation its (items_of_bill 1 (billing_items seed))
        /\ Forall2 shows rows its
        /\ ascending_ids rows
        /\ Permutation rows (map item_row_of (items_of seed 1))
        /\ (forall r, In r rows ->
              r_line_total r = round_scale 2 2 (r_qty r * r_unit_price r)
              /\ r_line_total r = r_qty r * r_unit_price r)
        /\ (inserted_in_id_order seed ->
              its = items_of_bill 1 (billing_items seed)
              /\ rows = map item_row_of (items_of seed 1)))
  /\ get_billing_items (Js.Str "1") seed
     = Sent 200
         [ {| r_id := 1; r_description := "Consultation fee"; r_qty := 1;
              r_unit_price := 250000; r_line_total := 250000 |};
           {| r_id := 2; r_description := "ECG"; r_qty := 1;
              r_unit_price := 180000; r_line_total := 180000 |} ].
Proof.
  split; [discriminate|]. split; [reflexivity|]. split; [|reflexivity].
  apply (billing_items_sorted_with_line_totals (Js.Str "1") 1 seed).
  - discriminate.
  - reflexivity.
Defined.

(* ===================================================================== *)
(** ** POST /api/billing                                                  *)
(* ===================================================================== *)

(** C8.  POST /api/billing with a missing or zero patient id: the reply is
    400 with [patient_id is required], and the database is left as it was:
    no statement is issued, so no bill row is inserted. *)
Theorem missing_patient_rejected_before_write :
  forall (e : engine) (c : clock) (body : bill_body) (d : db),
    zero_or_absent (patient_id body) ->
    post_billing e c body d = (Failed 400 "patient_id is required", d)
    /\ status_of (fst (post_billing e c body d)) = 400
    /\ snd (post_billing e c body d) = d
    /\ bills (snd (post_billing e c body d)) = bills d.
Proof.
  intros e c body d H.
  assert (E : post_billing e c body d
              = (Failed 400 "patient_id is required", d)).
  { unfold post_billing.
    rewrite (proj2 (not_a_row_iff (patient_id body)) (or_introl H)).
    reflexivity. }
  rewrite E. repeat split.
Qed.

Lemma missing_patient_rejected_before_write_witness :
  let body := {| patient_id := Js.Undefined; currency := Js.Str "dzd";
                 status := Js.Undefined; bill_no := Js.Undefined;
                 bill_date := Js.Undefined |} in
  zero_or_absent (patient_id body)
  /\ post_billing strict_engine clock0 body seed
     = (Failed 400 "patient_id is required", seed).
Proof.
  cbv zeta. split; [left; reflexivity|].
  exact (proj1 (missing_patient_rejected_before_write strict_engine clock0
    {| patient_id := Js.Undefined; currency := Js.Str "dzd";
       status := Js.Undefined; bill_no := Js.Undefined;
       bill_date := Js.Undefined |} seed (or_introl eq_refl))).
Defined.

(** What a bill creation that is answered 201 did: one row appended, with
    the values the handler bound and a total of 0. *)
Lemma post_billing_created (e : engine) (c : clock) (body : bill_body)
    (d d' : db) (id : Z) (no : string) :
  post_billing e c body d = (Sent 201 (id, no), d') ->
  exists row,
    bills d' = (bills d ++ [row])%list
    /\ id = next_bill_id d /\ b_id row = id
    /\ b_bill_no row = no
    /\ b_currency row = bill_currency e body
    /\ b_total_amount row = 0
    /\ no = (if isNonEmptyString (bill_no body) then trimmed (bill_no body)
             else generateBillNo c)
    /\ billing_items d' = billing_items d
    /\ next_bill_id d' = next_bill_id d + 1.
Proof.
  unfold post_billing. destruct (Js.falsy_num _); [discriminate|].
  unfold insert_bill.
  destruct (int_column _ _) as [pid|]; [|discriminate].
  destruct (varchar 60 _) as [n|] eqn:V; [|discriminate].
  destruct (date_of_string _ _) as [dt|]; [|discriminate].
  destruct (varchar 3 _) as [cur|] eqn:W; [|discriminate].
  destruct (_ && _); [|discriminate].
  intro H. injection H as <- <- <-.
  unfold varchar in V, W.
  destruct (_ <=? _)%nat in V; [|discriminate]. injection V as <-.
  destruct (_ <=? _)%nat in W; [|discriminate]. injection W as <-.
  eexists. simpl. repeat split.
Qed.

(** *** The currency *)

Lemma substring_first (n : nat) (s : string) :
  substring 0 n s = first_chars n s.
Proof.
  revert s. induction n as [|n IH]; intros [|c s]; simpl; try reflexivity.
  now rewrite IH.
Qed.

Lemma first_chars_min (n : nat) (s : string) :
  first_chars (Nat.min n (String.length s)) s = first_chars n s.
Proof.
  revert s. induction n as [|n IH]; intros [|c s]; simpl; try reflexivity.
  now rewrite IH.
Qed.

Lemma slice_first (n : nat) (s : string) :
  Js.slice 0 (Some (Z.of_nat n)) s = first_chars n s.
Proof.
  unfold Js.slice, Js.slice_index.
  change (0 <? 0) with false. cbv beta iota zeta.
  rewrite (Z.min_l 0 (Z.of_nat (String.length s))) by lia.
  destruct (Z.of_nat n <? 0) eqn:E; [apply Z.ltb_lt in E; lia|].
  change (Z.to_nat 0) with 0%nat.
  rewrite substring_first, <- (first_chars_min n). f_equal. lia.
Qed.


Lemma first_chars_length (n : nat) (s : string) :
  (String.length (first_chars n s) <= n)%nat.
Proof.
  revert s. induction n as [|n IH]; intros [|c s]; simpl; try lia.
  specialize (IH s). lia.
Qed.







Lemma first_chars_keep (P : ascii -> Prop) (n : nat) (s : string) :
  Forall P (list_ascii_of_string s) ->
  Forall P (list_ascii_of_string (first_chars n s)).
Proof.
  revert s. induction n as [|n IH]; intros [|c s] H; simpl; try constructor.
  - inversion H; assumption.
  - apply IH. inversion H; assumption.
Qed.



(** A currency that upper-casing makes longer than 3 characters is bound
    as it is, CHAR(3) refuses it, and the request is answered 500. *)
Lemma long_currency_refused (e : engine) (c : clock) (body : bill_body)
    (d : db) :
  names_a_row (patient_id body) ->
  (3 < String.length (bill_currency e body))%nat ->
  post_billing e c body d = (Failed 500 dbErrorPayload, d).
Proof.
  intros P L. unfold post_billing. unfold names_a_row in P. rewrite P.
  unfold insert_bill.
  assert (W : varchar 3 (bill_currency e body) = None).
  { unfold varchar. destruct (Nat.leb_spec (String.length (bill_currency e body)) 3);
      [lia | reflexivity]. }
  rewrite W.
  destruct (int_column _ _); [|reflexivity].
  destruct (varchar 60 _); [|reflexivity].
  destruct (date_of_string _ _); reflexivity.
Qed.



(** Under a runtime with Unicode's capitals: the currency U+00E9 u r is
    stored with the capital U+00C9, and of the currency U+00DF a b the
    handler binds SSAB, which the CHAR(3) column refuses. *)
Example currencies_beyond_ascii :
  let body (cur : string) :=
    {| patient_id := Js.Num (Js.Fin 1); currency := Js.Str cur;
       status := Js.Undefined; bill_no := Js.Undefined;
       bill_date := Js.Undefined |} in
  let e_acute := ascii_of_N 233 in
  let sharp_s := ascii_of_N 223 in
  (exists d', post_billing strict_engine clock0
                (body (String e_acute "ur")) seed
              = (Sent 201 (2, "BILL-2026-400123"), d')
              /\ map b_currency (bills d')
                 = ["DZD"; String (ascii_of_N 201) "UR"])
  /\ bill_currency strict_engine (body (String sharp_s "ab")) = "SSAB"
  /\ post_billing strict_engine clock0 (body (String sharp_s "ab")) seed
     = (Failed 500 dbErrorPayload, seed).
Proof.
  cbv zeta. split; [eexists; split; reflexivity|].
  split; reflexivity.
Qed.

(** *** Generated bill numbers *)

Lemma collate_eqb_refl (s : string) : collate_eqb s s = true.
Proof. unfold collate_eqb. apply String.eqb_refl. Qed.

(** After a bill was created under a generated number, a second creation
    that reads the same clock and also leaves the number to the handler is
    not answered 201 and stores nothing: its number is taken. *)
Ltac refused := split; [reflexivity | simpl; discriminate].

Lemma generated_number_taken (e : engine) (c : clock) (b1 b2 : bill_body)
    (d d1 : db) (id : Z) (no : string) :
  isNonEmptyString (bill_no b1) = false ->
  isNonEmptyString (bill_no b2) = false ->
  post_billing e c b1 d = (Sent 201 (id, no), d1) ->
  no = generateBillNo c
  /\ bills (snd (post_billing e c b2 d1)) = bills d1
  /\ status_of (fst (post_billing e c b2 d1)) <> 201.
Proof.
  intros N1 N2 H.
  destruct (post_billing_created e c b1 d d1 id no H)
    as (row & B & _ & _ & Rn & _ & _ & Eno & _).
  rewrite N1 in Eno. split; [exact Eno|].
  unfold post_billing. destruct (Js.falsy_num _); [refused|].
  rewrite N2. unfold insert_bill.
  destruct (int_column _ _); [|refused].
  destruct (varchar 60 _) as [n|] eqn:V; [|refused].
  unfold varchar in V.
  destruct (_ <=? _)%nat in V; [|discriminate]. injection V as <-.
  destruct (date_of_string _ _); [|refused].
  destruct (varchar 3 _); [|refused].
  assert (T : existsb (fun b => collate_eqb (b_bill_no b) (generateBillNo c))
                (bills d1) = true).
  { rewrite B, existsb_app. simpl. rewrite Rn, Eno, collate_eqb_refl.
    apply orb_true_iff. right. reflexivity. }
  rewrite T, andb_false_r. refused.
Qed.

(** C3, at two requests in one tick.  Two POST /api/billing requests
    [{patient_id: 1}] that read the same clock: both generate
    [BILL-2026-400123]; the first is answered 201 under that number, the
    second fails on the unique key of [bill_no] and is answered 500, no
    bill being stored for it. *)
Theorem same_tick_same_bill_number :
  let body := {| patient_id := Js.Num (Js.Fin 1); currency := Js.Undefined;
                 status := Js.Undefined; bill_no := Js.Undefined;
                 bill_date := Js.Undefined |} in
  let first := post_billing strict_engine clock0 body seed in
  generateBillNo clock0 = "BILL-2026-400123"
  /\ fst first = Sent 201 (2, "BILL-2026-400123")
  /\ fst (post_billing strict_engine clock0 body (snd first))
     = Failed 500 dbErrorPayload
  /\ bills (snd (post_billing strict_engine clock0 body (snd first)))
     = bills (snd first)
  /\ map b_bill_no (bills (snd first)) = ["BILL-2026-0001"; "BILL-2026-400123"].
Proof. vm_compute. repeat split; reflexivity. Qed.

(* ===================================================================== *)
(** ** GET /api/appointments                                              *)
(* ===================================================================== *)

Lemma where_date_all (c : clock) (day : Js.val) :
  where_date c day = None <-> is_all day.
Proof.
  unfold where_date, dayQ, is_all, Js.or_else.
  assert (No : forall v : Js.val,
             (forall s, v <> Js.Str s) -> (forall s, v <> Js.Obj s) ->
             ~ exists s, (v = Js.Str s \/ v = Js.Obj s)
                         /\ Js.toLowerCase s = "all").
  { intros v A B (s & [E | E] & _); [exact (A s E) | exact (B s E)]. }
  destruct day as [| |b|n|s|s].
  - simpl. split; [discriminate|]. intro H. exfalso. revert H. apply No; discriminate.
  - simpl. split; [discriminate|]. intro H. exfalso. revert H. apply No; discriminate.
  - destruct b; simpl; (split; [discriminate|]); intro H; exfalso; revert H;
      apply No; discriminate.
  - split.
    + destruct n as [| | |q]; simpl; try discriminate.
      destruct (Qeq_bool q 0); simpl; discriminate.
    + intro H. exfalso. revert H. apply No; discriminate.
  - unfold Js.truthy. destruct (String.eqb_spec s "") as [-> | NE]; cbn [negb].
    + simpl. split; [discriminate|]. intros (s & [E | E] & L); [|discriminate].
      injection E as <-. discriminate.
    + cbn [Js.ToString option_map].
      destruct (String.eqb_spec (Js.toLowerCase s) "all") as [E | N].
      * split; [|reflexivity]. intros _. exists s. auto.
      * split; [discriminate|]. intros (t & [E | E] & L); [|discriminate].
        injection E as <-. contradiction.
  - cbn [Js.truthy Js.ToString option_map].
    destruct (String.eqb_spec (Js.toLowerCase s) "all") as [E | N].
    + split; [|reflexivity]. intros _. exists s. auto.
    + split; [discriminate|]. intros (t & [E | E] & L); [discriminate|].
      injection E as <-. contradiction.
Qed.

Lemma selected_on_date (date : string) (d : db)
    (r : appointment * doctor * department) :
  In r (select_appointments (Some date) d) ->
  a_appt_date (fst (fst r)) = date.
Proof.
  unfold select_appointments. intro H.
  assert (I : In r (order_by (fun r => a_appt_time (fst (fst r)))
                 (filter (fun r => String.eqb (a_appt_date (fst (fst r))) date)
                    (joined d)))).
  { rewrite <- (firstn_skipn 20 (order_by _ _)). apply in_or_app. now left. }
  apply (Permutation_in _ (order_by_perm _ _)) in I.
  apply filter_In in I. destruct I as [_ E]. now apply String.eqb_eq.
Qed.

(** C9.  GET /api/appointments: a [day] parameter that is "all" in any
    mix of cases removes the date filter; every other value (absent, empty,
    "today", any other word) keeps it, and then every appointment in the
    reply has the current date. *)
Theorem day_filter :
  forall (c : clock) (day : Js.val) (d : db),
    (is_all day ->
       where_date c day = None
       /\ get_appointments c day d = Sent 200 (select_appointments None d))
    /\ (~ is_all day ->
       where_date c day = Some (curdate c)
       /\ get_appointments c day d
          = Sent 200 (select_appointments (Some (curdate c)) d)
       /\ forall rows, get_appointments c day d = Sent 200 rows ->
            forall r, In r rows -> a_appt_date (fst (fst r)) = curdate c)
    /\ ~ is_all Js.Undefined
    /\ ~ is_all (Js.Str "today")
    /\ ~ is_all (Js.Str "tomorrow")
    /\ is_all (Js.Str "all") /\ is_all (Js.Str "ALL") /\ is_all (Js.Str "All").
Proof.
  intros c day d. pose proof (where_date_all c day) as W.
  unfold get_appointments.
  assert (Two : where_date c day = None \/ where_date c day = Some (curdate c)).
  { unfold where_date. destruct (dayQ day) as [q|]; [|now right].
    destruct (String.eqb q "all"); [now left | now right]. }
  split; [|split; [|split; [|split; [|split]]]].
  - intro A. apply W in A. rewrite A. split; reflexivity.
  - intro N. destruct Two as [T | T]; [apply W in T; contradiction|].
    rewrite T. split; [reflexivity|]. split; [reflexivity|].
    intros rows E r Hr. injection E as <-.
    exact (selected_on_date _ d r Hr).
  - intro H. apply (where_date_all clock0) in H. discriminate.
  - intro H. apply (where_date_all clock0) in H. discriminate.
  - intro H. apply (where_date_all clock0) in H. discriminate.
  - repeat split; apply (where_date_all clock0); reflexivity.
Qed.

(** Without the filter, appointments of other days are listed too. *)
Example day_all_lists_other_days :
  let yesterday :=
    {| a_id := 5; a_patient_id := 4; a_doctor_id := 1; a_department_id := 4;
       a_appt_date := "2026-11-02"; a_appt_time := 30600;
       a_room := None; a_status := "completed" |} in
  let d := {| patients := patients seed; departments := departments seed;
              doctors := doctors seed;
              appointments := yesterday :: appointments seed;
              bills := bills seed; billing_items := billing_items seed;
              next_bill_id := 2; next_item_id := 3 |} in
  (forall rows, get_appointments clock0 (Js.Str "aLL") d = Sent 200 rows ->
     map (fun r => a_id (fst (fst r))) rows = [5; 1; 2; 3; 4])
  /\ (forall rows, get_appointments clock0 (Js.Str "week") d = Sent 200 rows ->
     map (fun r => a_id (fst (fst r))) rows = [1; 2; 3; 4]).
Proof.
  cbv zeta. split; intros rows E; injection E as <-; reflexivity.
Qed.

(* ===================================================================== *)
(** ** Bill totals                                                        *)
(* ===================================================================== *)

Lemma round_half_away_int (z : Z) : round_half_away (inject_Z z) = z.
Proof.
  unfold round_half_away, Qceiling, Qfloor.
  destruct (Qle_bool 0 (inject_Z z)); simpl.
  - rewrite Z.div_add_l by lia. change (1 / 2) with 0. lia.
  - replace (- (z * 2 + -1)) with (- z * 2 + 1) by lia.
    rewrite Z.div_add_l by lia. change (1 / 2) with 0. lia.
Qed.

Lemma int_eq_param_int (a z : Z) :
  int_eq_param a (Js.Fin (inject_Z z)) = (a =? z).
Proof.
  simpl. destruct (Z.eqb_spec a z) as [-> | N].
  - apply Qeq_bool_iff. reflexivity.
  - destruct (Qeq_bool _ _) eqn:E; [|reflexivity].
    apply Qeq_bool_iff in E. unfold Qeq in E. simpl in E. lia.
Qed.

Lemma int_column_whole (e : engine) (z b : Z) :
  int_column e (Js.Fin (inject_Z z)) = Some b -> b = z.
Proof.
  unfold int_column. rewrite round_half_away_int.
  destruct (_ && _); [|discriminate]. now intros [= <-].
Qed.

Lemma coalesce_sum (l : list item) : COALESCE (SUM l) 0 = total_of l.
Proof. destruct l; reflexivity. Qed.

Lemma assign_rounds (m c : Z) :
  assign_decimal_10_2 2 m = Some c ->
  c = round_scale 2 2 m /\ fits_decimal_10_2 c = true.
Proof.
  unfold assign_decimal_10_2.
  destruct (fits_decimal_10_2 _) eqn:F; [|discriminate].
  intros [= <-]. auto.
Qed.

(** What the two statements of an item addition do. *)

Lemma insert_item_inv (e : engine) (n : Js.num) (descr : string)
    (q p : Js.num) (d d1 : db) (id : Z) :
  insert_item e n descr q p d = (Some id, d1) ->
  exists row,
    billing_items d1 = (billing_items d ++ [row])%list
    /\ bills d1 = bills d
    /\ next_bill_id d1 = next_bill_id d
    /\ i_id row = id
    /\ int_column e n = Some (i_bill_id row)
    /\ int_column e q = Some (i_qty row)
    /\ exists b, In b (bills d) /\ b_id b = i_bill_id row.
Proof.
  unfold insert_item.
  destruct (int_column e n) as [bid|]; [|discriminate].
  destruct (varchar 200 descr) as [ds|]; [|discriminate].
  destruct (int_column e q) as [qv|]; [|discriminate].
  destruct (decimal_column e p) as [pv|]; [|discriminate].
  destruct (existsb _ _) eqn:X; [|discriminate].
  intros [= <- <-]. eexists. simpl. repeat split.
  apply existsb_exists in X. destruct X as (b & Hb & E).
  exists b. split; [exact Hb|]. now apply Z.eqb_eq.
Qed.

Lemma update_totals_inv (d : db) (n : Js.num) (bs bs' : list bill) :
  update_totals d n bs = Some bs' -> Forall2 (retotalled d n) bs bs'.
Proof.
  revert bs'. induction bs as [|b bs IH]; simpl; intros bs' H.
  - injection H as <-. constructor.
  - destruct (update_totals d n bs) as [xs|];
      [|destruct (if int_eq_param _ _ then _ else _); discriminate].
    unfold retotalled.
    destruct (int_eq_param (b_id b) n) eqn:M.
    + rewrite coalesce_sum in H.
      destruct (assign_decimal_10_2 2 _) as [c|] eqn:A; [|discriminate].
      simpl in H. injection H as <-. apply assign_rounds in A.
      constructor; [|now apply IH]. rewrite M. simpl. tauto.
    + injection H as <-. constructor; [|now apply IH]. rewrite M. auto.
Qed.

Lemma update_bill_total_inv (n : Js.num) (d1 d2 : db) :
  update_bill_total n d1 = Some d2 ->
  billing_items d2 = billing_items d1
  /\ next_bill_id d2 = next_bill_id d1
  /\ Forall2 (retotalled d1 n) (bills d1) (bills d2).
Proof.
  unfold update_bill_total.
  destruct (update_totals d1 n (bills d1)) as [bs|] eqn:U; [|discriminate].
  intros [= <-]. simpl. repeat split. now apply update_totals_inv.
Qed.

Lemma Forall2_right {A B : Type} (R : A -> B -> Prop) (l : list A)
    (l' : list B) (y : B) :
  Forall2 R l l' -> In y l' -> exists x, In x l /\ R x y.
Proof.
  induction 1 as [|x z l l' Rxz F IH]; simpl; [contradiction|].
  intros [<- | H].
  - exists x. auto.
  - destruct (IH H) as (x' & I & Rx). exists x'. auto.
Qed.

Lemma Forall2_left {A B : Type} (R : A -> B -> Prop) (l : list A)
    (l' : list B) (x : A) :
  Forall2 R l l' -> In x l -> exists y, In y l' /\ R x y.
Proof.
  induction 1 as [|a z l l' Raz F IH]; simpl; [contradiction|].
  intros [<- | H].
  - exists z. auto.
  - destruct (IH H) as (y & I & Ry). exists y. auto.
Qed.

Lemma insert_item_refused (e : engine) (n : Js.num) (descr : string)
    (q p : Js.num) (d d1 : db) :
  insert_item e n descr q p d = (None, d1) ->
  same_rows d d1 /\ next_bill_id d1 = next_bill_id d.
Proof.
  unfold insert_item, same_rows.
  destruct (int_column e n); [|intros [= <-]; auto].
  destruct (varchar 200 descr); [|intros [= <-]; auto].
  destruct (int_column e q); [|intros [= <-]; auto].
  destruct (decimal_column e p); [|intros [= <-]; auto].
  destruct (existsb _ _); [discriminate|]. intros [= <-]. auto.
Qed.

Lemma post_billing_items_cases (e : engine) (body : item_body) (d : db) :
  (same_rows d (snd (post_billing_items e body d))
   /\ next_bill_id (snd (post_billing_items e body d)) = next_bill_id d
   /\ status_of (fst (post_billing_items e body d)) <> 201)
  \/ exists descr id d1,
       insert_item e (item_bill body) descr (item_qty body)
         (item_unit_price body) d = (Some id, d1)
       /\ ((update_bill_total (item_bill body) d1 = None
            /\ post_billing_items e body d
               = (Failed 500 dbErrorPayload, d1))
           \/ exists d2,
                update_bill_total (item_bill body) d1 = Some d2
                /\ post_billing_items e body d = (Sent 201 id, d2)).
Proof.
  assert (Same : same_rows d d) by (split; reflexivity).
  unfold post_billing_items. fold (item_bill body).
  destruct (Js.falsy_num (item_bill body));
    [left; cbn [fst snd]; repeat split; auto; simpl; discriminate|].
  destruct (String.eqb _ "");
    [left; cbn [fst snd]; repeat split; auto; simpl; discriminate|].
  destruct (negb _ || _);
    [left; cbn [fst snd]; repeat split; auto; simpl; discriminate|].
  destruct (insert_item _ _ _ _ _ _) as [[id|] d1] eqn:I.
  - right. eexists _, id, d1. split; [exact I|].
    destruct (update_bill_total _ d1) as [d2|].
    + right. exists d2. auto.
    + left. auto.
  - left. cbn [fst snd]. destruct (insert_item_refused _ _ _ _ _ _ _ I) as [S N].
    repeat split; auto; try apply S. simpl. discriminate.
Qed.

Lemma items_of_app (d : db) (l : list item) (row : item) (id : Z) :
  billing_items d = (l ++ [row])%list ->
  items_of d id
  = (filter (fun i => i_bill_id i =? id) l
     ++ (if i_bill_id row =? id then [row] else []))%list.
Proof.
  unfold items_of. intros ->. rewrite filter_app. reflexivity.
Qed.

(** An item addition answered 201 under a whole bill id [z] leaves every
    bill of id [z] with the rounded sum of all the items of [z]; the other
    bills and their items are as before. *)
Lemma add_item_recomputes (e : engine) (body : item_body) (d d' : db)
    (id z : Z) :
  post_billing_items e body d = (Sent 201 id, d') ->
  item_bill body = Js.Fin (inject_Z z) ->
  (exists row,
      billing_items d' = (billing_items d ++ [row])%list
      /\ i_bill_id row = z /\ i_id row = id
      /\ exists b, In b (bills d) /\ b_id b = z)
  /\ next_bill_id d' = next_bill_id d
  /\ Forall2 (fun b b' =>
        b_id b' = b_id b
        /\ if b_id b =? z
           then b_total_amount b'
                = round_scale 2 2 (total_of (items_of d' z))
           else b' = b) (bills d) (bills d').
Proof.
  intros H W.
  destruct (post_billing_items_cases e body d)
    as [(_ & _ & N) | (descr & id1 & d1 & I & [[_ F] | (d2 & U & R)])].
  - rewrite H in N. simpl in N. contradiction.
  - rewrite H in F. discriminate.
  - rewrite H in R. injection R as -> ->.
    rewrite W in I, U.
    destruct (insert_item_inv _ _ _ _ _ _ _ _ I)
      as (row & Its & Bs & Nx & Rid & Col & _ & Par).
    destruct (update_bill_total_inv _ _ _ U) as (Its2 & Nx2 & F2).
    apply int_column_whole in Col.
    split; [|split].
    + exists row. rewrite Its2, Its, <- Col. auto.
    + congruence.
    + rewrite <- Bs. eapply Forall2_impl; [|exact F2].
      intros b b' [Eid T]. split; [exact Eid|].
      rewrite int_eq_param_int in T.
      destruct (Z.eqb_spec (b_id b) z) as [E | _]; [|exact T].
      rewrite T, E. unfold items_of. now rewrite Its2.
Qed.

Lemma same_rows_keep (d d' : db) :
  same_rows d d' -> next_bill_id d <= next_bill_id d' ->
  well_formed d -> totals_agree d ->
  well_formed d' /\ totals_agree d'.
Proof.
  intros [B I] N [FK Lt] T. unfold well_formed, foreign_keys_hold, totals_agree, items_of.
  rewrite B, I. repeat split; auto.
  intros b Hb. specialize (Lt b Hb). lia.
Qed.

Lemma whole_addition_keeps (e : engine) (body : item_body) (d d' : db)
    (id z : Z) :
  well_formed d -> totals_agree d ->
  post_billing_items e body d = (Sent 201 id, d') ->
  item_bill body = Js.Fin (inject_Z z) ->
  well_formed d' /\ totals_agree d'.
Proof.
  intros [FK Lt] T P201 W.
  destruct (add_item_recomputes e body d d' id z P201 W)
    as ((row & Its & Rz & _ & (b0 & B0 & B0z)) & Nx & F2).
  split; [split|].
  - intros i Hi. rewrite Its in Hi. apply in_app_or in Hi.
    destruct Hi as [Hi | [<- | []]].
    + destruct (FK i Hi) as (b & Hb & E).
      destruct (Forall2_left _ _ _ b F2 Hb) as (b' & Hb' & Eid & _).
      exists b'. split; [exact Hb' | congruence].
    + destruct (Forall2_left _ _ _ b0 F2 B0) as (b' & Hb' & Eid & _).
      exists b'. split; [exact Hb' | congruence].
  - intros b' Hb'.
    destruct (Forall2_right _ _ _ b' F2 Hb') as (b & Hb & Eid & _).
    rewrite Nx, Eid. exact (Lt b Hb).
  - intros b' Hb'.
    destruct (Forall2_right _ _ _ b' F2 Hb') as (b & Hb & Eid & Tot).
    destruct (Z.eqb_spec (b_id b) z) as [E | N].
    + rewrite Tot. f_equal. congruence.
    + subst b'. rewrite (T b Hb). f_equal. f_equal.
      rewrite (items_of_app d' _ row _ Its).
      destruct (Z.eqb_spec (i_bill_id row) (b_id b)) as [E | _];
        [congruence|].
      rewrite app_nil_r. reflexivity.
Qed.

Lemma add_item_keeps_totals (e : engine) (body : item_body) (d : db) :
  well_formed d -> totals_agree d -> recomputed e d (AddItem body) ->
  well_formed (step e d (AddItem body))
  /\ totals_agree (step e d (AddItem body)).
Proof.
  intros WF T R. simpl in *.
  destruct (post_billing_items_cases e body d)
    as [(S & N & _) | (descr & id & d1 & I & [[_ F] | (d' & U & P201)])].
  - apply (same_rows_keep d _ S); auto. lia.
  - destruct R as [S | [S _]]; [|rewrite F in S; discriminate].
    destruct (insert_item_inv _ _ _ _ _ _ _ _ I) as (_ & _ & _ & N & _).
    rewrite F in *. simpl in *. apply (same_rows_keep d _ S); auto. lia.
  - destruct R as [S | [_ [z W]]].
    + assert (N : next_bill_id (snd (post_billing_items e body d))
                  = next_bill_id d).
      { rewrite P201. simpl.
        destruct (insert_item_inv _ _ _ _ _ _ _ _ I) as (_ & _ & _ & N & _).
        destruct (update_bill_total_inv _ _ _ U) as (_ & N2 & _). congruence. }
      apply (same_rows_keep d _ S); auto. lia.
    + rewrite P201. simpl.
      exact (whole_addition_keeps e body d d' id z WF T P201 W).
Qed.

Lemma insert_bill_refused (e : engine) (c : clock) (n : Js.num)
    (no : string) (date : option string) (cur st : string) (d d1 : db) :
  insert_bill e c n no date cur st d = (None, d1) ->
  same_rows d d1 /\ next_bill_id d <= next_bill_id d1.
Proof.
  unfold insert_bill, same_rows.
  destruct (int_column e n); [|intros [= <-]; repeat split; lia].
  destruct (varchar 60 no); [|intros [= <-]; repeat split; lia].
  destruct (date_of_string e _); [|intros [= <-]; repeat split; lia].
  destruct (varchar 3 cur); [|intros [= <-]; repeat split; lia].
  destruct (_ && _); [discriminate|]. intros [= <-]. simpl.
  repeat split. lia.
Qed.

Lemma post_billing_cases (e : engine) (c : clock) (body : bill_body) (d : db) :
  (same_rows d (snd (post_billing e c body d))
   /\ next_bill_id d <= next_bill_id (snd (post_billing e c body d)))
  \/ exists id no d', post_billing e c body d = (Sent 201 (id, no), d').
Proof.
  unfold post_billing.
  destruct (Js.falsy_num _); [left; simpl; repeat split; lia|].
  destruct (insert_bill _ _ _ _ _ _ _ _) as [[id|] d'] eqn:I.
  - right. eexists _, _, _. reflexivity.
  - left. simpl. exact (insert_bill_refused _ _ _ _ _ _ _ _ _ I).
Qed.

Lemma no_items_yet (d : db) :
  well_formed d -> items_of d (next_bill_id d) = [].
Proof.
  intros [FK Lt]. unfold items_of.
  assert (A : forall i, In i (billing_items d) ->
                (i_bill_id i =? next_bill_id d) = false).
  { intros i Hi. destruct (FK i Hi) as (b & Hb & E).
    specialize (Lt b Hb). apply Z.eqb_neq. lia. }
  induction (billing_items d) as [|i l IH]; [reflexivity|].
  simpl. rewrite (A i (or_introl eq_refl)). apply IH.
  intros j Hj. apply A. now right.
Qed.

Lemma create_bill_keeps_totals (e : engine) (c : clock) (body : bill_body)
    (d : db) :
  well_formed d -> totals_agree d ->
  well_formed (step e d (CreateBill c body))
  /\ totals_agree (step e d (CreateBill c body)).
Proof.
  intros WF T. simpl.
  destruct (post_billing_cases e c body d) as [[S N] | (id & no & d' & P)];
    [exact (same_rows_keep d _ S N WF T)|].
  rewrite P. simpl.
  destruct (post_billing_created e c body d d' id no P)
    as (row & Bs & Eid & Rid & _ & _ & Zero & _ & Its & Nx).
  pose proof (no_items_yet d WF) as Empty. destruct WF as [FK Lt].
  split; [split|].
  - intros i Hi. rewrite Its in Hi. destruct (FK i Hi) as (b & Hb & E).
    exists b. rewrite Bs. split; [apply in_or_app; now left | exact E].
  - intros b Hb. rewrite Bs in Hb. rewrite Nx. apply in_app_or in Hb.
    destruct Hb as [Hb | [<- | []]]; [specialize (Lt b Hb)|]; lia.
  - intros b Hb. rewrite Bs in Hb. unfold items_of. rewrite Its.
    fold (items_of d (b_id b)). apply in_app_or in Hb.
    destruct Hb as [Hb | [<- | []]]; [exact (T b Hb)|].
    rewrite Zero, Rid, Eid, Empty. reflexivity.
Qed.

Lemma run_keeps_totals (e : engine) (rs : list request) (d : db) :
  well_formed d -> totals_agree d -> recomputed_all e d rs ->
  well_formed (run e d rs) /\ totals_agree (run e d rs).
Proof.
  revert d. induction rs as [|r rs IH]; intros d WF T R; [now split|].
  destruct R as [Rr Rrs].
  assert (K : well_formed (step e d r) /\ totals_agree (step e d r)).
  { destruct r as [c body | body].
    - apply (create_bill_keeps_totals e c body d WF T).
    - apply (add_item_keeps_totals e body d WF T Rr). }
  destruct K as [WF' T']. exact (IH (step e d r) WF' T' Rrs).
Qed.

(** C1, as amended.  From a database in which the totals agree with the
    items, after any sequence of bill creations and item additions in which
    every addition that stores a row names its bill by a whole number and
    is answered 201, every bill's total_amount is the sum of quantity *
    unit_price over all its items, rounded to two decimals.  A created bill
    has total 0 and no items; an addition answered 201 under a whole bill id
    sets that bill's total to the rounded sum over all its items, the new
    one included, whatever the total was before. *)
Theorem totals_agree_after_recomputed_additions :
  forall (e : engine) (rs : list request) (d : db),
    well_formed d -> totals_agree d -> recomputed_all e d rs ->
    totals_agree (run e d rs)
    /\ well_formed (run e d rs)
    /\ (forall c body id no d',
          post_billing e c body d = (Sent 201 (id, no), d') ->
          exists row,
            bills d' = (bills d ++ [row])%list /\ b_id row = id
            /\ b_total_amount row = 0 /\ items_of d' id = [])
    /\ (forall body id z d',
          post_billing_items e body d = (Sent 201 id, d') ->
          item_bill body = Js.Fin (inject_Z z) ->
          forall b, In b (bills d') -> b_id b = z ->
            b_total_amount b = round_scale 2 2 (total_of (items_of d' z))).
Proof.
  intros e rs d WF T R.
  split; [|split; [|split]].
  - apply (run_keeps_totals e rs d WF T R).
  - apply (run_keeps_totals e rs d WF T R).
  - intros c body id no d' P.
    destruct (post_billing_created e c body d d' id no P)
      as (row & Bs & Eid & Rid & _ & _ & Zero & _ & Its & _).
    exists row. repeat split; auto.
    unfold items_of. rewrite Its, Eid. apply (no_items_yet d WF).
  - intros body id z d' P W b Hb Ez.
    destruct (add_item_recomputes e body d d' id z P W) as (_ & _ & F2).
    destruct (Forall2_right _ _ _ b F2 Hb) as (b0 & _ & Eid & Tot).
    rewrite <- Eid, Ez, Z.eqb_refl in Tot. exact Tot.
Qed.

(** *** The seed, and runs from it *)

Lemma seed_well_formed : well_formed seed.
Proof.
  split.
  - intros i [<- | [<- | []]]; eexists; (split; [left; reflexivity | reflexivity]).
  - intros b [<- | []]. reflexivity.
Qed.

Lemma seed_totals_agree : totals_agree seed.
Proof. intros b [<- | []]. reflexivity. Qed.

(** A bill for patient 2, then two X-rays at 1500.50 on it. *)
Lemma totals_agree_after_recomputed_additions_witness :
  let rs :=
    [ CreateBill clock0
        {| patient_id := Js.Num (Js.Fin 2); currency := Js.Undefined;
           status := Js.Undefined; bill_no := Js.Undefined;
           bill_date := Js.Undefined |};
      AddItem {| bill_id := Js.Num (Js.Fin 2); description := Js.Str "X-ray";
                 qty := Js.Num (Js.Fin 2);
                 unit_price := Js.Num (Js.Fin (3001 # 2)) |} ] in
  well_formed seed /\ totals_agree seed
  /\ recomputed_all strict_engine seed rs
  /\ map b_total_amount (bills (run strict_engine seed rs)) = [430000; 300100]
  /\ totals_agree (run strict_engine seed rs).
Proof.
  cbv zeta.
  assert (R : recomputed_all strict_engine seed
    [ CreateBill clock0
        {| patient_id := Js.Num (Js.Fin 2); currency := Js.Undefined;
           status := Js.Undefined; bill_no := Js.Undefined;
           bill_date := Js.Undefined |};
      AddItem {| bill_id := Js.Num (Js.Fin 2); description := Js.Str "X-ray";
                 qty := Js.Num (Js.Fin 2);
                 unit_price := Js.Num (Js.Fin (3001 # 2)) |} ]).
  { split; [exact I|]. split; [|exact I].
    right. split; [reflexivity|]. exists 2. reflexivity. }
  split; [exact seed_well_formed|]. split; [exact seed_totals_agree|].
  split; [exact R|]. split; [reflexivity|].
  exact (proj1 (totals_agree_after_recomputed_additions strict_engine _ seed
                  seed_well_formed seed_totals_agree R)).
Defined.

(** C1 as stated fails.  A bill for patient 2, then 100000 units at 1000.00
    on it: the item is stored, the new sum of 100000000.00 does not fit
    DECIMAL(10,2), the UPDATE fails and the reply is 500; the bill keeps its
    total of 0 beside an item of 100000000.00. *)
Lemma total_stale_when_sum_exceeds_column :
  let create :=
    CreateBill clock0
      {| patient_id := Js.Num (Js.Fin 2); currency := Js.Undefined;
         status := Js.Undefined; bill_no := Js.Undefined;
         bill_date := Js.Undefined |} in
  let body :=
    {| bill_id := Js.Num (Js.Fin 2); description := Js.Str "MRI";
       qty := Js.Num (Js.Fin 100000);
       unit_price := Js.Num (Js.Fin 1000) |} in
  let d1 := run strict_engine seed [create] in
  let d2 := run strict_engine seed [create; AddItem body] in
  well_formed seed /\ totals_agree seed
  /\ fst (post_billing_items strict_engine body d1) = Failed 500 dbErrorPayload
  /\ map (fun b => (b_id b, b_total_amount b)) (bills d2) = [(1, 430000); (2, 0)]
  /\ map (fun i => (i_bill_id i, i_qty i, i_unit_price i)) (items_of d2 2)
     = [(2, 100000, 100000)]
  /\ total_of (items_of d2 2) = 10000000000
  /\ ~ totals_agree d2.
Proof.
  cbv zeta.
  split; [exact seed_well_formed|]. split; [exact seed_totals_agree|].
  split; [reflexivity|]. split; [reflexivity|]. split; [reflexivity|].
  split; [reflexivity|].
  intro T.
  specialize (T {| b_id := 2; b_patient_id := 2;
                   b_bill_no := "BILL-2026-400123"; b_bill_date := today;
                   b_currency := "DZD"; b_total_amount := 0;
                   b_status := "unpaid" |}).
  assert (H : 0 = 10000000000); [|discriminate].
  apply T. vm_compute. right. left. reflexivity.
Qed.

(** A bill id that is no whole number: the INT column rounds 1.5 to 2 and
    the item joins bill 2, while [WHERE b.id = 1.5] matches no bill; the
    reply is 201 and the total of bill 2 is not recomputed. *)
Example fractional_bill_id_skips_recompute :
  let create :=
    CreateBill clock0
      {| patient_id := Js.Num (Js.Fin 2); currency := Js.Undefined;
         status := Js.Undefined; bill_no := Js.Undefined;
         bill_date := Js.Undefined |} in
  let body :=
    {| bill_id := Js.Num (Js.Fin (3 # 2)); description := Js.Str "Cast";
       qty := Js.Num (Js.Fin 1); unit_price := Js.Num (Js.Fin 900) |} in
  let d1 := run strict_engine seed [create] in
  fst (post_billing_items strict_engine body d1) = Sent 201 3
  /\ map (fun b => (b_id b, b_total_amount b))
       (bills (snd (post_billing_items strict_engine body d1)))
     = [(1, 430000); (2, 0)]
  /\ total_of (items_of (snd (post_billing_items strict_engine body d1)) 2)
     = 90000.
Proof. vm_compute. repeat split; reflexivity. Qed.

(* ===================================================================== *)
(** ** The stored quantity, for a quantity that reads as a number         *)
(* ===================================================================== *)

(** POST /api/billing/items answered 201, for a request whose quantity
    reads as a number: the row that is stored has a whole quantity from 1 to
    100000, the INT column rounding what the handler clamped. *)
Lemma stored_qty_clamped (e : engine) (body : item_body) (d d' : db) (id : Z) :
  Js.Number (Js.or_else (qty body) (Js.Num (Js.Fin 1))) <> Js.NaN ->
  post_billing_items e body d = (Sent 201 id, d') ->
  exists row,
    billing_items d' = (billing_items d ++ [row])%list
    /\ i_id row = id
    /\ 1 <= i_qty row <= 100000.
Proof.
  intros Q P.
  destruct (post_billing_items_cases e body d)
    as [(_ & _ & N) | (descr & id1 & d1 & I & [[_ F] | (d2 & U & R)])].
  - rewrite P in N. simpl in N. contradiction.
  - rewrite P in F. discriminate.
  - rewrite P in R. injection R as -> ->.
    destruct (insert_item_inv _ _ _ _ _ _ _ _ I)
      as (row & Its & _ & _ & Rid & _ & Col & _).
    destruct (update_bill_total_inv _ _ _ U) as (Its2 & _).
    destruct (item_qty_of_number body Q) as (q & Eq & L & H).
    rewrite Eq in Col.
    exists row. rewrite Its2. repeat split; auto;
      apply (int_column_in_range e q (i_qty row) L H Col).
Qed.

Lemma stored_qty_clamped_witness :
  let body := {| bill_id := Js.Num (Js.Fin 1); description := Js.Str "Gauze";
                 qty := Js.Num (Js.Fin (-3)); unit_price := Js.Num (Js.Fin 40) |} in
  Js.Number (Js.or_else (qty body) (Js.Num (Js.Fin 1))) <> Js.NaN
  /\ exists d',
       post_billing_items strict_engine body seed = (Sent 201 3, d')
       /\ map i_qty (billing_items d') = [1; 1; 1]
       /\ exists row,
            billing_items d' = (billing_items seed ++ [row])%list
            /\ i_id row = 3
            /\ 1 <= i_qty row <= 100000.
Proof.
  cbv zeta. split; [discriminate|].
  eexists. split; [reflexivity|]. split; [reflexivity|].
  apply (stored_qty_clamped strict_engine
    {| bill_id := Js.Num (Js.Fin 1); description := Js.Str "Gauze";
       qty := Js.Num (Js.Fin (-3)); unit_price := Js.Num (Js.Fin 40) |}
    seed _ 3).
  - discriminate.
  - reflexivity.
Defined.

(** Two creations for patient 1 in one tick of the seed's clock. *)
Lemma generated_number_taken_witness :
  let body := {| patient_id := Js.Num (Js.Fin 1); currency := Js.Undefined;
                 status := Js.Undefined; bill_no := Js.Undefined;
                 bill_date := Js.Undefined |} in
  exists d1,
    post_billing strict_engine clock0 body seed
    = (Sent 201 (2, "BILL-2026-400123"), d1)
    /\ "BILL-2026-400123" = generateBillNo clock0
    /\ bills (snd (post_billing strict_engine clock0 body d1)) = bills d1
    /\ status_of (fst (post_billing strict_engine clock0 body d1)) <> 201.
Proof.
  cbv zeta. eexists. split; [reflexivity|].
  exact (generated_number_taken strict_engine clock0
    {| patient_id := Js.Num (Js.Fin 1); currency := Js.Undefined;
       status := Js.Undefined; bill_no := Js.Undefined;
       bill_date := Js.Undefined |}
    {| patient_id := Js.Num (Js.Fin 1); currency := Js.Undefined;
       status := Js.Undefined; bill_no := Js.Undefined;
       bill_date := Js.Undefined |}
    seed _ 2 "BILL-2026-400123" eq_refl eq_refl eq_refl).
Defined.

(* ===================================================================== *)
(** ** POST /api/billing: the status                                      *)
(* ===================================================================== *)

Lemma pickEnum_member (v : Js.val) (allowed : list string) (fallback : string) :
  In (pickEnum v allowed fallback) allowed \/ pickEnum v allowed fallback = fallback.
Proof.
  unfold pickEnum. destruct (Js.ToString _) as [t|]; [|now right].
  destruct (existsb _ allowed) eqn:E; [|now right].
  left. apply existsb_exists in E. destruct E as (x & Hx & Ex).
  apply String.eqb_eq in Ex. now rewrite Ex.
Qed.

Lemma pickEnum_string (s : string) (allowed : list string) (fallback : string) :
  In (Js.toLowerCase s) allowed ->
  pickEnum (Js.Str s) allowed fallback = Js.toLowerCase s.
Proof.
  intro H. unfold pickEnum, Js.or_else.
  assert (T : Js.ToString (if Js.truthy (Js.Str s) then Js.Str s else Js.Str "")
              = Some s).
  { simpl. destruct (String.eqb_spec s "") as [-> | _]; reflexivity. }
  rewrite T.
  assert (X : existsb (String.eqb (Js.toLowerCase s)) allowed = true).
  { apply existsb_exists. exists (Js.toLowerCase s). split; [exact H|].
    apply String.eqb_refl. }
  rewrite X. reflexivity.
Qed.

Lemma post_billing_created_status (e : engine) (c : clock) (body : bill_body)
    (d d' : db) (id : Z) (no : string) :
  post_billing e c body d = (Sent 201 (id, no), d') ->
  exists row,
    bills d' = (bills d ++ [row])%list
    /\ b_id row = id
    /\ b_status row = pickEnum (status body) bill_statuses "unpaid"
    /\ (exists pid, b_patient_id row = pid
                    /\ existsb (fun p => p_id p =? pid) (patients d) = true)
    /\ (String.length (b_bill_no row) <= 60)%nat
    /\ patients d' = patients d.
Proof.
  unfold post_billing. destruct (Js.falsy_num _); [discriminate|].
  unfold insert_bill.
  destruct (int_column _ _) as [pid|]; [|discriminate].
  destruct (varchar 60 _) as [n|] eqn:V; [|discriminate].
  destruct (date_of_string _ _) as [dt|]; [|discriminate].
  destruct (varchar 3 _) as [cur|]; [|discriminate].
  destruct (existsb _ (patients d)) eqn:P; [|discriminate].
  destruct (negb _); [|discriminate].
  intro H. injection H as <- <- <-.
  unfold varchar in V.
  destruct (_ <=? _)%nat eqn:L in V; [|discriminate]. injection V as <-.
  eexists. simpl. repeat split; eauto. now apply Nat.leb_le.
Qed.

Lemma existsb_eqb_in (x : string) (l : list string) :
  existsb (String.eqb x) l = if in_dec string_dec x l then true else false.
Proof.
  destruct (in_dec string_dec x l) as [I | N].
  - apply existsb_exists. exists x. split; [exact I | apply String.eqb_refl].
  - destruct (existsb (String.eqb x) l) eqn:E; [|reflexivity].
    apply existsb_exists in E. destruct E as (y & Hy & Ey).
    apply String.eqb_eq in Ey. subst y. contradiction.
Qed.

(** [pickEnum] over the statuses of a bill is the status the specification
    words: a word of the four in small letters, and "unpaid" for every
    other value. *)
Lemma pickEnum_spec_status (v : Js.val) :
  pickEnum v bill_statuses "unpaid" = spec_status v.
Proof.
  assert (Text : forall s,
            (if existsb (String.eqb (Js.toLowerCase s)) bill_statuses
             then Js.toLowerCase s else "unpaid")
            = (if in_dec string_dec (Js.toLowerCase s) bill_statuses
               then Js.toLowerCase s else "unpaid")).
  { intro s. rewrite existsb_eqb_in.
    destruct (in_dec string_dec _ _); reflexivity. }
  unfold pickEnum, spec_status, Js.or_else.
  destruct v as [| |[|]|[| | |q]|s|s]; try reflexivity.
  - cbn [Js.truthy]. destruct (negb (Qeq_bool q 0)); reflexivity.
  - cbn [Js.truthy]. destruct (String.eqb_spec s "") as [-> | _];
      cbn [negb Js.ToString]; [reflexivity | apply Text].
  - cbn [Js.truthy Js.ToString]. apply Text.
Qed.

(** POST /api/billing answered 201: the bill that is stored has one of the
    four statuses of the ENUM column.  It is the request's status in lower
    case when that is one of the four words in any mix of cases, the status
    being a string, or an array or object that converts to one; it is
    [unpaid] for every other value of the request's status: another text,
    a number, a boolean, null, or no status at all. *)
Theorem stored_status_is_enumerated :
  forall (e : engine) (c : clock) (body : bill_body) (d d' : db)
         (id : Z) (no : string),
    post_billing e c body d = (Sent 201 (id, no), d') ->
    exists row,
      bills d' = (bills d ++ [row])%list /\ b_id row = id
      /\ b_status row = spec_status (status body)
      /\ In (b_status row) bill_statuses
      /\ (forall s, status body = Js.Str s \/ status body = Js.Obj s ->
            In (Js.toLowerCase s) bill_statuses ->
            b_status row = Js.toLowerCase s)
      /\ (forall s, status body = Js.Str s \/ status body = Js.Obj s ->
            ~ In (Js.toLowerCase s) bill_statuses ->
            b_status row = "unpaid")
      /\ ((forall s, status body <> Js.Str s /\ status body <> Js.Obj s) ->
            b_status row = "unpaid")
      /\ (~ In (b_status row) ["paid"; "partially_paid"; "void"] ->
            b_status row = "unpaid")
      /\ (status body = Js.Undefined -> b_status row = "unpaid").
Proof.
  intros e c body d d' id no H.
  destruct (post_billing_created_status e c body d d' id no H)
    as (row & B & I & S & _).
  change ["unpaid"; "paid"; "partially_paid"; "void"] with bill_statuses in S.
  rewrite pickEnum_spec_status in S.
  exists row. split; [exact B|]. split; [exact I|]. split; [exact S|].
  assert (M : In (b_status row) bill_statuses).
  { rewrite S. unfold spec_status.
    destruct (status body) as [| |b|n|s|s]; try (left; reflexivity);
      (destruct (in_dec string_dec _ _) as [M | _];
       [exact M | left; reflexivity]). }
  split; [exact M|]. split; [|split; [|split; [|split]]].
  - intros s [Es | Es] Hs; rewrite S, Es; unfold spec_status;
      (destruct (in_dec string_dec _ _); [reflexivity | contradiction]).
  - intros s [Es | Es] Hs; rewrite S, Es; unfold spec_status;
      (destruct (in_dec string_dec _ _); [contradiction | reflexivity]).
  - intro N. rewrite S. unfold spec_status.
    destruct (status body) as [| |b|n|s|s]; try reflexivity;
      destruct (N s) as [N1 N2]; exfalso; [now apply N1 | now apply N2].
  - intro N. destruct M as [M | M]; [now symmetry|]. contradiction.
  - intro U. rewrite S, U. reflexivity.
Qed.

Lemma stored_status_is_enumerated_witness :
  let body := {| patient_id := Js.Num (Js.Fin 3); currency := Js.Undefined;
                 status := Js.Str "Partially_Paid"; bill_no := Js.Str " INV-7 ";
                 bill_date := Js.Undefined |} in
  exists d',
    post_billing strict_engine clock0 body seed = (Sent 201 (2, "INV-7"), d')
    /\ map b_status (bills d') = ["unpaid"; "partially_paid"]
    /\ exists row,
         bills d' = (bills seed ++ [row])%list /\ b_id row = 2
         /\ b_status row = spec_status (Js.Str "Partially_Paid")
         /\ In (b_status row) bill_statuses.
Proof.
  cbv zeta. eexists. split; [reflexivity|]. split; [reflexivity|].
  destruct (stored_status_is_enumerated strict_engine clock0
    {| patient_id := Js.Num (Js.Fin 3); currency := Js.Undefined;
       status := Js.Str "Partially_Paid"; bill_no := Js.Str " INV-7 ";
       bill_date := Js.Undefined |} seed _ 2 "INV-7" eq_refl)
    as (row & B & I & S & M & _).
  exists row. auto.
Defined.

(** Statuses that are none of the four words: the bill is stored as
    [unpaid]. *)
Example other_statuses_are_unpaid :
  map (fun v =>
         map b_status
           (skipn 1
              (bills (snd (post_billing strict_engine clock0
                             {| patient_id := Js.Num (Js.Fin 3);
                                currency := Js.Undefined; status := v;
                                bill_no := Js.Undefined;
                                bill_date := Js.Undefined |} seed)))))
    [Js.Str "cancelled"; Js.Str "paid "; Js.Bool true; Js.Num (Js.Fin 7);
     Js.Null; Js.Obj "[object Object]"; Js.Obj "VOID"; Js.Str "PAID"]
  = [["unpaid"]; ["unpaid"]; ["unpaid"]; ["unpaid"];
     ["unpaid"]; ["unpaid"]; ["void"]; ["paid"]].
Proof. vm_compute. reflexivity. Qed.

(* ===================================================================== *)
(** ** What a rejected request leaves behind                              *)
(* ===================================================================== *)

(** The replies of the items route on every JSON body, check by check in
    the order of the handler. *)
Lemma try_item_cases (e : engine) (ib : item_fields) (d : db) :
  (f_bill_id ib = Js.Throwing
   /\ try_post_billing_items e ib d = (Failed 500 dbErrorPayload, d))
  \/ (field_names_no_row (f_bill_id ib)
      /\ try_post_billing_items e ib d
         = (Failed 400 "bill_id is required", d))
  \/ (field_names_a_row (f_bill_id ib)
      /\ ~ field_is_text (f_description ib)
      /\ try_post_billing_items e ib d
         = (Failed 400 "description is required", d))
  \/ (field_names_a_row (f_bill_id ib)
      /\ field_is_text (f_description ib)
      /\ (f_qty ib = Js.Throwing
          \/ f_qty ib <> Js.Throwing /\ f_unit_price ib = Js.Throwing)
      /\ try_post_billing_items e ib d = (Failed 500 dbErrorPayload, d))
  \/ (field_names_a_row (f_bill_id ib)
      /\ field_is_text (f_description ib)
      /\ f_qty ib <> Js.Throwing
      /\ exists n, unit_price_reads ib n
                   /\ (negative_or_not_finite n
                       /\ try_post_billing_items e ib d
                          = (Failed 400 "unit_price must be >= 0", d)
                       \/ finite_nonneg n
                          /\ status_of (fst (try_post_billing_items e ib d))
                             <> 400)).
Proof.
  destruct (f_bill_id ib) as [b|] eqn:B.
  2:{ left. split; [reflexivity|].
      unfold try_post_billing_items. rewrite B. reflexivity. }
  right.
  destruct (Js.falsy_num (Js.Number (Js.or_else b (Js.Num (Js.Fin 0)))))
    eqn:R.
  { left. split.
    - exists b. split; [reflexivity|]. unfold names_a_row. rewrite R.
      discriminate.
    - unfold try_post_billing_items. rewrite B. cbn [Js.number_or].
      rewrite R. reflexivity. }
  right.
  assert (Row : field_names_a_row (Js.Plain b))
    by (exists b; split; [reflexivity | exact R]).
  assert (NoText : text_of (f_description ib) = None ->
            ~ field_is_text (f_description ib)
            /\ try_post_billing_items e ib d
               = (Failed 400 "description is required", d)).
  { intro T. split.
    - intros (v & V & Hv). rewrite V in T. cbn [text_of] in T.
      rewrite Hv in T. discriminate.
    - unfold try_post_billing_items. rewrite B. cbn [Js.number_or].
      rewrite R, T. reflexivity. }
  destruct (f_description ib) as [t|] eqn:T.
  2:{ left. split; [exact Row|]. now apply NoText. }
  destruct (isNonEmptyString t) eqn:Ht.
  2:{ left. split; [exact Row|]. apply NoText. cbn [text_of].
      rewrite Ht. reflexivity. }
  clear NoText. right.
  assert (Text : field_is_text (Js.Plain t))
    by (exists t; split; [reflexivity | exact Ht]).
  rewrite (try_item_after_checks e ib d b t B R T Ht).
  destruct (f_qty ib) as [q|] eqn:Q.
  2:{ left. repeat split; auto. }
  cbn [Js.number_or].
  destruct (f_unit_price ib) as [p|] eqn:P.
  2:{ left. repeat split; auto. right. split; [discriminate|reflexivity]. }
  right. split; [exact Row|]. split; [exact Text|]. split; [discriminate|].
  cbn [Js.number_or].
  set (n := Js.Number (Js.or_else p (Js.Num (Js.Fin 0)))).
  exists n. split.
  { unfold unit_price_reads. rewrite P. exists p. split; reflexivity. }
  destruct (price_check n) as [Bad Good].
  destruct (negb (Js.isFinite n) || Js.lt n (Js.Fin 0)) eqn:C.
  - left. split; [apply Bad|]; reflexivity.
  - right. split; [apply Good; reflexivity|].
    destruct (insert_and_recompute_replies e
                (Js.Number (Js.or_else b (Js.Num (Js.Fin 0)))) (trimmed t)
                (Js.max (Js.Fin 1) (Js.min (Js.Fin 100000)
                   (Js.Number (Js.or_else q (Js.Num (Js.Fin 1)))))) n d)
      as [_ [(id & X) | X]]; rewrite X; discriminate.
Qed.

Lemma field_row_or_not (f : Js.field) :
  field_names_a_row f -> field_names_no_row f -> False.
Proof.
  intros (v & V & Hv) (w & W & Hw). rewrite V in W. injection W as <-.
  contradiction.
Qed.

Lemma price_good_or_bad (n : Js.num) :
  finite_nonneg n -> negative_or_not_finite n -> False.
Proof.
  intros G B. apply (price_check n) in G. apply (price_check n) in B.
  congruence.
Qed.

Lemma unit_price_reads_once (ib : item_fields) (n m : Js.num) :
  unit_price_reads ib n -> unit_price_reads ib m -> n = m.
Proof.
  intros N M. apply unit_price_reads_iff in N, M. congruence.
Qed.

(** The replies of the bills route on every JSON body. *)
Lemma try_bill_cases (e : engine) (c : clock) (bb : bill_fields) (d : db) :
  (f_patient_id bb = Js.Throwing
   /\ try_post_billing e c bb d = (Failed 500 dbErrorPayload, d))
  \/ (field_names_no_row (f_patient_id bb)
      /\ try_post_billing e c bb d
         = (Failed 400 "patient_id is required", d))
  \/ (field_names_a_row (f_patient_id bb)
      /\ f_status bb = Js.Throwing
      /\ try_post_billing e c bb d = (Failed 500 dbErrorPayload, d))
  \/ (field_names_a_row (f_patient_id bb)
      /\ f_status bb <> Js.Throwing
      /\ status_of (fst (try_post_billing e c bb d)) <> 400).
Proof.
  unfold try_post_billing.
  destruct (f_patient_id bb) as [v|] eqn:V; [|left; auto].
  right. cbn [Js.number_or].
  destruct (Js.falsy_num (Js.Number (Js.or_else v (Js.Num (Js.Fin 0)))))
    eqn:R.
  { left. split; [|reflexivity]. exists v. split; [reflexivity|].
    unfold names_a_row. rewrite R. discriminate. }
  right.
  assert (Row : field_names_a_row (Js.Plain v))
    by (exists v; split; [reflexivity | exact R]).
  destruct (f_status bb) as [w|] eqn:W; [|left; auto].
  right. split; [exact Row|]. split; [discriminate|].
  cbn [try_pickEnum].
  destruct (insert_bill _ _ _ _ _ _ _ _) as [[i|] d1]; simpl; discriminate.
Qed.

(** A request that POST /api/billing or POST /api/billing/items answers
    400 has written nothing: the database is the one before the request;
    so has a request with an object whose conversion throws, which is
    answered 500.  POST /api/billing answers 400 exactly when the patient id
    converts to zero or to no number (a missing one does).  POST
    /api/billing/items answers 400 exactly when the bill id converts to zero
    or to no number, or else the description is no string or is blank, or
    else the quantity converts and the unit price converts to a number that
    is negative or not finite. *)
Theorem rejected_requests_write_nothing :
  forall (e : engine) (c : clock) (bb : bill_fields) (ib : item_fields)
         (d : db),
    (status_of (fst (try_post_billing e c bb d)) = 400 ->
       snd (try_post_billing e c bb d) = d)
    /\ (status_of (fst (try_post_billing_items e ib d)) = 400 ->
       snd (try_post_billing_items e ib d) = d)
    /\ (status_of (fst (try_post_billing e c bb d)) = 400
        <-> field_names_no_row (f_patient_id bb))
    /\ (status_of (fst (try_post_billing_items e ib d)) = 400
        <-> field_names_no_row (f_bill_id ib)
            \/ (field_names_a_row (f_bill_id ib)
                /\ ~ field_is_text (f_description ib))
            \/ (field_names_a_row (f_bill_id ib)
                /\ field_is_text (f_description ib)
                /\ f_qty ib <> Js.Throwing
                /\ exists n, unit_price_reads ib n
                             /\ negative_or_not_finite n))
    /\ (f_patient_id bb = Js.Throwing
        \/ field_names_a_row (f_patient_id bb) /\ f_status bb = Js.Throwing ->
        try_post_billing e c bb d = (Failed 500 dbErrorPayload, d))
    /\ (f_bill_id ib = Js.Throwing
        \/ field_names_a_row (f_bill_id ib)
           /\ field_is_text (f_description ib)
           /\ (f_qty ib = Js.Throwing \/ f_unit_price ib = Js.Throwing) ->
        try_post_billing_items e ib d = (Failed 500 dbErrorPayload, d)).
Proof.
  intros e c bb ib d.
  pose proof (try_bill_cases e c bb d) as BC.
  pose proof (try_item_cases e ib d) as IC.
  assert (NoRow : forall f, f = Js.Throwing -> ~ field_names_no_row f).
  { intros f F (v & V & _). congruence. }
  assert (NoRow' : forall f, f = Js.Throwing -> ~ field_names_a_row f).
  { intros f F (v & V & _). congruence. }
  assert (Reads : forall n, f_unit_price ib = Js.Throwing ->
            ~ unit_price_reads ib n).
  { intros n F (v & V & _). congruence. }
  split; [|split; [|split; [|split; [|split]]]].
  - destruct BC as [[_ E] | [[_ E] | [(_ & _ & E) | (_ & _ & N)]]];
      try (rewrite E; reflexivity). intro; contradiction.
  - destruct IC as [[_ E] | [[_ E] | [(_ & _ & E) | [(_ & _ & _ & E) |
      (_ & _ & _ & n & _ & [[_ E] | [_ N]])]]]];
      try (rewrite E; reflexivity). intro; contradiction.
  - destruct BC as [[T E] | [[T E] | [(R & _ & E) | (R & _ & N)]]].
    + rewrite E. split; [discriminate | intro X; exfalso; exact (NoRow _ T X)].
    + rewrite E. split; [intros _; exact T | reflexivity].
    + rewrite E. split; [discriminate|].
      intro X. exfalso. exact (field_row_or_not _ R X).
    + split; [intro; contradiction|].
      intro X. exfalso. exact (field_row_or_not _ R X).
  - destruct IC as [[T E] | [[T E] | [(R & D & E) | [(R & D & Q & E) |
      (R & D & Q & n & U & [[P E] | [P N]])]]]].
    + rewrite E. split; [discriminate|].
      intros [X | [(X & _) | (X & _)]]; exfalso;
        [exact (NoRow _ T X) | exact (NoRow' _ T X) | exact (NoRow' _ T X)].
    + rewrite E. split; [intros _; left; exact T | reflexivity].
    + rewrite E. split; [intros _; right; left; auto | reflexivity].
    + rewrite E. split; [discriminate|].
      intros [X | [(_ & X) | (_ & _ & X & m & M & _)]]; exfalso.
      * exact (field_row_or_not _ R X).
      * exact (X D).
      * destruct Q as [Q | [_ Q]]; [exact (X Q) | exact (Reads m Q M)].
    + rewrite E. split; [|reflexivity].
      intros _. right. right. repeat split; auto. exists n. auto.
    + split; [intro; contradiction|].
      intros [X | [(_ & X) | (_ & _ & _ & m & M & B)]]; exfalso.
      * exact (field_row_or_not _ R X).
      * exact (X D).
      * rewrite (unit_price_reads_once ib m n M U) in B.
        exact (price_good_or_bad n P B).
  - intros [T | [R T]].
    + destruct BC as [[_ E] | [[X _] | [(X & _) | (X & _)]]];
        [exact E | exfalso; exact (NoRow _ T X) | |];
        exfalso; exact (NoRow' _ T X).
    + destruct BC as [[_ E] | [[X _] | [(_ & _ & E) | (_ & X & _)]]];
        [exact E | exfalso; exact (field_row_or_not _ R X) | exact E
        | contradiction].
  - intros [T | (R & D & Q)].
    + destruct IC as [[_ E] | [[X _] | [(X & _) | [(X & _) | (X & _)]]]];
        [exact E | exfalso; exact (NoRow _ T X) | | |];
        exfalso; exact (NoRow' _ T X).
    + destruct IC as [[_ E] | [[X _] | [(_ & X & _) | [(_ & _ & _ & E) |
        (_ & _ & X & n & U & _)]]]].
      * exact E.
      * exfalso. exact (field_row_or_not _ R X).
      * contradiction.
      * exact E.
      * exfalso. destruct Q as [Q | Q]; [exact (X Q) | exact (Reads n Q U)].
Qed.

(** A body with an object for quantity whose conversion throws, and a unit
    price of -5: the handler answers 500, not 400, and writes nothing. *)
Example throwing_quantity :
  try_post_billing_items strict_engine
    {| f_bill_id := Js.Plain (Js.Num (Js.Fin 1));
       f_description := Js.Plain (Js.Str "Scan");
       f_qty := Js.Throwing;
       f_unit_price := Js.Plain (Js.Num (Js.Fin (-5))) |} seed
  = (Failed 500 dbErrorPayload, seed).
Proof. reflexivity. Qed.

(* ===================================================================== *)
(** ** What the two writing routes do to the tables                       *)
(* ===================================================================== *)

Lemma update_totals_identity (d : db) (n : Js.num) (bs bs' : list bill) :
  update_totals d n bs = Some bs' ->
  map bill_identity bs' = map bill_identity bs.
Proof.
  revert bs'. induction bs as [|b bs IH]; simpl; intros bs' H.
  - now injection H as <-.
  - destruct (update_totals d n bs) as [xs|];
      [|destruct (if int_eq_param _ _ then _ else _); discriminate].
    destruct (int_eq_param (b_id b) n).
    + destruct (assign_decimal_10_2 2 _) as [t|]; [|discriminate].
      simpl in H. injection H as <-. simpl. now rewrite (IH xs).
    + injection H as <-. simpl. now rewrite (IH xs).
Qed.

Lemma identity_columns (l l' : list bill) :
  map bill_identity l' = map bill_identity l ->
  map b_id l' = map b_id l /\ map b_bill_no l' = map b_bill_no l.
Proof.
  revert l'. induction l as [|b l IH]; intros [|b' l'] H; try discriminate;
    [now split|].
  simpl in H. injection H as E1 E2 E3 E4 E5 E6 T.
  destruct (IH l' T) as [A B]. simpl. now rewrite E1, E3, A, B.
Qed.

(** The outcome of a bill creation: nothing stored, or one bill appended
    under the next id, with a number no stored bill has. *)
Lemma post_billing_outcome (e : engine) (c : clock) (body : bill_body) (d : db) :
  let r := fst (post_billing e c body d) in
  let d' := snd (post_billing e c body d) in
  billing_items d' = billing_items d
  /\ next_item_id d' = next_item_id d
  /\ patients d' = patients d
  /\ ((bills d' = bills d /\ next_bill_id d <= next_bill_id d'
       /\ status_of r <> 201)
      \/ exists row,
           r = Sent 201 (next_bill_id d, b_bill_no row)
           /\ bills d' = (bills d ++ [row])%list
           /\ b_id row = next_bill_id d
           /\ b_total_amount row = 0
           /\ next_bill_id d' = next_bill_id d + 1
           /\ Forall (fun b => collate_eqb (b_bill_no b) (b_bill_no row) = false)
                (bills d)).
Proof.
  cbv zeta. unfold post_billing.
  destruct (Js.falsy_num _);
    [simpl; repeat split; left; repeat split; (lia || discriminate)|].
  unfold insert_bill.
  destruct (int_column _ _) as [pid|];
    [|simpl; repeat split; left; repeat split; (lia || discriminate)].
  destruct (varchar 60 _) as [n|] eqn:V;
    [|simpl; repeat split; left; repeat split; (lia || discriminate)].
  destruct (date_of_string _ _) as [dt|];
    [|simpl; repeat split; left; repeat split; (lia || discriminate)].
  destruct (varchar 3 _) as [cur|];
    [|simpl; repeat split; left; repeat split; (lia || discriminate)].
  destruct (existsb _ (patients d));
    [|simpl; repeat split; left; repeat split; (lia || discriminate)].
  destruct (existsb _ (bills d)) eqn:U;
    [simpl; repeat split; left; repeat split; (lia || discriminate)|].
  unfold varchar in V. destruct (_ <=? _)%nat in V; [|discriminate].
  injection V as <-. simpl. repeat split. right. eexists. simpl.
  repeat split; try reflexivity. apply Forall_forall. intros b Hb.
  destruct (collate_eqb (b_bill_no b) _) eqn:X; [|reflexivity].
  assert (T : existsb (fun b0 => collate_eqb (b_bill_no b0)
                (if isNonEmptyString (bill_no body) then trimmed (bill_no body)
                 else generateBillNo c)) (bills d) = true)
    by (apply existsb_exists; exists b; auto).
  congruence.
Qed.

Lemma update_bill_total_rest (n : Js.num) (d1 d2 : db) :
  update_bill_total n d1 = Some d2 ->
  billing_items d2 = billing_items d1
  /\ next_bill_id d2 = next_bill_id d1
  /\ next_item_id d2 = next_item_id d1
  /\ patients d2 = patients d1
  /\ map bill_identity (bills d2) = map bill_identity (bills d1).
Proof.
  unfold update_bill_total.
  destruct (update_totals d1 n (bills d1)) as [bs|] eqn:U; [|discriminate].
  intros [= <-]. simpl. repeat split.
  exact (update_totals_identity d1 n _ _ U).
Qed.

(** The outcome of an item addition: no bill appears, disappears or changes
    in anything but its total, and the items are as before or one more,
    stored under the next id for a bill that exists. *)
Lemma post_billing_items_outcome (e : engine) (body : item_body) (d : db) :
  let r := fst (post_billing_items e body d) in
  let d' := snd (post_billing_items e body d) in
  map bill_identity (bills d') = map bill_identity (bills d)
  /\ next_bill_id d' = next_bill_id d
  /\ patients d' = patients d
  /\ ((billing_items d' = billing_items d
       /\ next_item_id d <= next_item_id d' /\ status_of r <> 201)
      \/ exists row,
           billing_items d' = (billing_items d ++ [row])%list
           /\ i_id row = next_item_id d
           /\ next_item_id d' = next_item_id d + 1
           /\ In (i_bill_id row) (map b_id (bills d))
           /\ i_description row = trimmed (description body)
           /\ int_column e (item_bill body) = Some (i_bill_id row)
           /\ (r = Sent 201 (i_id row) \/ r = Failed 500 dbErrorPayload)
           /\ (String.length (i_description row) <= 200)%nat
           /\ names_a_row (bill_id body)
           /\ isNonEmptyString (description body) = true).
Proof.
  cbv zeta. unfold post_billing_items. fold (item_bill body).
  destruct (Js.falsy_num (item_bill body)) eqn:Row;
    [simpl; repeat split; left; repeat split; (lia || discriminate)|].
  destruct (isNonEmptyString (description body)) eqn:D;
    [|simpl; repeat split; left; repeat split; (lia || discriminate)].
  rewrite (nonempty_trimmed _ D).
  destruct (negb _ || _);
    [simpl; repeat split; left; repeat split; (lia || discriminate)|].
  unfold insert_item.
  destruct (int_column e (item_bill body)) as [bid|];
    [|simpl; repeat split; left; repeat split; (lia || discriminate)].
  destruct (varchar 200 _) as [ds|] eqn:V;
    [|simpl; repeat split; left; repeat split; (lia || discriminate)].
  destruct (int_column e (item_qty body)) as [q|];
    [|simpl; repeat split; left; repeat split; (lia || discriminate)].
  destruct (decimal_column e _) as [pr|];
    [|simpl; repeat split; left; repeat split; (lia || discriminate)].
  destruct (existsb _ (bills d)) eqn:X;
    [|simpl; repeat split; left; repeat split; (lia || discriminate)].
  unfold varchar in V. destruct (_ <=? _)%nat eqn:Len in V; [|discriminate].
  injection V as <-. apply Nat.leb_le in Len.
  assert (M : In bid (map b_id (bills d))).
  { apply existsb_exists in X. destruct X as (b & Hb & E).
    apply Z.eqb_eq in E. rewrite <- E. now apply in_map. }
  destruct (update_bill_total _ _) as [d2|] eqn:U.
  - destruct (update_bill_total_rest _ _ _ U) as (I2 & NB & NI & P & Id).
    simpl in *. rewrite Id, NB, P. repeat split. right. eexists.
    rewrite I2, NI. repeat split; eauto.
  - simpl. repeat split. right. eexists. repeat split; eauto.
Qed.

(* ===================================================================== *)
(** ** The keys of the billing tables                                     *)
(* ===================================================================== *)

Section SortedFacts.
Context {A B : Type} (R : B -> B -> Prop) (f : A -> B).

Lemma sorted_map (l : list A) :
  StronglySorted (fun a b => R (f a) (f b)) l <-> StronglySorted R (map f l).
Proof.
  induction l as [|x l IH]; simpl.
  - split; constructor.
  - split; intro H; apply StronglySorted_inv in H; destruct H as [S F];
      constructor; try (now apply IH).
    + rewrite Forall_map. exact F.
    + rewrite Forall_map in F. exact F.
Qed.
End SortedFacts.

Lemma sorted_snoc {A : Type} (R : A -> A -> Prop) (l : list A) (x : A) :
  StronglySorted R l -> Forall (fun a => R a x) l ->
  StronglySorted R (l ++ [x]).
Proof.
  induction 1 as [|y l S IH F]; simpl; intro H.
  - repeat constructor.
  - apply Forall_cons_iff in H. destruct H as [Ryx H].
    constructor; [now apply IH|].
    apply Forall_app. split; [exact F|]. now constructor.
Qed.

Lemma keys_by_columns (d : db) :
  keys_hold d
  <-> keys_of_columns (map b_id (bills d)) (map b_bill_no (bills d))
        (billing_items d) (next_bill_id d) (next_item_id d).
Proof.
  unfold keys_hold, keys_of_columns, well_formed, foreign_keys_hold,
    inserted_in_id_order.
  rewrite <- (sorted_map Z.lt b_id), <- (sorted_map _ b_bill_no), Forall_map,
    Forall_forall.
  split.
  - intros ((FK & Lt) & S & N & Sb & U). repeat split; auto.
    intros i Hi. destruct (FK i Hi) as (b & Hb & E). rewrite <- E.
    now apply in_map.
  - intros (FK & Lt & S & N & Sb & U). repeat split; auto.
    intros i Hi.
    specialize (FK i Hi). apply in_map_iff in FK. destruct FK as (b & E & Hb).
    exists b. auto.
Qed.

Lemma create_bill_keeps_keys (e : engine) (c : clock) (body : bill_body)
    (d : db) :
  keys_hold d -> keys_hold (step e d (CreateBill c body)).
Proof.
  intro K. apply keys_by_columns in K. apply keys_by_columns. simpl.
  destruct K as (FK & Lt & S & N & Sb & U).
  destruct (post_billing_outcome e c body d) as (I & NI & _ & O).
  cbv zeta in *. unfold keys_of_columns. rewrite I, NI.
  destruct O as [(B & NB & _) | (row & _ & B & Rid & _ & NB & Un)].
  - rewrite B. repeat split; auto.
    eapply Forall_impl; [|exact Lt]. simpl. intros. lia.
  - rewrite B, !map_app, NB. simpl. repeat split; auto.
    + intros i Hi. apply in_or_app. left. now apply FK.
    + apply Forall_app. split.
      * eapply Forall_impl; [|exact Lt]. simpl. intros. lia.
      * constructor; [lia | constructor].
    + apply sorted_snoc; [exact Sb|]. rewrite Rid. exact Lt.
    + apply sorted_snoc; [exact U|]. rewrite Forall_map. exact Un.
Qed.

Lemma add_item_keeps_keys (e : engine) (body : item_body) (d : db) :
  keys_hold d -> keys_hold (step e d (AddItem body)).
Proof.
  intro K. apply keys_by_columns in K. apply keys_by_columns. simpl.
  destruct K as (FK & Lt & S & N & Sb & U).
  destruct (post_billing_items_outcome e body d) as (Id & NB & _ & O).
  cbv zeta in *. destruct (identity_columns _ _ Id) as [Ids Nos].
  unfold keys_of_columns. rewrite Ids, Nos, NB.
  destruct O as [(I & NI & _) | (row & I & Rid & NI & M & _)].
  - rewrite I. repeat split; auto.
    intros i Hi. specialize (N i Hi). lia.
  - rewrite I, NI. repeat split; auto.
    + intros i Hi. apply in_app_or in Hi.
      destruct Hi as [Hi | [<- | []]]; [now apply FK | exact M].
    + apply sorted_snoc; [exact S|]. apply Forall_forall.
      intros i Hi. specialize (N i Hi). lia.
    + intros i Hi. apply in_app_or in Hi.
      destruct Hi as [Hi | [<- | []]]; [specialize (N i Hi)|]; lia.
Qed.

(** The keys of [bills] and [billing_items] hold after every sequence of
    bill creations and item additions, whatever the replies were: every
    item belongs to a stored bill, the ids of each table ascend in insertion
    order below the next AUTO_INCREMENT value, and no two bills have the
    same bill number. *)
Theorem keys_hold_after_every_run :
  forall (e : engine) (rs : list request) (d : db),
    keys_hold d ->
    keys_hold (run e d rs)
    /\ foreign_keys_hold (run e d rs)
    /\ inserted_in_id_order (run e d rs)
    /\ NoDup (map b_id (bills (run e d rs)))
    /\ NoDup (map i_id (billing_items (run e d rs))).
Proof.
  intros e rs d K.
  assert (R : keys_hold (run e d rs)).
  { revert d K. induction rs as [|r rs IH]; intros d K; [exact K|].
    simpl. apply IH. destruct r as [c body | body].
    - now apply create_bill_keeps_keys.
    - now apply add_item_keeps_keys. }
  split; [exact R|]. pose proof R as R'.
  destruct R as ((FK & _) & S & _ & Sb & _).
  split; [exact FK|]. split; [exact S|].
  assert (Nd : forall l : list Z, StronglySorted Z.lt l -> NoDup l).
  { induction 1 as [|x l Sl IHl F]; constructor; [|exact IHl].
    intro Hx. rewrite Forall_forall in F. specialize (F x Hx). lia. }
  split; apply Nd.
  - now apply (sorted_map Z.lt b_id).
  - now apply (sorted_map Z.lt i_id).
Qed.

Lemma seed_keys_hold : keys_hold seed.
Proof.
  split; [exact seed_well_formed|]. split; [|split; [|split]].
  - repeat constructor.
  - intros i [<- | [<- | []]]; reflexivity.
  - repeat constructor.
  - repeat constructor.
Qed.

Lemma keys_hold_after_every_run_witness :
  let rs :=
    [ CreateBill clock0
        {| patient_id := Js.Num (Js.Fin 2); currency := Js.Undefined;
           status := Js.Undefined; bill_no := Js.Undefined;
           bill_date := Js.Undefined |};
      CreateBill clock0
        {| patient_id := Js.Num (Js.Fin 3); currency := Js.Undefined;
           status := Js.Undefined; bill_no := Js.Undefined;
           bill_date := Js.Undefined |};
      AddItem {| bill_id := Js.Num (Js.Fin 9); description := Js.Str "Cast";
                 qty := Js.Num (Js.Fin 1); unit_price := Js.Num (Js.Fin 5) |};
      AddItem {| bill_id := Js.Num (Js.Fin 2); description := Js.Str "Cast";
                 qty := Js.Num (Js.Fin 1); unit_price := Js.Num (Js.Fin 5) |} ] in
  keys_hold seed
  /\ map b_id (bills (run strict_engine seed rs)) = [1; 2]
  /\ map i_id (billing_items (run strict_engine seed rs)) = [1; 2; 4]
  /\ keys_hold (run strict_engine seed rs).
Proof.
  cbv zeta. split; [exact seed_keys_hold|].
  split; [reflexivity|]. split; [reflexivity|].
  exact (proj1 (keys_hold_after_every_run strict_engine _ seed seed_keys_hold)).
Defined.

(** No request deletes or rewrites a row: after every sequence of bill
    creations and item additions the items begin with the items there were,
    unchanged, the bills begin with the bills there were, unchanged in every
    column but [total_amount], and the patients are the same. *)
Theorem runs_only_append :
  forall (e : engine) (rs : list request) (d : db),
    exists (more_bills : list bill) (more_items : list item),
      map bill_identity (bills (run e d rs))
      = (map bill_identity (bills d) ++ map bill_identity more_bills)%list
      /\ billing_items (run e d rs) = (billing_items d ++ more_items)%list
      /\ patients (run e d rs) = patients d.
Proof.
  intros e rs. induction rs as [|r rs IH]; intro d.
  - exists [], []. simpl. now rewrite !app_nil_r.
  - destruct (IH (step e d r)) as (bs & its & B & I & P).
    change (run e d (r :: rs)) with (run e (step e d r) rs).
    destruct r as [c body | body]; simpl in *.
    + destruct (post_billing_outcome e c body d) as (I1 & _ & P1 & O).
      cbv zeta in *. rewrite I1, P1 in *.
      destruct O as [(B1 & _) | (row & _ & B1 & _)]; rewrite B1 in B.
      * exists bs, its. auto.
      * exists (row :: bs), its. rewrite B, map_app, <- app_assoc. auto.
    + destruct (post_billing_items_outcome e body d) as (Id & _ & P1 & O).
      cbv zeta in *. rewrite Id, P1 in *.
      destruct O as [(I1 & _) | (row & I1 & _)]; rewrite I1 in I.
      * exists bs, its. auto.
      * exists bs, (row :: its). rewrite I, <- app_assoc. auto.
Qed.

(* ===================================================================== *)
(** ** Listing after writing                                              *)
(* ===================================================================== *)

Lemma total_of_perm (l l' : list item) :
  Permutation l l' -> total_of l = total_of l'.
Proof.
  induction 1; simpl; lia.
Qed.

Lemma sum_of_rows (l : list item) :
  sum_line_totals (map item_row_of l) = total_of l.
Proof.
  induction l as [|i l IH]; simpl; [reflexivity|].
  rewrite IH. unfold line_amount. now rewrite round_scale_same.
Qed.

Lemma listing_of_bill (v : Js.val) (id : Z) (d : db) :
  id <> 0 -> Js.Number v = Js.Fin (inject_Z id) ->
  get_billing_items v d
  = Sent 200 (map item_row_of (order_by i_id (items_of d id))).
Proof.
  intros N E. destruct (number_of_row v id N E) as [Eq Row].
  unfold get_billing_items. unfold names_a_row in Row. rewrite Row, Eq.
  unfold select_items. now rewrite filter_param.
Qed.

(** In a database whose totals agree with the items, the [line_total]s that
    GET /api/billing/items lists for a bill add up to the [total_amount] of
    that bill. *)
Theorem listed_line_totals_add_up :
  forall (v : Js.val) (d : db) (b : bill),
    totals_agree d -> In b (bills d) -> b_id b <> 0 ->
    Js.Number v = Js.Fin (inject_Z (b_id b)) ->
    exists rows,
      get_billing_items v d = Sent 200 rows
      /\ sum_line_totals rows = b_total_amount b.
Proof.
  intros v d b T Hb N E. eexists. split; [exact (listing_of_bill v _ d N E)|].
  rewrite sum_of_rows, (total_of_perm _ _ (order_by_perm i_id _)).
  rewrite (T b Hb). now rewrite round_scale_same.
Qed.

Lemma listed_line_totals_add_up_witness :
  exists rows,
    get_billing_items (Js.Str "1") seed = Sent 200 rows
    /\ sum_line_totals rows = 430000.
Proof.
  apply (listed_line_totals_add_up (Js.Str "1") seed
    {| b_id := 1; b_patient_id := 1; b_bill_no := "BILL-2026-0001";
       b_bill_date := today; b_currency := "DZD";
       b_total_amount := 430000; b_status := "unpaid" |}).
  - exact seed_totals_agree.
  - left. reflexivity.
  - discriminate.
  - reflexivity.
Defined.

(** A bill that POST /api/billing has just created lists no items. *)
Theorem new_bill_lists_no_items :
  forall (e : engine) (c : clock) (body : bill_body) (d d' : db)
         (id : Z) (no : string) (v : Js.val),
    well_formed d ->
    post_billing e c body d = (Sent 201 (id, no), d') ->
    id <> 0 -> Js.Number v = Js.Fin (inject_Z id) ->
    get_billing_items v d' = Sent 200 [].
Proof.
  intros e c body d d' id no v WF P N E.
  rewrite (listing_of_bill v id d' N E).
  destruct (post_billing_created e c body d d' id no P)
    as (_ & _ & Eid & _ & _ & _ & _ & _ & Its & _).
  unfold items_of. rewrite Its, Eid. fold (items_of d (next_bill_id d)).
  now rewrite (no_items_yet d WF).
Qed.

Lemma new_bill_lists_no_items_witness :
  let body := {| patient_id := Js.Num (Js.Fin 4); currency := Js.Str "eur";
                 status := Js.Undefined; bill_no := Js.Undefined;
                 bill_date := Js.Undefined |} in
  exists d',
    post_billing strict_engine clock0 body seed
    = (Sent 201 (2, "BILL-2026-400123"), d')
    /\ get_billing_items (Js.Str "2") d' = Sent 200 [].
Proof.
  cbv zeta. eexists. split; [reflexivity|].
  apply (new_bill_lists_no_items strict_engine clock0
    {| patient_id := Js.Num (Js.Fin 4); currency := Js.Str "eur";
       status := Js.Undefined; bill_no := Js.Undefined;
       bill_date := Js.Undefined |} seed _ 2 "BILL-2026-400123" (Js.Str "2")
    seed_well_formed eq_refl).
  - discriminate.
  - reflexivity.
Defined.

(** *** [trim] *)

Lemma drop_space_head (l : list ascii) :
  match Js.drop_space l with
  | [] => True
  | c :: _ => Js.is_space c = false
  end.
Proof.
  induction l as [|c l IH]; simpl; [exact I|].
  destruct (Js.is_space c) eqn:E; [exact IH | exact E].
Qed.

Lemma drop_space_snoc (l : list ascii) (h : ascii) :
  Js.is_space h = false ->
  Js.drop_space (l ++ [h]) = (Js.drop_space l ++ [h])%list.
Proof.
  intro H. induction l as [|c l IH]; simpl.
  - now rewrite H.
  - destruct (Js.is_space c); [exact IH | reflexivity].
Qed.

(** What [trim] leaves is empty or begins and ends with a character that is
    no white space. *)
Lemma trim_list_ends (l : list ascii) :
  match Js.trim_list l with
  | [] => True
  | c :: t => Js.is_space c = false /\ Js.is_space (last t c) = false
  end.
Proof.
  unfold Js.trim_list.
  pose proof (drop_space_head l) as H.
  destruct (Js.drop_space l) as [|h t]; [exact I|].
  simpl rev at 2. rewrite (drop_space_snoc _ h H), rev_app_distr. simpl.
  split; [exact H|].
  pose proof (drop_space_head (rev t)) as H2.
  destruct (Js.drop_space (rev t)) as [|x X]; [exact H|].
  simpl rev. now rewrite last_last.
Qed.

Lemma trim_no_outer_space (s : string) : no_outer_space (Js.trim s).
Proof.
  unfold no_outer_space, Js.trim.
  rewrite list_ascii_of_string_of_list_ascii. apply trim_list_ends.
Qed.

(** *** An item that was added is listed *)

Lemma items_of_snoc (d d' : db) (row : item) (z : Z) :
  billing_items d' = (billing_items d ++ [row])%list ->
  i_bill_id row = z ->
  items_of d' z = (items_of d z ++ [row])%list.
Proof.
  intros I E. rewrite (items_of_app d' _ row z I), E, Z.eqb_refl. reflexivity.
Qed.

(** POST /api/billing/items answered 201 under a whole bill id, in a
    database whose keys hold: GET /api/billing/items for that bill then
    lists the rows it listed before, followed by one new row, which has the
    id of the reply and, for a description, the request's description
    trimmed: not empty, at most 200 characters, no white space at either
    end. *)
Theorem added_item_is_listed :
  forall (e : engine) (body : item_body) (d d' : db) (id z : Z),
    keys_hold d ->
    post_billing_items e body d = (Sent 201 id, d') ->
    item_bill body = Js.Fin (inject_Z z) ->
    exists before row,
      get_billing_items (bill_id body) d = Sent 200 before
      /\ get_billing_items (bill_id body) d' = Sent 200 (before ++ [row])%list
      /\ r_id row = id
      /\ r_description row = trimmed (description body)
      /\ r_description row <> ""
      /\ (String.length (r_description row) <= 200)%nat
      /\ no_outer_space (r_description row).
Proof.
  intros e body d d' id z K P W.
  pose proof (add_item_keeps_keys e body d K) as K'. simpl in K'.
  rewrite P in K'. simpl in K'.
  destruct (post_billing_items_outcome e body d) as (_ & _ & _ & O).
  rewrite P in O. cbv zeta in O. simpl in O.
  destruct O as [(_ & _ & N) | (row & I & Rid & _ & _ & D & Col & R & Len & Row & Dn)];
    [contradiction|].
  assert (Eid : i_id row = id) by (destruct R as [R | R]; congruence).
  rewrite W in Col. apply int_column_whole in Col.
  assert (L : forall x, get_billing_items (bill_id body) x
                = Sent 200 (map item_row_of (order_by i_id (items_of x z)))).
  { intro x. unfold get_billing_items. unfold names_a_row in Row.
    fold (item_bill body) in *. rewrite Row, W.
    unfold select_items. now rewrite filter_param. }
  destruct K as (_ & S & _). destruct K' as (_ & S' & _).
  exists (map item_row_of (items_of d z)), (item_row_of row).
  rewrite !L.
  rewrite (order_by_ascending i_id (items_of d z))
    by (apply filter_ascending; exact S).
  rewrite (order_by_ascending i_id (items_of d' z))
    by (apply filter_ascending; exact S').
  rewrite (items_of_snoc d d' row z I Col), map_app. simpl.
  split; [reflexivity|]. split; [reflexivity|]. split; [exact Eid|].
  split; [exact D|].
  split; [|split].
  - intro E. pose proof (nonempty_trimmed _ Dn) as T.
    rewrite <- D, E in T. discriminate.
  - exact Len.
  - rewrite D. destruct (description body); try discriminate.
    apply trim_no_outer_space.
Qed.

Lemma added_item_is_listed_witness :
  let body := {| bill_id := Js.Str "1"; description := Js.Str "  Blood panel ";
                 qty := Js.Num (Js.Fin 2); unit_price := Js.Num (Js.Fin 1200) |} in
  exists d',
    post_billing_items strict_engine body seed = (Sent 201 3, d')
    /\ exists before row,
         get_billing_items (bill_id body) seed = Sent 200 before
         /\ get_billing_items (bill_id body) d' = Sent 200 (before ++ [row])%list
         /\ r_id row = 3
         /\ r_description row = "Blood panel".
Proof.
  cbv zeta. eexists. split; [reflexivity|].
  destruct (added_item_is_listed strict_engine
    {| bill_id := Js.Str "1"; description := Js.Str "  Blood panel ";
       qty := Js.Num (Js.Fin 2); unit_price := Js.Num (Js.Fin 1200) |}
    seed _ 3 1 seed_keys_hold eq_refl eq_refl)
    as (before & row & B & A & I & D & _).
  exists before, row. auto.
Defined.

(* ===================================================================== *)
(** ** The recompute statement                                            *)
(* ===================================================================== *)

Lemma update_totals_again (d d1 : db) (n : Js.num) (bs bs' : list bill) :
  billing_items d1 = billing_items d ->
  update_totals d n bs = Some bs' ->
  update_totals d1 n bs' = Some bs'.
Proof.
  intro I. revert bs'. induction bs as [|b bs IH]; simpl; intros bs' H.
  - now injection H as <-.
  - destruct (update_totals d n bs) as [xs|];
      [|destruct (if int_eq_param _ _ then _ else _); discriminate].
    specialize (IH xs eq_refl).
    destruct (int_eq_param (b_id b) n) eqn:M.
    + destruct (assign_decimal_10_2 2 _) as [t|] eqn:A; [|discriminate].
      simpl in H. injection H as <-. simpl. rewrite M, IH.
      unfold items_of in *. rewrite I, A. reflexivity.
    + injection H as <-. simpl. rewrite M, IH. reflexivity.
Qed.

(** The recompute UPDATE is idempotent, and it repairs: when it succeeds,
    running it again for the same bill id succeeds and changes nothing, and
    every bill it names then has the rounded sum of its items for a total,
    whatever its total was before. *)
Theorem recompute_is_idempotent :
  forall (n : Js.num) (d d1 : db),
    update_bill_total n d = Some d1 ->
    update_bill_total n d1 = Some d1
    /\ billing_items d1 = billing_items d
    /\ forall b, In b (bills d1) -> int_eq_param (b_id b) n = true ->
         b_total_amount b = round_scale 2 2 (total_of (items_of d1 (b_id b))).
Proof.
  intros n d d1 U.
  destruct (update_bill_total_inv n d d1 U) as (I & _ & F).
  assert (T : update_totals d n (bills d) = Some (bills d1)).
  { unfold update_bill_total in U.
    destruct (update_totals d n (bills d)) as [bs|]; [|discriminate].
    now injection U as <-. }
  split; [|split; [exact I|]].
  - unfold update_bill_total.
    rewrite (update_totals_again d d1 n (bills d) (bills d1) I T).
    destruct d1; reflexivity.
  - intros b Hb M.
    destruct (Forall2_right _ _ _ b F Hb) as (b0 & _ & Eid & Tot).
    rewrite <- Eid, M in Tot. rewrite Tot, Eid.
    unfold items_of. now rewrite I.
Qed.

Lemma recompute_is_idempotent_witness :
  let stale :=
    {| patients := patients seed; departments := departments seed;
       doctors := doctors seed; appointments := appointments seed;
       bills := [ {| b_id := 1; b_patient_id := 1;
                     b_bill_no := "BILL-2026-0001"; b_bill_date := today;
                     b_currency := "DZD"; b_total_amount := 0;
                     b_status := "unpaid" |} ];
       billing_items := billing_items seed;
       next_bill_id := 2; next_item_id := 3 |} in
  update_bill_total (Js.Fin 1) stale = Some seed
  /\ update_bill_total (Js.Fin 1) seed = Some seed.
Proof.
  cbv zeta. split; [reflexivity|].
  refine (proj1 (recompute_is_idempotent (Js.Fin 1)
    {| patients := patients seed; departments := departments seed;
       doctors := doctors seed; appointments := appointments seed;
       bills := [ {| b_id := 1; b_patient_id := 1;
                     b_bill_no := "BILL-2026-0001"; b_bill_date := today;
                     b_currency := "DZD"; b_total_amount := 0;
                     b_status := "unpaid" |} ];
       billing_items := billing_items seed;
       next_bill_id := 2; next_item_id := 3 |} seed _)).
  reflexivity.
Defined.

(* ===================================================================== *)
(** ** GET /api/appointments: the list                                    *)
(* ===================================================================== *)

Lemma joined_rows (d : db) (a : appointment) (doc : doctor) (dpt : department) :
  In (a, doc, dpt) (joined d) ->
  In a (appointments d) /\ In doc (doctors d) /\ In dpt (departments d)
  /\ doc_id doc = a_doctor_id a /\ dpt_id dpt = a_department_id a.
Proof.
  unfold joined. intro H.
  apply in_flat_map in H. destruct H as (a' & Ha & H).
  apply in_flat_map in H. destruct H as (doc' & Hd & H).
  destruct (Z.eqb_spec (doc_id doc') (a_doctor_id a')) as [E1 | _];
    [|contradiction].
  apply in_flat_map in H. destruct H as (dpt' & Hp & H).
  destruct (Z.eqb_spec (dpt_id dpt') (a_department_id a')) as [E2 | _];
    [|contradiction].
  destruct H as [H | []]. injection H as <- <- <-. auto.
Qed.

Lemma firstn_sorted {A : Type} (R : A -> A -> Prop) (n : nat) (l : list A) :
  Sorted R l -> Sorted R (firstn n l).
Proof.
  revert l. induction n as [|n IH]; intros l S; [constructor|].
  destruct S as [|x l S H]; simpl; [constructor|].
  constructor; [now apply IH|].
  destruct H; destruct n; simpl; constructor. assumption.
Qed.

(** GET /api/appointments, whatever the [day] parameter: the reply is 200
    with at most 20 rows, in ascending order of appointment time; every row
    is an appointment of the table together with the doctor and the
    department it names, both of which exist. *)
Theorem appointments_listing :
  forall (c : clock) (day : Js.val) (d : db),
    exists rows,
      get_appointments c day d = Sent 200 rows
      /\ (List.length rows <= 20)%nat
      /\ Sorted (fun r r' => a_appt_time (fst (fst r))
                             <= a_appt_time (fst (fst r'))) rows
      /\ forall a doc dpt, In (a, doc, dpt) rows ->
           In a (appointments d) /\ In doc (doctors d)
           /\ In dpt (departments d)
           /\ doc_id doc = a_doctor_id a /\ dpt_id dpt = a_department_id a.
Proof.
  intros c day d. eexists. split; [reflexivity|].
  unfold select_appointments. split; [|split].
  - rewrite length_firstn. lia.
  - apply firstn_sorted.
    apply (order_by_sorted (fun r => a_appt_time (fst (fst r)))).
  - intros a doc dpt H. apply joined_rows.
    assert (I : In (a, doc, dpt)
                  (order_by (fun r => a_appt_time (fst (fst r)))
                     (filter
                        (fun r : appointment * doctor * department =>
                           match where_date c day with
                           | Some date => String.eqb (a_appt_date (fst (fst r))) date
                           | None => true
                           end) (joined d)))).
    { rewrite <- (firstn_skipn 20 (order_by _ _)). apply in_or_app. now left. }
    apply (Permutation_in _ (order_by_perm _ _)) in I.
    apply filter_In in I. tauto.
Qed.

(* ===================================================================== *)
(** ** GET /api/doctors: initials                                         *)
(* ===================================================================== *)

Example initials_of_names :
  map (Directory.toInitials latin1_upper)
    ["Dr. Selim R."; "Dr. Imene K."; "dr  yacine b."; "Meriem"; "";
     "   "; "Dr."; "Dr.X Y"; "Drake Ol"; " Dr. A B"; "a b c"]
  = ["SR"; "IK"; "YB"; "M"; "DR"; "DR"; "D"; "DY"; "DO"; "DA"; "AB"].
Proof. vm_compute. reflexivity. Qed.

(** Names that begin outside ASCII, under Unicode's capitals: U+00E9 gives
    U+00C9, and U+00DF gives SS, which fills the two places by itself. *)
Example initials_beyond_ascii :
  Directory.toInitials latin1_upper (String (ascii_of_N 233) "mile Zola")
  = String (ascii_of_N 201) "Z"
  /\ Directory.toInitials latin1_upper (String (ascii_of_N 223) "eta") = "SS"
  /\ Directory.toInitials latin1_upper (String (ascii_of_N 223) "eta Gamma")
     = "SS".
Proof. vm_compute. repeat split; reflexivity. Qed.

Lemma upper_char_not_lower (c : ascii) : Js.is_lower (Js.upper_char c) = false.
Proof. destruct c as [[] [] [] [] [] [] [] []]; reflexivity. Qed.

Lemma space_is_no_d (c : ascii) :
  Js.is_space c = true -> (Js.code (Js.lower_char c) =? 100)%N = false.
Proof. destruct c as [[] [] [] [] [] [] [] []]; (reflexivity || discriminate). Qed.

Lemma list_ascii_of_app (a b : string) :
  list_ascii_of_string (a ++ b)
  = (list_ascii_of_string a ++ list_ascii_of_string b)%list.
Proof.
  induction a as [|c a IH]; simpl; [reflexivity | now rewrite IH].
Qed.

(** The capital of a first character has no lower-case letter, provided
    the runtime's capitals have none. *)
Lemma first_upper_shape (beyond : ascii -> string) (p : list ascii) :
  (forall c, no_lower_case (beyond c)) ->
  no_lower_case (Directory.first_upper beyond p).
Proof.
  intro B. unfold no_lower_case in *.
  destruct p as [|c p]; [constructor|].
  cbn [Directory.first_upper Js.toUpperCase].
  destruct (Js.is_ascii c).
  - repeat constructor. apply upper_char_not_lower.
  - rewrite list_ascii_of_app, app_nil_r. apply B.
Qed.

Lemma letters_shape (beyond : ascii -> string) (ps : list (list ascii)) :
  (forall c, no_lower_case (beyond c)) ->
  no_lower_case (String.concat "" (map (Directory.first_upper beyond) ps)).
Proof.
  intro B. induction ps as [|p ps IH]; [constructor|].
  pose proof (first_upper_shape beyond p B) as L.
  cbn [map String.concat].
  destruct (map (Directory.first_upper beyond) ps) as [|q qs] eqn:E;
    [exact L|].
  unfold no_lower_case in *.
  rewrite list_ascii_of_app. apply Forall_app. split; [exact L | exact IH].
Qed.

Lemma blank_pieces (b : bool) (l : list ascii) :
  Forall (fun c => Js.is_space c = true) l ->
  filter Directory.nonempty (Directory.split_space b [] l) = [].
Proof.
  intro H. revert b. induction H as [|c l Hc F IH]; intro b; [reflexivity|].
  simpl. rewrite Hc. destruct b; simpl; apply IH.
Qed.

Lemma drop_space_nil (l : list ascii) :
  Js.drop_space l = [] -> Forall (fun c => Js.is_space c = true) l.
Proof.
  induction l as [|c l IH]; simpl; [constructor|].
  destruct (Js.is_space c) eqn:E; [|discriminate].
  intro H. constructor; auto.
Qed.

Lemma blank_string (s : string) :
  Js.trim s = "" ->
  Forall (fun c => Js.is_space c = true) (list_ascii_of_string s).
Proof.
  unfold Js.trim. intro H.
  apply (f_equal list_ascii_of_string) in H.
  rewrite list_ascii_of_string_of_list_ascii in H. simpl in H.
  unfold Js.trim_list in H.
  apply drop_space_nil.
  destruct (Js.drop_space (list_ascii_of_string s)) as [|h t] eqn:D;
    [reflexivity|].
  exfalso. pose proof (drop_space_head (list_ascii_of_string s)) as Hh.
  rewrite D in Hh. simpl rev in H.
  rewrite (drop_space_snoc _ h Hh), rev_app_distr in H. discriminate.
Qed.

Lemma strip_title_blank (l : list ascii) :
  Forall (fun c => Js.is_space c = true) l -> Directory.strip_title l = l.
Proof.
  intro H. destruct H as [|d l Hd F]; [reflexivity|].
  destruct l as [|r rest]; [reflexivity|].
  simpl. rewrite (space_is_no_d d Hd). reflexivity.
Qed.

(** [toInitials]: the initials of a doctor are one or two characters, never
    none, whatever the runtime's capitals of the characters outside ASCII
    (the last [slice(0, 2)] sees to the two); there is no lower-case letter
    from a to z among them when those capitals have none, as Unicode's have
    not; a name that is empty or all white space gets "DR". *)
Theorem initials_shape :
  forall (beyond : ascii -> string) (name : string),
    (1 <= String.length (Directory.toInitials beyond name) <= 2)%nat
    /\ ((forall c, no_lower_case (beyond c)) ->
        no_lower_case (Directory.toInitials beyond name))
    /\ (Js.trim name = "" -> Directory.toInitials beyond name = "DR").
Proof.
  intros beyond name. unfold Directory.toInitials. cbv zeta.
  set (pieces := filter Directory.nonempty
                   (Directory.split_space false []
                      (Directory.strip_title (list_ascii_of_string name)))).
  change (Some 2) with (Some (Z.of_nat 2)). rewrite slice_first.
  set (joined := String.concat ""
                   (map (Directory.first_upper beyond) (firstn 2 pieces))).
  destruct (String.eqb_spec joined "") as [E | N].
  - split; [simpl; lia|]. split; [intros _; repeat constructor|]. reflexivity.
  - split; [|split].
    + split; [|apply first_chars_length].
      destruct joined; [contradiction | simpl; lia].
    + intro B. unfold no_lower_case. apply first_chars_keep.
      apply (letters_shape beyond (firstn 2 pieces) B).
    + intro B. exfalso. apply N.
      assert (P : pieces = []).
      { unfold pieces. pose proof (blank_string name B) as F.
        rewrite (strip_title_blank _ F). now apply blank_pieces. }
      unfold joined. rewrite P. reflexivity.
Qed.

(* ===================================================================== *)
(** ** POST /api/patients and POST /api/doctors: what reaches the INSERT  *)
(* ===================================================================== *)

Lemma trimmed_facts (v : Js.val) :
  isNonEmptyString v = true ->
  trimmed v <> "" /\ no_outer_space (trimmed v).
Proof.
  intro H. split.
  - intro E. pose proof (nonempty_trimmed v H) as T. rewrite E in T.
    discriminate.
  - destruct v; try discriminate. apply trim_no_outer_space.
Qed.

Lemma trimmed_or_null_facts (v : Js.val) :
  null_or_trimmed (Directory.trimmed_or_null v).
Proof.
  unfold Directory.trimmed_or_null, null_or_trimmed.
  destruct (isNonEmptyString v) eqn:E; [|exact I]. now apply trimmed_facts.
Qed.

Lemma pickEnum_in (v : Js.val) (allowed : list string) (fallback : string) :
  In fallback allowed -> In (pickEnum v allowed fallback) allowed.
Proof.
  intro F. destruct (pickEnum_member v allowed fallback) as [M | ->]; auto.
Qed.

Lemma pickEnumOrNull_in (v : Js.val) (allowed : list string) (g : string) :
  Directory.pickEnumOrNull v allowed = Some g -> In g allowed.
Proof.
  unfold Directory.pickEnumOrNull.
  destruct (Js.ToString _) as [t|]; [|discriminate].
  destruct (existsb _ allowed) eqn:E; [|discriminate].
  intros [= <-]. apply existsb_exists in E. destruct E as (x & Hx & Ex).
  apply String.eqb_eq in Ex. now rewrite Ex.
Qed.

(** POST /api/patients: the handler answers 400 [full_name is required]
    exactly when [full_name] is no string or a blank one; otherwise the
    values it binds to its INSERT are a name that is not empty and has no
    white space at either end, a status among the five of the ENUM column,
    a gender that is null or one of the three of its column, a phone and a
    date of birth that are null or trimmed and not empty, and a patient
    code that is the request's, trimmed, or else the generated one. *)
Theorem patient_values_are_clean :
  forall (n : Z) (body : Directory.patient_body),
    (Directory.post_patients n body
       = Directory.Refused 400 "full_name is required"
     <-> isNonEmptyString (Directory.pb_full_name body) = false)
    /\ forall v, Directory.post_patients n body = Directory.Bound v ->
         Directory.pv_full_name v <> ""
         /\ no_outer_space (Directory.pv_full_name v)
         /\ In (Directory.pv_status v) Directory.patient_statuses
         /\ (forall g, Directory.pv_gender v = Some g ->
               In g Directory.genders)
         /\ null_or_trimmed (Directory.pv_phone v)
         /\ null_or_trimmed (Directory.pv_dob v)
         /\ ((isNonEmptyString (Directory.pb_patient_code body) = false
              /\ Directory.pv_patient_code v
                 = Directory.generatePatientCode n)
             \/ (Directory.pv_patient_code v
                   = trimmed (Directory.pb_patient_code body)
                 /\ Directory.pv_patient_code v <> ""
                 /\ no_outer_space (Directory.pv_patient_code v))).
Proof.
  intros n body. unfold Directory.post_patients.
  destruct (isNonEmptyString (Directory.pb_full_name body)) eqn:F.
  - rewrite (nonempty_trimmed _ F).
    split; [split; discriminate|].
    intros v [= <-].
    cbn [Directory.pv_full_name Directory.pv_status Directory.pv_gender
         Directory.pv_phone Directory.pv_dob Directory.pv_patient_code].
    destruct (trimmed_facts _ F) as [N O].
    split; [exact N|]. split; [exact O|].
    split; [apply pickEnum_in; left; reflexivity|].
    split; [intros g G; exact (pickEnumOrNull_in _ _ g G)|].
    split; [apply trimmed_or_null_facts|].
    split; [apply trimmed_or_null_facts|].
    destruct (isNonEmptyString (Directory.pb_patient_code body)) eqn:C.
    + right. destruct (trimmed_facts _ C) as [N2 O2]. auto.
    + left. auto.
  - simpl. split; [split; reflexivity|]. discriminate.
Qed.

(** POST /api/doctors: the handler answers 400 [full_name is required]
    exactly when [full_name] is no string or a blank one, and 400
    [department_id is required] exactly when the name passes and the
    department id is missing, zero or no number; otherwise the values it
    binds to its INSERT are a department id that is a number other than
    zero, a name that is not empty and has no white space at either end, a
    status among the four of the ENUM column, and a specialty, an email and
    a phone that are null or trimmed and not empty. *)
Theorem doctor_values_are_clean :
  forall body : Directory.doctor_body,
    (Directory.post_doctors body
       = Directory.Refused 400 "full_name is required"
     <-> isNonEmptyString (Directory.db_full_name body) = false)
    /\ (Directory.post_doctors body
          = Directory.Refused 400 "department_id is required"
        <-> isNonEmptyString (Directory.db_full_name body) = true
            /\ ~ names_a_row (Directory.db_department_id body))
    /\ forall v, Directory.post_doctors body = Directory.Bound v ->
         names_a_row (Directory.db_department_id body)
         /\ Js.falsy_num (Directory.dv_department_id v) = false
         /\ Directory.dv_full_name v <> ""
         /\ no_outer_space (Directory.dv_full_name v)
         /\ In (Directory.dv_status v) Directory.doctor_statuses
         /\ null_or_trimmed (Directory.dv_specialty v)
         /\ null_or_trimmed (Directory.dv_email v)
         /\ null_or_trimmed (Directory.dv_phone v).
Proof.
  intro body. unfold Directory.post_doctors, names_a_row.
  destruct (isNonEmptyString (Directory.db_full_name body)) eqn:F.
  - rewrite (nonempty_trimmed _ F).
    destruct (Js.falsy_num _) eqn:D.
    + split; [split; discriminate|].
      split; [split; [intros _; split; [reflexivity | discriminate] | reflexivity]|].
      discriminate.
    + split; [split; discriminate|].
      split; [split; [discriminate | intros [_ N]; exfalso; now apply N]|].
      intros v [= <-].
      cbn [Directory.dv_department_id Directory.dv_full_name
           Directory.dv_status Directory.dv_specialty Directory.dv_email
           Directory.dv_phone].
      destruct (trimmed_facts _ F) as [N O].
      split; [reflexivity|]. split; [exact D|].
      split; [exact N|]. split; [exact O|].
      split; [apply pickEnum_in; left; reflexivity|].
      repeat split; apply trimmed_or_null_facts.
  - simpl. split; [split; reflexivity|].
    split; [split; [discriminate | intros [X _]; discriminate]|].
    discriminate.
Qed.

Example registrations :
  Directory.post_patients 48213
    {| Directory.pb_full_name := Js.Str "  Rania T. ";
       Directory.pb_patient_code := Js.Undefined;
       Directory.pb_gender := Js.Str "FEMALE";
       Directory.pb_status := Js.Str "sleeping";
       Directory.pb_phone := Js.Str "   ";
       Directory.pb_dob := Js.Str "1990-04-02" |}
  = Directory.Bound
      {| Directory.pv_patient_code := "P-48213";
         Directory.pv_full_name := "Rania T.";
         Directory.pv_dob := Some "1990-04-02";
         Directory.pv_gender := Some "female";
         Directory.pv_phone := None;
         Directory.pv_status := "stable" |}
  /\ Directory.post_doctors
       {| Directory.db_full_name := Js.Str "Dr. Lina M.";
          Directory.db_department_id := Js.Str "abc";
          Directory.db_specialty := Js.Undefined;
          Directory.db_email := Js.Undefined;
          Directory.db_phone := Js.Undefined;
          Directory.db_status := Js.Undefined |}
     = Directory.Refused 400 "department_id is required".
Proof. vm_compute. split; reflexivity. Qed.

(* ===================================================================== *)
(** ** Replies of 500, and bill ids that are no whole number              *)
(* ===================================================================== *)

(** A request that is answered 500.  POST /api/billing has then stored
    nothing.  POST /api/billing/items has left every bill as it was, and
    either stored nothing or stored the item alone: the INSERT had succeeded
    and the recompute UPDATE failed, so the totals are those from before the
    item. *)
Theorem failed_requests_and_rows :
  forall (e : engine) (c : clock) (bb : bill_body) (ib : item_body) (d : db),
    (status_of (fst (post_billing e c bb d)) = 500 ->
       same_rows d (snd (post_billing e c bb d)))
    /\ (status_of (fst (post_billing_items e ib d)) = 500 ->
       bills (snd (post_billing_items e ib d)) = bills d
       /\ (billing_items (snd (post_billing_items e ib d)) = billing_items d
           \/ exists row,
                billing_items (snd (post_billing_items e ib d))
                = (billing_items d ++ [row])%list
                /\ update_bill_total (item_bill ib)
                     (snd (post_billing_items e ib d)) = None)).
Proof.
  intros e c bb ib d. split.
  - intro H. destruct (post_billing_outcome e c bb d) as (I & _ & _ & O).
    cbv zeta in *. split; [|exact I].
    destruct O as [(B & _) | (row & R & _)]; [exact B|].
    rewrite R in H. discriminate.
  - intro H.
    destruct (post_billing_items_cases e ib d)
      as [((B & I) & _) | (descr & id & d1 & Ins & [[U F] | (d2 & _ & F)])].
    + split; [exact B | left; exact I].
    + rewrite F. simpl.
      destruct (insert_item_inv _ _ _ _ _ _ _ _ Ins) as (row & Its & Bs & _).
      split; [exact Bs|]. right. exists row. split; [exact Its | exact U].
    + rewrite F in H. discriminate.
Qed.

Lemma not_whole_matches_nothing (n : Js.num) (z : Z) :
  not_whole n -> int_eq_param z n = false.
Proof.
  intros [-> | [-> | (q & -> & N)]]; try reflexivity.
  simpl. destruct (Qeq_bool (inject_Z z) q) eqn:E; [|reflexivity].
  apply Qeq_bool_iff in E. exfalso. apply N. rewrite <- E.
  unfold Qfloor. simpl. rewrite Z.div_1_r. reflexivity.
Qed.

(** GET /api/billing/items with a billId that reads as a fraction or an
    infinity: the reply is 200 with an empty list, whatever the tables
    hold, no bill id being equal to such a number. *)
Theorem fractional_bill_id_lists_nothing :
  forall (v : Js.val) (d : db),
    not_whole (Js.Number v) ->
    get_billing_items v d = Sent 200 [].
Proof.
  intros v d W.
  assert (F : Js.falsy_num (Js.Number v) = false).
  { destruct W as [-> | [-> | (q & -> & N)]]; try reflexivity.
    unfold Js.falsy_num. simpl. rewrite negb_involutive.
    destruct (Qeq_bool q 0) eqn:E; [|reflexivity].
    apply Qeq_bool_iff in E. exfalso. apply N. rewrite E. reflexivity. }
  assert (T : Js.or_else v (Js.Num (Js.Fin 0)) = v).
  { pose proof (number_or_zero v) as R. rewrite F in R.
    unfold Js.or_else in *. destruct (Js.truthy v); [reflexivity|].
    discriminate. }
  unfold get_billing_items. rewrite T, F. unfold select_items.
  replace (filter _ (billing_items d)) with (@nil item); [reflexivity|].
  symmetry. induction (billing_items d) as [|i l IH]; [reflexivity|].
  simpl filter. rewrite (not_whole_matches_nothing _ (i_bill_id i) W). exact IH.
Qed.

Lemma fractional_bill_id_lists_nothing_witness :
  not_whole (Js.Number (Js.Str "1.5"))
  /\ get_billing_items (Js.Str "1.5") seed = Sent 200 [].
Proof.
  assert (W : not_whole (Js.Number (Js.Str "1.5"))).
  { right. right. exists (3 # 2)%Q. split; [reflexivity|]. discriminate. }
  split; [exact W|].
  exact (fractional_bill_id_lists_nothing (Js.Str "1.5") seed W).
Defined.
